(** * Voucher approval workflow (Django project [voucher_system])

    A shallow embedding of [vouchers/models.py], [vouchers/serializers.py]
    and [vouchers/views.py].  Database tables are lists of rows in
    insertion order, querysets are list computations over them, and every
    view is a function from the database (and the wall clock) to a response
    and a new database.

    - Character columns hold strings, as in the source; keys and timestamps
      are integers.
    - Constraints of the schema ([unique], [unique_together], one-to-one,
      primary keys) are not built into the tables: a statement that rests on
      one names it as a hypothesis, and [update_or_create] raises
      [MultipleObjectsReturned] where a constraint is violated.
    - An exception that escapes a view is the answer [Raised]; a view
      running inside [transaction.atomic()] then leaves the database as it
      was.
    - [Decimal(text)], the date parser of the serializer and the naming
      of stored files are an interface ([Runtime]); the worked examples use
      an ASCII instance. *)

From Stdlib Require Import List Finite Sorted String Ascii ZArith NArith Bool Lia.
From Stdlib Require Import Decimal DecimalString DecimalN DecimalZ DecimalNat.
Import ListNotations.

Local Open Scope string_scope.
Local Open Scope list_scope.
Local Open Scope Z_scope.

(* ================================================================== *)
(** * Python text and number primitives used by the source *)
(* ================================================================== *)

(** Text is modelled over the code points 0..255; the character classes
    below are the ones of Python's [str] on that range. *)
Module Py.

(** [c.isspace()] *)
Definition isspace (c : ascii) : bool :=
  let n := N_of_ascii c in
  ((9 <=? n) && (n <=? 13) || (28 <=? n) && (n <=? 32)
   || (n =? 133) || (n =? 160))%N.

(** [c.isdecimal()]: the ten ASCII digits, what [int()] accepts. *)
Definition isdecimal_char (c : ascii) : bool :=
  let n := N_of_ascii c in ((48 <=? n) && (n <=? 57))%N.

(** [c.isdigit()]: the ASCII digits and the superscripts U+00B2, U+00B3
    and U+00B9. *)
Definition isdigit_char (c : ascii) : bool :=
  let n := N_of_ascii c in
  (isdecimal_char c || (n =? 178) || (n =? 179) || (n =? 185))%N.

Fixpoint forallb_string (f : ascii -> bool) (s : string) : bool :=
  match s with
  | EmptyString => true
  | String c r => f c && forallb_string f r
  end.

(** Truth value of a string: [if s] / [not s]. *)
Definition truthy (s : string) : bool :=
  match s with EmptyString => false | String _ _ => true end.

(** [s.isdigit()]: at least one character and all of them digits. *)
Definition isdigit (s : string) : bool :=
  truthy s && forallb_string isdigit_char s.

Fixpoint lstrip (s : string) : string :=
  match s with
  | EmptyString => EmptyString
  | String c r => if isspace c then lstrip r else s
  end.

Fixpoint rstrip (s : string) : string :=
  match s with
  | EmptyString => EmptyString
  | String c r =>
      match rstrip r with
      | EmptyString => if isspace c then EmptyString else String c EmptyString
      | r' => String c r'
      end
  end.

(** [s.strip()] *)
Definition strip (s : string) : string := rstrip (lstrip s).

(** [s.startswith(p)] *)
Definition startswith (p s : string) : bool := String.prefix p s.

(** [s[n:]] *)
Fixpoint drop (n : nat) (s : string) : string :=
  match n, s with
  | O, _ => s
  | S n', String _ r => drop n' r
  | S _, EmptyString => EmptyString
  end.

(** [str(n)] for an [int]. *)
Definition str (z : Z) : string := NilEmpty.string_of_int (Z.to_int z).

(** [str(n)] for a loop counter. *)
Definition str_nat (n : nat) : string := NilEmpty.string_of_uint (Nat.to_uint n).

Fixpoint zeros (n : nat) : string :=
  match n with O => EmptyString | S n' => String "0" (zeros n') end.

Definition zfill (width : nat) (digits : string) : string :=
  (zeros (width - String.length digits) ++ digits)%string.

(** [f'{num:04d}']: sign first, then zero padding up to four columns. *)
Definition format_04d (num : Z) : string :=
  if num <? 0
  then String "-" (zfill 3 (NilEmpty.string_of_uint (N.to_uint (Z.to_N (Z.abs num)))))
  else zfill 4 (NilEmpty.string_of_uint (N.to_uint (Z.to_N num))).

(** Digits of an integer literal with the underscores taken out; [None]
    when an underscore is not between two digits.  [prev] tells whether
    the previous character was a digit. *)
Fixpoint literal_digits (prev : bool) (s : string) : option string :=
  match s with
  | EmptyString => if prev then Some EmptyString else None
  | String c r =>
      if isdecimal_char c
      then option_map (String c) (literal_digits true r)
      else if Ascii.eqb c "_"
           then (if prev
                 then match r with
                      | EmptyString => None
                      | _ => literal_digits false r
                      end
                 else None)
           else None
  end.

Definition unsigned_literal (s : string) : option Z :=
  match literal_digits false s with
  | Some ds => option_map (fun u => Z.of_N (N.of_uint u)) (NilEmpty.uint_of_string ds)
  | None => None
  end.

(** White space as [int()] skips it around a literal: the ASCII blanks and,
    on the range of the model, U+0085 and U+00A0.  The separators
    U+001C..U+001F, which [str.strip] takes off, are not white space for
    [int()]. *)
Definition isspace_int (c : ascii) : bool :=
  let n := N_of_ascii c in
  ((9 <=? n) && (n <=? 13) || (n =? 32) || (n =? 133) || (n =? 160))%N.

Fixpoint lstrip_int (s : string) : string :=
  match s with
  | EmptyString => EmptyString
  | String c r => if isspace_int c then lstrip_int r else s
  end.

Fixpoint rstrip_int (s : string) : string :=
  match s with
  | EmptyString => EmptyString
  | String c r =>
      match rstrip_int r with
      | EmptyString => if isspace_int c then EmptyString else String c EmptyString
      | r' => String c r'
      end
  end.

Definition strip_int (s : string) : string := rstrip_int (lstrip_int s).

(** [int(s)] on a text; [None] stands for [ValueError].  The interpreter's
    limit on the number of digits is left out here, where the texts are
    voucher numbers; [int_limited] below has it. *)
Definition int (s : string) : option Z :=
  match strip_int s with
  | String c r =>
      if Ascii.eqb c "+" then unsigned_literal r
      else if Ascii.eqb c "-" then option_map Z.opp (unsigned_literal r)
      else unsigned_literal (String c r)
  | EmptyString => None
  end.

(** [sys.get_int_max_str_digits()] as the interpreter sets it. *)
Definition int_max_str_digits : nat := 4300.

Fixpoint count_digits (s : string) : nat :=
  match s with
  | EmptyString => O
  | String c r => ((if isdecimal_char c then 1 else 0) + count_digits r)%nat
  end.

(** [int(s)] as the interpreter runs it: a text with more than 4300 digits
    is refused with [ValueError] whatever else it holds. *)
Definition int_limited (s : string) : option Z :=
  if (int_max_str_digits <? count_digits s)%nat then None else int s.

(** Number of decimal digits of a coefficient ([len(digittuple)]). *)
Definition ndigits (c : N) : Z :=
  Z.of_nat (String.length (NilEmpty.string_of_uint (N.to_uint c))).

Definition lower_char (c : ascii) : ascii :=
  let n := N_of_ascii c in
  if ((65 <=? n) && (n <=? 90))%N then ascii_of_N (n + 32) else c.

Fixpoint lower (s : string) : string :=
  match s with
  | EmptyString => EmptyString
  | String c r => String (lower_char c) (lower r)
  end.

(** Split at the last dot: [Some (stem, rest)]. *)
Fixpoint rpartition_dot (s : string) : option (string * string) :=
  match s with
  | EmptyString => None
  | String c r =>
      match rpartition_dot r with
      | Some (a, b) => Some (String c a, b)
      | None => if Ascii.eqb c "." then Some (EmptyString, r) else None
      end
  end.

(** [Path(name).suffix[1:]] for a bare file name. *)
Definition suffix1 (name : string) : string :=
  match rpartition_dot name with
  | Some (String _ _, (String _ _) as ext) => ext
  | _ => EmptyString
  end.

(** The double quote character. *)
Definition dquote : ascii := ascii_of_N 34.

(** A [decimal.Decimal] value. *)
Inductive Decimal : Type :=
| Finite (negative : bool) (coefficient : N) (exponent : Z)
| Infinity (negative : bool)
| NaN.

(** [d <= 0]; [None] stands for [InvalidOperation] (ordering a NaN). *)
Definition le_zero (d : Decimal) : option bool :=
  match d with
  | Finite neg c _ => Some (neg || (c =? 0)%N)
  | Infinity neg => Some neg
  | NaN => None
  end.

End Py.

(** The two library parsers the source calls are taken as an interface:
    [Decimal(text)] ([None] is [InvalidOperation]) and the date parser
    behind the serializer's [DateField].  So is the file storage:
    [storage_save taken upload_to name] is the name under which
    [FieldFile.save] stores an upload called [name] in the directory
    [upload_to] when the names [taken] are in use.  The storage cleans the
    name ([get_valid_filename]), and on a collision or an overlong name it
    picks another one ([get_available_name], with a random infix); the
    model asks nothing of the answer. *)
Record date : Type := mkDate { year : Z; month : Z; day : Z }.

Class Runtime : Type := {
  Decimal_of_string : string -> option Py.Decimal;
  parse_date : string -> option date;
  storage_save : list string -> string -> string -> string
}.

(* ================================================================== *)
(** * Tables *)
(* ================================================================== *)

(** django.contrib.auth: [auth_user], [auth_group], [auth_user_groups]. *)
Module User.
Record t : Type := mk {
  id : Z;
  username : string;
  is_superuser : bool
}.
End User.

Module Group.
Record t : Type := mk { id : Z; name : string }.
End Group.

Module UserGroup.
Record t : Type := mk { user_id : Z; group_id : Z }.
End UserGroup.

Module Designation.
Record t : Type := mk {
  id : Z;
  name : string;
  created_by : option Z;
  created_at : Z
}.
End Designation.

Module UserProfile.
Record t : Type := mk {
  id : Z;
  user : Z;
  designation : option Z
}.
End UserProfile.

Module Voucher.
Record t : Type := mk {
  id : Z;
  voucher_number : string;
  voucher_date : date;
  payment_type : string;
  name_title : string;
  pay_to : string;
  attachment : option string;
  cheque_number : option string;
  created_by : Z;
  created_at : Z;
  status : string
}.
End Voucher.

Module Particular.
Record t : Type := mk {
  id : Z;
  voucher : Z;
  description : string;
  amount : Py.Decimal;
  attachment : option string
}.
End Particular.

Module VoucherApproval.
Record t : Type := mk {
  id : Z;
  voucher : Z;
  approver : Z;
  status : string;
  approved_at : Z
}.
End VoucherApproval.

Module ActiveApprovalDesignation.
Record t : Type := mk {
  id : Z;
  designation : Z;
  is_active : bool;
  updated_by : Z;
  updated_at : Z
}.
End ActiveApprovalDesignation.

(** An uploaded file, and a file kept by the storage backend. *)
Record File : Type := mkFile { file_name : string; file_size : N }.

Record Db : Type := mkDb {
  users : list User.t;
  groups : list Group.t;
  user_groups : list UserGroup.t;
  designations : list Designation.t;
  profiles : list UserProfile.t;
  active_designations : list ActiveApprovalDesignation.t;
  vouchers : list Voucher.t;
  particulars : list Particular.t;
  approvals : list VoucherApproval.t;
  media : list string
}.

Definition empty_db : Db := mkDb [] [] [] [] [] [] [] [] [] [].

(** Row equality, for [SELECT DISTINCT]. *)
Definition option_Z_eq_dec (a b : option Z) : {a = b} + {a <> b}.
Proof. decide equality; apply Z.eq_dec. Defined.

Definition User_eq_dec (a b : User.t) : {a = b} + {a <> b}.
Proof. decide equality; [apply bool_dec | apply string_dec | apply Z.eq_dec]. Defined.

Definition UserProfile_eq_dec (a b : UserProfile.t) : {a = b} + {a <> b}.
Proof. decide equality; [apply option_Z_eq_dec | apply Z.eq_dec | apply Z.eq_dec]. Defined.

Definition profile_row_eq_dec (a b : UserProfile.t * User.t) : {a = b} + {a <> b}.
Proof. decide equality; [apply User_eq_dec | apply UserProfile_eq_dec]. Defined.

(** Fresh primary key of an auto-increment column. *)
Definition next_id (ids : list Z) : Z := 1 + fold_right Z.max 0 ids.

Definition mem_Z (x : Z) (l : list Z) : bool := existsb (Z.eqb x) l.

Definition mem_string (x : string) (l : list string) : bool :=
  existsb (String.eqb x) l.

(** JSON values of response bodies; [JTime] is a formatted timestamp and
    [JUrl name] the URL under which the storage serves the stored file
    [name] ([FieldFile.url], made absolute with the request). *)
#[warnings="-register-all"]
Inductive Json : Type :=
| JNull
| JBool (b : bool)
| JInt (z : Z)
| JNat (n : nat)
| JStr (s : string)
| JDec (d : Py.Decimal)
| JDate (d : date)
| JTime (t : Z)
| JUrl (name : string)
| JList (l : list Json)
| JObj (fields : list (string * Json)).

(** What a view hands back: a redirect (the mixins), [Http404], a DRF
    [Response] with its status code, or an exception that escapes the view. *)
Inductive Exn : Type :=
| ValueError
| IntegrityError
| MultipleObjectsReturned
| DatabaseError
| AttributeError
| InvalidOperation.

Inductive Response : Type :=
| Redirect (target : string)
| Http404
| JsonResponse (body : Json) (status : Z)
| Raised (e : Exn).

(** Scalars of a JSON request body and their [str()]. *)
Inductive Scalar : Type :=
| SNone
| SBool (b : bool)
| SInt (z : Z)
| SStr (s : string).

Definition str_scalar (x : Scalar) : string :=
  match x with
  | SNone => "None"
  | SBool true => "True"
  | SBool false => "False"
  | SInt z => Py.str z
  | SStr s => s
  end.

(** [request.data.get(key)] as the views read it. *)
Inductive Field : Type :=
| Missing
| Value (x : Scalar)
| Items (l : list Scalar)
| Other.

(* ================================================================== *)
(** * vouchers/models.py *)
(* ================================================================== *)

Module Models.

(** [ActiveApprovalDesignation.objects.filter(is_active=True)
      .values_list('designation__id', flat=True)] *)
Definition active_des_ids (db : Db) : list Z :=
  map ActiveApprovalDesignation.designation
      (filter ActiveApprovalDesignation.is_active (active_designations db)).

(** The [WHERE] clause shared by the two approver queries, on one row of
    the join of profile, user, membership and group. *)
Definition approver_row (active : list Z) (p : UserProfile.t) (u : User.t)
           (m : UserGroup.t) (g : Group.t) : bool :=
  (UserProfile.user p =? User.id u)
  && (UserGroup.user_id m =? User.id u)
  && (UserGroup.group_id m =? Group.id g)
  && String.eqb (Group.name g) "Admin Staff"
  && match UserProfile.designation p with
     | Some d => mem_Z d active
     | None => false
     end.

(** [UserProfile.objects.filter(user__groups__name='Admin Staff',
      designation__id__in=active_des_ids).select_related('user')]:
    profile JOIN user JOIN user_groups JOIN group. *)
Definition profile_join (db : Db) (active : list Z) : list (UserProfile.t * User.t) :=
  flat_map (fun p =>
    flat_map (fun u =>
      flat_map (fun m =>
        flat_map (fun g =>
          if approver_row active p u m g then [(p, u)] else [])
        (groups db))
      (user_groups db))
    (users db))
  (profiles db).

(** [Voucher.required_approvers] (models.py 66-77). *)
Definition required_approvers (db : Db) (self : Voucher.t) : list string :=
  let active_des_ids := active_des_ids db in
  map (fun row => User.username (snd row))
      (nodup profile_row_eq_dec (profile_join db active_des_ids)).

(** [self.approvals]: the approvals of one voucher. *)
Definition approvals_of (db : Db) (pk : Z) : list VoucherApproval.t :=
  filter (fun a => VoucherApproval.voucher a =? pk) (approvals db).

(** [Voucher.objects.order_by('-id').first()] *)
Definition last_voucher (vs : list Voucher.t) : option Voucher.t :=
  fold_left (fun best v =>
               match best with
               | Some b => if Voucher.id b <? Voucher.id v then Some v else best
               | None => Some v
               end) vs None.

(** The first half of [Voucher.save] (models.py 54-60): the number given to
    a voucher that has none. *)
Definition assign_voucher_number (db : Db) (self : Voucher.t) : Exn + Voucher.t :=
  if negb (Py.truthy (Voucher.voucher_number self))
  then
    let set n :=
      Voucher.mk (Voucher.id self) n (Voucher.voucher_date self)
                 (Voucher.payment_type self) (Voucher.name_title self)
                 (Voucher.pay_to self) (Voucher.attachment self)
                 (Voucher.cheque_number self) (Voucher.created_by self)
                 (Voucher.created_at self) (Voucher.status self) in
    match last_voucher (vouchers db) with
    | Some last =>
        if Py.startswith "VCH" (Voucher.voucher_number last)
        then match Py.int (Py.drop 3 (Voucher.voucher_number last)) with
             | Some n => inr (set ("VCH" ++ Py.format_04d (n + 1))%string)
             | None => inl ValueError
             end
        else inr (set "VCH0001")
    | None => inr (set "VCH0001")
    end
  else inr self.

Definition set_vouchers (db : Db) (vs : list Voucher.t) : Db :=
  mkDb (users db) (groups db) (user_groups db) (designations db) (profiles db)
       (active_designations db) vs (particulars db) (approvals db) (media db).

Definition set_approvals (db : Db) (l : list VoucherApproval.t) : Db :=
  mkDb (users db) (groups db) (user_groups db) (designations db) (profiles db)
       (active_designations db) (vouchers db) (particulars db) l (media db).

Definition set_active_designations (db : Db) (l : list ActiveApprovalDesignation.t) : Db :=
  mkDb (users db) (groups db) (user_groups db) (designations db) (profiles db)
       l (vouchers db) (particulars db) (approvals db) (media db).

Definition set_id (v : Voucher.t) (pk : Z) : Voucher.t :=
  Voucher.mk pk (Voucher.voucher_number v) (Voucher.voucher_date v)
             (Voucher.payment_type v) (Voucher.name_title v) (Voucher.pay_to v)
             (Voucher.attachment v) (Voucher.cheque_number v) (Voucher.created_by v)
             (Voucher.created_at v) (Voucher.status v).

Definition add_media (db : Db) (path : option string) : Db :=
  match path with
  | Some f =>
      mkDb (users db) (groups db) (user_groups db) (designations db) (profiles db)
           (active_designations db) (vouchers db) (particulars db) (approvals db)
           (media db ++ [f])
  | None => db
  end.

Definition set_attachment (v : Voucher.t) (name : option string) : Voucher.t :=
  Voucher.mk (Voucher.id v) (Voucher.voucher_number v) (Voucher.voucher_date v)
             (Voucher.payment_type v) (Voucher.name_title v) (Voucher.pay_to v)
             name (Voucher.cheque_number v) (Voucher.created_by v)
             (Voucher.created_at v) (Voucher.status v).

(** [Voucher.save] (models.py 53-61) on a new object, as
    [Voucher.objects.create] calls it.  The [attachment] of [self] is the
    name of the upload.  The number is assigned, the file goes to the
    storage while the INSERT is prepared ([upload_to] is
    vouchers/attachments/) and the object gets the name the storage
    answers, and the INSERT enforces [unique=True] on [voucher_number].
    The [id] of [self] is what the INSERT assigns. *)
Definition save {R : Runtime} (db : Db) (self : Voucher.t)
  : (Exn * Db) + (Voucher.t * Db) :=
  match assign_voucher_number db self with
  | inl e => inl (e, db)
  | inr self1 =>
      let stored :=
        option_map (storage_save (media db) "vouchers/attachments/")
                   (Voucher.attachment self1) in
      let self1 := set_attachment self1 stored in
      let db1 := add_media db stored in
      if existsb (fun v => String.eqb (Voucher.voucher_number v)
                                      (Voucher.voucher_number self1))
                 (vouchers db)
      then inl (IntegrityError, db1)
      else
        let self2 := set_id self1 (next_id (map Voucher.id (vouchers db))) in
        inr (self2, set_vouchers db1 (vouchers db ++ [self2]))
  end.

Definition set_status (v : Voucher.t) (st : string) : Voucher.t :=
  Voucher.mk (Voucher.id v) (Voucher.voucher_number v) (Voucher.voucher_date v)
             (Voucher.payment_type v) (Voucher.name_title v) (Voucher.pay_to v)
             (Voucher.attachment v) (Voucher.cheque_number v) (Voucher.created_by v)
             (Voucher.created_at v) st.

(** [self.save(update_fields=['status'])]: the number is (re)computed on
    the object only; the row of [self.id] gets the status column written. *)
Definition save_status (db : Db) (self : Voucher.t) : Exn + (Voucher.t * Db) :=
  match assign_voucher_number db self with
  | inl e => inl e
  | inr self' =>
      if existsb (fun v => Voucher.id v =? Voucher.id self') (vouchers db)
      then inr (self',
                set_vouchers db
                  (map (fun v => if Voucher.id v =? Voucher.id self'
                                 then set_status v (Voucher.status self') else v)
                       (vouchers db)))
      else inl DatabaseError
  end.

(** [Voucher._update_status_if_all_approved] (models.py 79-94). *)
Definition _update_status_if_all_approved (db : Db) (self : Voucher.t)
  : Exn + (Voucher.t * Db) :=
  let required := required_approvers db self in
  match required with
  | [] => inr (self, db)
  | _ =>
      let approved_count :=
        List.length (filter (fun a => String.eqb (VoucherApproval.status a) "APPROVED")
                            (approvals_of db (Voucher.id self))) in
      let has_rejection :=
        existsb (fun a => String.eqb (VoucherApproval.status a) "REJECTED")
                (approvals_of db (Voucher.id self)) in
      let self' :=
        if has_rejection then set_status self "REJECTED"
        else if Nat.eqb approved_count (List.length required)
             then set_status self "APPROVED"
             else set_status self "PENDING" in
      save_status db self'
  end.

End Models.

(* ================================================================== *)
(** * vouchers/serializers.py *)
(* ================================================================== *)

Module Serializers.

(** [User.objects.filter(groups__name='Admin Staff',
      userprofile__designation__id__in=active_des_ids)
      .values_list('username', flat=True)]:
    user JOIN user_groups JOIN group JOIN profile. *)
Definition user_join (db : Db) (active : list Z) : list string :=
  flat_map (fun u =>
    flat_map (fun m =>
      flat_map (fun g =>
        flat_map (fun p =>
          if Models.approver_row active p u m g then [User.username u] else [])
        (profiles db))
      (groups db))
    (user_groups db))
  (users db).

(** [VoucherSerializer.get_required_approvers] (serializers.py 88-100). *)
Definition get_required_approvers (db : Db) (obj : Voucher.t) : list string :=
  let active_des_ids := Models.active_des_ids db in
  nodup string_dec (user_join db active_des_ids).

(** [VoucherSerializer.get_approved_count] and [get_rejected_count]
    (serializers.py 102-106). *)
Definition get_approved_count (db : Db) (obj : Voucher.t) : nat :=
  List.length (filter (fun a => String.eqb (VoucherApproval.status a) "APPROVED")
                      (Models.approvals_of db (Voucher.id obj))).

Definition get_rejected_count (db : Db) (obj : Voucher.t) : nat :=
  List.length (filter (fun a => String.eqb (VoucherApproval.status a) "REJECTED")
                      (Models.approvals_of db (Voucher.id obj))).

(** *** Validation *)

(** One item of the [particulars] list the view hands over. *)
Record ParticularData : Type := mkParticularData {
  pd_description : string;
  pd_amount : Py.Decimal;
  pd_attachment : option File
}.

(** [serializer_data] of views.py 192-200. *)
Record InitialData : Type := mkInitialData {
  in_voucher_date : option string;
  in_payment_type : option string;
  in_name_title : option string;
  in_pay_to : option string;
  in_cheque_number : option string;
  in_attachment : File;
  in_particulars : list ParticularData
}.

(** [validated_data]. *)
Record ValidatedData : Type := mkValidatedData {
  vd_voucher_date : date;
  vd_payment_type : string;
  vd_name_title : string;
  vd_pay_to : string;
  vd_cheque_number : option string;
  vd_attachment : File;
  vd_particulars : list ParticularData
}.

(** [serializer.errors]: field name to messages. *)
Definition Errors : Type := list (string * Json).

Definition messages (field : string) (msgs : list string) : Errors :=
  [(field, JList (map JStr msgs))].

Definition allowed_extensions : list string :=
  ["pdf"; "jpg"; "jpeg"; "png"; "doc"; "docx"].

Definition max_upload_size : N := 5 * 1024 * 1024.

(** **** Field classes of the framework, as the declarations configure them *)

Definition has_null_char (s : string) : bool :=
  negb (Py.forallb_string (fun c => negb (Ascii.eqb c "000")) s).

(** [CharField] on a string: trimmed, blank check, then the validators
    (length, null characters), whose messages are all collected. *)
Definition CharField_text (allow_blank : bool) (max_length : nat) (data : string)
  : list string + string :=
  let value := Py.strip data in
  if negb (Py.truthy value)
  then (if allow_blank then inr EmptyString else inl ["This field may not be blank."])
  else
    match (if (max_length <? String.length value)%nat
           then ["Ensure this field has no more than " ++ Py.str_nat max_length
                 ++ " characters."]%string
           else [])
          ++ (if has_null_char value then ["Null characters are not allowed."] else [])
    with
    | [] => inr value
    | msgs => inl msgs
    end.

(** A required, non-null [CharField]. *)
Definition CharField (max_length : nat) (data : option string) : list string + string :=
  match data with
  | None => inl ["This field may not be null."]
  | Some s => CharField_text false max_length s
  end.

(** [CharField(required=False, allow_blank=True, allow_null=True)]. *)
Definition CharField_nullable (max_length : nat) (data : option string)
  : list string + option string :=
  match data with
  | None => inr None
  | Some s =>
      match CharField_text true max_length s with
      | inl msgs => inl msgs
      | inr v => inr (Some v)
      end
  end.

Definition ChoiceField (choices : list string) (data : option string)
  : list string + string :=
  match data with
  | None => inl ["This field may not be null."]
  | Some s =>
      if mem_string s choices then inr s
      else inl [(String Py.dquote s ++ String Py.dquote " is not a valid choice.")%string]
  end.

Definition FileField (data : File) : list string + File :=
  if negb (Py.truthy (file_name data))
  then inl ["No filename could be determined."]
  else if (file_size data =? 0)%N
       then inl ["The submitted file is empty."]
       else inr data.

(** [FileExtensionValidator(allowed_extensions=[...])] *)
Definition FileExtensionValidator (allowed : list string) (f : File) : list string :=
  if mem_string (Py.lower (Py.suffix1 (file_name f))) (map Py.lower allowed)
  then []
  else ["File extension is not allowed."].

(** [DecimalField(max_digits=12, decimal_places=2)]: special values are
    refused, the precision is checked on the digit tuple and the value is
    quantized to two places. *)
Definition DecimalField (data : Py.Decimal) : list string + Py.Decimal :=
  match data with
  | Py.NaN | Py.Infinity _ => inl ["A valid number is required."]
  | Py.Finite neg c e =>
      let n := Py.ndigits c in
      let '(total_digits, whole_digits, decimal_places) :=
        if 0 <=? e then (n + e, n + e, 0)
        else if Z.abs e <? n then (n, n - Z.abs e, Z.abs e)
             else (Z.abs e, 0, Z.abs e) in
      if 12 <? total_digits
      then inl ["Ensure that there are no more than 12 digits in total."]
      else if 2 <? decimal_places
           then inl ["Ensure that there are no more than 2 decimal places."]
           else if 10 <? whole_digits
                then inl ["Ensure that there are no more than 10 digits before the decimal point."]
                else inr (Py.Finite neg (c * 10 ^ Z.to_N (e + 2)) (-2))
  end.

Section WithRuntime.

Context {R : Runtime}.

Definition DateField (data : option string) : list string + date :=
  match data with
  | None => inl ["This field may not be null."]
  | Some s =>
      match parse_date s with
      | Some d => inr d
      | None =>
          inl ["Date has wrong format. Use one of these formats instead: YYYY-MM-DD."]
      end
  end.

(** **** [ParticularSerializer] *)

(** [ParticularSerializer.validate_amount] (serializers.py 23-31).  The
    value comes from [DecimalField]; printing it and parsing it again
    gives it back, so the [except] branch is not modelled.  Comparing a
    NaN raises. *)
Definition validate_amount (value : Py.Decimal) : Exn + (string + Py.Decimal) :=
  match Py.le_zero value with
  | None => inl InvalidOperation
  | Some true => inr (inl "Amount must be greater than 0.")
  | Some false => inr (inr value)
  end.

(** [ParticularSerializer.validate_attachment] (serializers.py 33-36). *)
Definition particular_validate_attachment (value : option File)
  : string + option File :=
  match value with
  | Some f =>
      if Py.truthy (file_name f) && (max_upload_size <? file_size f)%N
      then inl "File size cannot exceed 5 MB."
      else inr value
  | None => inr None
  end.

Definition amount_field (data : Py.Decimal) : Exn + (list string + Py.Decimal) :=
  match DecimalField data with
  | inl msgs => inr (inl msgs)
  | inr value =>
      match validate_amount value with
      | inl e => inl e
      | inr (inl msg) => inr (inl [msg])
      | inr (inr v) => inr (inr v)
      end
  end.

Definition particular_attachment_field (data : option File)
  : list string + option File :=
  match data with
  | None => inr None
  | Some f =>
      match FileField f with
      | inl msgs => inl msgs
      | inr f' =>
          match FileExtensionValidator allowed_extensions f' with
          | [] =>
              match particular_validate_attachment (Some f') with
              | inl msg => inl [msg]
              | inr v => inr v
              end
          | msgs => inl msgs
          end
      end
  end.

Definition field_errors {A} (field : string) (r : list string + A) : Errors :=
  match r with inl msgs => messages field msgs | inr _ => [] end.

(** One item through [ParticularSerializer]: every field is validated
    and the messages are collected per field. *)
Definition validate_particular (item : ParticularData)
  : Exn + (Errors + ParticularData) :=
  let description := CharField 300 (Some (pd_description item)) in
  match amount_field (pd_amount item) with
  | inl e => inl e
  | inr amount =>
      let attachment := particular_attachment_field (pd_attachment item) in
      match description, amount, attachment with
      | inr d, inr a, inr f => inr (inr (mkParticularData d a f))
      | _, _, _ =>
          inr (inl (field_errors "description" description
                    ++ field_errors "amount" amount
                    ++ field_errors "attachment" attachment))
      end
  end.

(** [ParticularSerializer(many=True)]: the items in order; the error
    list has one entry per item, empty for a valid one. *)
Fixpoint validate_particulars (items : list ParticularData)
  : Exn + (list Errors * list ParticularData) :=
  match items with
  | [] => inr ([], [])
  | item :: rest =>
      match validate_particular item with
      | inl e => inl e
      | inr r =>
          match validate_particulars rest with
          | inl e => inl e
          | inr (errs, vals) =>
              match r with
              | inl e1 => inr (e1 :: errs, vals)
              | inr v => inr ([] :: errs, v :: vals)
              end
          end
      end
  end.

Definition particulars_field (items : list ParticularData)
  : Exn + (Errors + list ParticularData) :=
  match validate_particulars items with
  | inl e => inl e
  | inr (errs, vals) =>
      if forallb (fun e => match e with [] => true | _ => false end) errs
      then inr (inr vals)
      else inr (inl [("particulars", JList (map JObj errs))])
  end.

(** **** [VoucherSerializer] *)

(** [VoucherSerializer.validate_attachment] (serializers.py 134-140). *)
Definition validate_attachment (value : File) : string + File :=
  if negb (Py.truthy (file_name value))
  then inl "Attachment is required."
  else if (max_upload_size <? file_size value)%N
       then inl "File size cannot exceed 5 MB."
       else inr value.

Definition attachment_field (data : File) : list string + File :=
  match FileField data with
  | inl msgs => inl msgs
  | inr f =>
      match FileExtensionValidator allowed_extensions f with
      | [] =>
          match validate_attachment f with
          | inl msg => inl [msg]
          | inr v => inr v
          end
      | msgs => inl msgs
      end
  end.

Definition set_cheque_number (data : ValidatedData) (c : option string)
  : ValidatedData :=
  mkValidatedData (vd_voucher_date data) (vd_payment_type data) (vd_name_title data)
                  (vd_pay_to data) c (vd_attachment data) (vd_particulars data).

(** [VoucherSerializer.validate] (serializers.py 108-132).  The
    serializer wraps the message of each key of a raised dictionary in a
    list ([as_serializer_error]). *)
Definition validate (data : ValidatedData) : Exn + (Errors + ValidatedData) :=
  match vd_particulars data with
  | [] => inr (inl [("particulars", JList [JStr "At least one particular is required."])])
  | _ =>
      if existsb (fun p => negb (Py.truthy (pd_description p))) (vd_particulars data)
      then inr (inl [("particulars",
                      JList [JStr "Each particular must have description and amount."])])
      else if negb (Py.truthy (file_name (vd_attachment data)))
           then inr (inl [("attachment", JList [JStr "This field is required."])])
           else if String.eqb (vd_payment_type data) "CHEQUE"
                then match vd_cheque_number data with
                     | None => inl AttributeError
                     | Some raw =>
                         let cheque_num := Py.strip raw in
                         if negb (Py.truthy cheque_num)
                         then inr (inl [("cheque_number",
                                         JList [JStr "Cheque number is required for Cheque payments."])])
                         else if negb (Py.isdigit cheque_num)
                              then inr (inl [("cheque_number",
                                              JList [JStr "Cheque number must contain only digits."])])
                              else inr (inr (set_cheque_number data (Some cheque_num)))
                     end
                else inr (inr (set_cheque_number data None))
  end.

(** [serializer.is_valid()]: the fields in declaration order with their
    messages collected, then [validate]. *)
Definition is_valid (data : InitialData) : Exn + (Errors + ValidatedData) :=
  let voucher_date := DateField (in_voucher_date data) in
  let payment_type :=
    ChoiceField ["CASH"; "CHEQUE"; "PETTY_CASH"] (in_payment_type data) in
  let name_title := ChoiceField ["MR"; "MRS"; "MS"] (in_name_title data) in
  let pay_to := CharField 200 (in_pay_to data) in
  let cheque_number := CharField_nullable 20 (in_cheque_number data) in
  let attachment := attachment_field (in_attachment data) in
  match particulars_field (in_particulars data) with
  | inl e => inl e
  | inr items =>
      match voucher_date, payment_type, name_title, pay_to, cheque_number,
            attachment, items with
      | inr d, inr pt, inr nt, inr payee, inr cheque, inr att, inr ps =>
          validate (mkValidatedData d pt nt payee cheque att ps)
      | _, _, _, _, _, _, _ =>
          inr (inl (field_errors "voucher_date" voucher_date
                    ++ field_errors "payment_type" payment_type
                    ++ field_errors "name_title" name_title
                    ++ field_errors "pay_to" pay_to
                    ++ field_errors "cheque_number" cheque_number
                    ++ field_errors "attachment" attachment
                    ++ match items with inl e => e | inr _ => [] end))
      end
  end.

End WithRuntime.

(** *** Creation *)

Definition add_particular (db : Db) (p : Particular.t) : Db :=
  let db1 := Models.add_media db (Particular.attachment p) in
  mkDb (users db1) (groups db1) (user_groups db1) (designations db1) (profiles db1)
       (active_designations db1) (vouchers db1) (particulars db1 ++ [p])
       (approvals db1) (media db1).

(** [Particular.objects.create(voucher=voucher, attachment=..., **p_data)]
    for each item; the file of an item goes to the storage under
    vouchers/particulars/ and the row gets the name the storage answers. *)
Fixpoint create_particulars {R : Runtime} (db : Db) (voucher : Z)
         (items : list ParticularData) : Db :=
  match items with
  | [] => db
  | p :: rest =>
      let row :=
        Particular.mk (next_id (map Particular.id (particulars db))) voucher
                      (pd_description p) (pd_amount p)
                      (option_map (fun f => storage_save (media db) "vouchers/particulars/"
                                                         (file_name f))
                                  (pd_attachment p)) in
      create_particulars (add_particular db row) voucher rest
  end.

(** [VoucherSerializer.create] (serializers.py 142-156), called by
    [serializer.save(created_by=request.user)]. *)
Definition create {R : Runtime} (db : Db) (now : Z) (created_by : Z)
           (validated_data : ValidatedData)
  : (Exn * Db) + (Voucher.t * Db) :=
  let particulars_data := vd_particulars validated_data in
  let attachment := vd_attachment validated_data in
  let voucher :=
    Voucher.mk 0 EmptyString (vd_voucher_date validated_data)
               (vd_payment_type validated_data) (vd_name_title validated_data)
               (vd_pay_to validated_data)
               (Some (file_name attachment))
               (vd_cheque_number validated_data) created_by now "PENDING" in
  match Models.save db voucher with
  | inl failure => inl failure
  | inr (voucher', db1) =>
      inr (voucher', create_particulars db1 (Voucher.id voucher') particulars_data)
  end.

End Serializers.

(* ================================================================== *)
(** * vouchers/views.py *)
(* ================================================================== *)

Module Views.

(** [request.user.groups.filter(name=...).exists()] *)
Definition in_group (db : Db) (u : User.t) (gname : string) : bool :=
  existsb (fun m =>
             (UserGroup.user_id m =? User.id u)
             && existsb (fun g => (UserGroup.group_id m =? Group.id g)
                                  && String.eqb (Group.name g) gname)
                        (groups db))
          (user_groups db).

(** [AdminStaffRequiredMixin.dispatch] (views.py 31-38); [None] is the
    anonymous user. *)
Definition AdminStaffRequiredMixin (db : Db) (user : option User.t)
           (view : User.t -> Response * Db) : Response * Db :=
  match user with
  | None => (Redirect "login", db)
  | Some u =>
      if negb (in_group db u "Admin Staff" || User.is_superuser u)
      then (Redirect "home", db)
      else view u
  end.

(** [get_object_or_404(Voucher, pk=pk)] *)
Definition get_voucher (db : Db) (pk : Z) : option Voucher.t :=
  find (fun v => Voucher.id v =? pk) (vouchers db).

(** [VoucherApproval.objects.update_or_create(voucher=..., approver=...,
      defaults={'status': status_choice})].  [approved_at] is declared
    [auto_now_add]: it is set when the row is inserted and is not part of
    the UPDATE. *)
Definition approval_update_or_create (db : Db) (now : Z) (voucher approver : Z)
           (status_choice : string) : Exn + (VoucherApproval.t * bool * Db) :=
  match filter (fun a => (VoucherApproval.voucher a =? voucher)
                         && (VoucherApproval.approver a =? approver))
               (approvals db) with
  | [] =>
      let a := VoucherApproval.mk
                 (next_id (map VoucherApproval.id (approvals db)))
                 voucher approver status_choice now in
      inr (a, true, Models.set_approvals db (approvals db ++ [a]))
  | [a] =>
      let upd r := VoucherApproval.mk (VoucherApproval.id r) (VoucherApproval.voucher r)
                     (VoucherApproval.approver r) status_choice
                     (VoucherApproval.approved_at r) in
      inr (upd a, false,
           Models.set_approvals db
             (map (fun r => if VoucherApproval.id r =? VoucherApproval.id a
                            then upd r else r)
                  (approvals db)))
  | _ => inl MultipleObjectsReturned
  end.

Definition approval_json (db : Db) (a : VoucherApproval.t) : Json :=
  JObj [("approver",
         match find (fun u => User.id u =? VoucherApproval.approver a) (users db) with
         | Some u => JStr (User.username u)
         | None => JNull
         end);
        ("status", JStr (VoucherApproval.status a));
        ("approved_at", JTime (VoucherApproval.approved_at a))].

Definition option_str (o : option string) : Json :=
  match o with Some s => JStr s | None => JNull end.

(** The serializer's [FileField.to_representation]: the URL of the stored
    file, or null without a file. *)
Definition option_url (o : option string) : Json :=
  match o with Some name => JUrl name | None => JNull end.

(** [VoucherSerializer(voucher).data]: the voucher projection. *)
Definition voucher_data (db : Db) (v : Voucher.t) : list (string * Json) :=
  let mine := Models.approvals_of db (Voucher.id v) in
  [("id", JInt (Voucher.id v));
   ("voucher_number", JStr (Voucher.voucher_number v));
   ("voucher_date", JDate (Voucher.voucher_date v));
   ("payment_type", JStr (Voucher.payment_type v));
   ("name_title", JStr (Voucher.name_title v));
   ("pay_to", JStr (Voucher.pay_to v));
   ("cheque_number", option_str (Voucher.cheque_number v));
   ("attachment", option_url (Voucher.attachment v));
   ("created_by",
    match find (fun u => User.id u =? Voucher.created_by v) (users db) with
    | Some u => JStr (User.username u)
    | None => JNull
    end);
   ("created_at", JTime (Voucher.created_at v));
   ("status", JStr (Voucher.status v));
   ("particulars",
    JList (map (fun p => JObj [("description", JStr (Particular.description p));
                               ("amount", JDec (Particular.amount p));
                               ("attachment", option_url (Particular.attachment p))])
               (filter (fun p => Particular.voucher p =? Voucher.id v) (particulars db))));
   ("approvals", JList (map (approval_json db) mine));
   ("required_approvers", JList (map JStr (Serializers.get_required_approvers db v)));
   ("approved_count",
    JNat (List.length (filter (fun a => String.eqb (VoucherApproval.status a) "APPROVED") mine)));
   ("rejected_count",
    JNat (List.length (filter (fun a => String.eqb (VoucherApproval.status a) "REJECTED") mine)))].

(** The decision carried by the request, when it is one of the two
    accepted strings. *)
Definition decision_of (status_choice : Field) : option string :=
  match status_choice with
  | Value (SStr s) =>
      if mem_string s ["APPROVED"; "REJECTED"] then Some s else None
  | _ => None
  end.

(** [VoucherApprovalAPI.post] (views.py 213-237), behind its mixin, for a
    request whose parsed body is a mapping (a form or a JSON object);
    [status_field] is what [request.data.get('status')] finds there.  Any
    other body is in [VoucherApprovalAPI_request] below. *)
Definition VoucherApprovalAPI_post (db : Db) (now : Z) (user : option User.t)
           (status_field : Field) (pk : Z) : Response * Db :=
  AdminStaffRequiredMixin db user (fun u =>
    match get_voucher db pk with
    | None => (Http404, db)
    | Some voucher =>
        match decision_of status_field with
        | None =>
            (JsonResponse (JObj [("status", JList [JStr "Invalid choice."])]) 400, db)
        | Some status_choice =>
            if negb (mem_string (User.username u) (Models.required_approvers db voucher))
            then (JsonResponse
                    (JObj [("error", JStr "You are not authorized to approve this voucher.")])
                    403, db)
            else
              (* with transaction.atomic(): an exception rolls both writes back *)
              match approval_update_or_create db now (Voucher.id voucher) (User.id u)
                                              status_choice with
              | inl e => (Raised e, db)
              | inr (approval, created, db1) =>
                  match Models._update_status_if_all_approved db1 voucher with
                  | inl e => (Raised e, db)
                  | inr (voucher', db2) =>
                      (JsonResponse
                         (JObj (voucher_data db2 voucher'
                                ++ [("approval",
                                     JObj [("approver", JStr (User.username u));
                                           ("approved_at",
                                            JTime (VoucherApproval.approved_at approval))])]))
                         200, db2)
                  end
              end
        end
    end).

(** [request.data] as the view meets it: a mapping, of which the view
    reads one key, or a parsed JSON document that is not an object (an
    array, a text, a number, [true], [false] or [null]). *)
Inductive RequestData : Type :=
| Mapping (field : Field)
| NotMapping.

(** [VoucherApprovalAPI.post] on either kind of body: [request.data.get]
    raises [AttributeError] on a document that is not an object, after the
    mixin and [get_object_or_404] and before anything is written. *)
Definition VoucherApprovalAPI_request (db : Db) (now : Z) (user : option User.t)
           (data : RequestData) (pk : Z) : Response * Db :=
  match data with
  | Mapping status_field => VoucherApprovalAPI_post db now user status_field pk
  | NotMapping =>
      AdminStaffRequiredMixin db user (fun u =>
        match get_voucher db pk with
        | None => (Http404, db)
        | Some _ => (Raised AttributeError, db)
        end)
  end.

(** [ActiveApprovalDesignation.objects.update_or_create(designation=...,
      defaults={'is_active': ..., 'updated_by': ...})]; [updated_at] is
    [auto_now], so every save stamps it. *)
Definition active_update_or_create (db : Db) (now : Z) (designation : Z)
           (is_active : bool) (updated_by : Z) : Exn + Db :=
  let rows := active_designations db in
  match filter (fun a => ActiveApprovalDesignation.designation a =? designation) rows with
  | [] =>
      inr (Models.set_active_designations db
             (rows ++ [ActiveApprovalDesignation.mk
                         (next_id (map ActiveApprovalDesignation.id rows))
                         designation is_active updated_by now]))
  | [a] =>
      let upd r := ActiveApprovalDesignation.mk
                     (ActiveApprovalDesignation.id r)
                     (ActiveApprovalDesignation.designation r)
                     is_active updated_by now in
      inr (Models.set_active_designations db
             (map (fun r => if ActiveApprovalDesignation.id r
                               =? ActiveApprovalDesignation.id a
                            then upd r else r)
                  rows))
  | _ => inl MultipleObjectsReturned
  end.

(** [str(designation.id) in [str(x) for x in active_ids]] *)
Definition id_in_active_ids (designation_id : Z) (active_ids : list Scalar) : bool :=
  mem_string (Py.str designation_id) (map str_scalar active_ids).

(** The loop of views.py 321-326 over [Designation.objects.all()].  The
    view opens no transaction: an exception leaves the rows written so
    far. *)
Fixpoint control_loop (db : Db) (now : Z) (actor : Z) (active_ids : list Scalar)
         (all : list Designation.t) : (Exn * Db) + Db :=
  match all with
  | [] => inr db
  | designation :: rest =>
      let is_active := id_in_active_ids (Designation.id designation) active_ids in
      match active_update_or_create db now (Designation.id designation)
                                    is_active actor with
      | inl e => inl (e, db)
      | inr db1 => control_loop db1 now actor active_ids rest
      end
  end.

Definition not_authenticated : Json :=
  JObj [("detail", JStr "Authentication credentials were not provided.")].

(** [request.data.get('active_designations', [])] when it is a list. *)
Definition active_ids_of (fld : Field) : option (list Scalar) :=
  match fld with
  | Missing => Some []
  | Items l => Some l
  | _ => None
  end.

(** [ApprovalControlAPI.post] (views.py 313-330). *)
Definition ApprovalControlAPI_post (db : Db) (now : Z) (user : option User.t)
           (active_designations_field : Field) : Response * Db :=
  match user with
  | None => (JsonResponse not_authenticated 403, db)
  | Some u =>
      if negb (User.is_superuser u)
      then (JsonResponse (JObj [("error", JStr "Superuser only")]) 403, db)
      else
        match active_ids_of active_designations_field with
        | None =>
            (JsonResponse
               (JObj [("error", JStr "active_designations must be a list of IDs")])
               400, db)
        | Some active_ids =>
            match control_loop db now (User.id u) active_ids (designations db) with
            | inl (e, db1) => (Raised e, db1)
            | inr db1 =>
                (JsonResponse
                   (JObj [("message",
                           JStr ("Approval workflow updated. "
                                 ++ Py.str_nat (List.length active_ids)
                                 ++ " active designations.")%string);
                          ("active_count", JNat (List.length active_ids))])
                   200, db1)
            end
        end
  end.

(** *** Voucher submission *)

(** [request.POST]: the submitted pairs in order; [get] answers the last
    value of a key. *)
Definition QueryDict : Type := list (string * string).

Definition contains {A} (key : string) (d : list (string * A)) : bool :=
  existsb (fun kv => String.eqb (fst kv) key) d.

Definition get {A} (key : string) (d : list (string * A)) : option A :=
  fold_left (fun found kv => if String.eqb (fst kv) key then Some (snd kv) else found)
            d None.

Definition get_or (key : string) (d : QueryDict) (default : string) : string :=
  match get key d with Some v => v | None => default end.

Record CreateRequest : Type := mkCreateRequest {
  req_user : option User.t;
  req_POST : QueryDict;
  req_FILES : list (string * File)
}.

Definition particular_key (i : nat) (field : string) : string :=
  ("particulars[" ++ Py.str_nat i ++ "][" ++ field ++ "]")%string.

Definition bad_request (field message : string) : Response :=
  JsonResponse (JObj [(field, JStr message)]) 400.

(** [data.get('cheque_number', '').strip() if data.get('payment_type') ==
    'CHEQUE' else None] (views.py 189). *)
Definition submitted_cheque_number (data : QueryDict) : option string :=
  match get "payment_type" data with
  | Some pt =>
      if String.eqb pt "CHEQUE"
      then Some (Py.strip (get_or "cheque_number" data EmptyString))
      else None
  | None => None
  end.

(** The [serializer_data] dictionary (views.py 192-200). *)
Definition serializer_data (data : QueryDict) (cheque_number : option string)
           (main_attachment : File) (particulars : list Serializers.ParticularData)
  : Serializers.InitialData :=
  Serializers.mkInitialData
    (get "voucher_date" data) (get "payment_type" data)
    (get "name_title" data) (get "pay_to" data)
    cheque_number main_attachment particulars.

Section WithRuntime.

Context {R : Runtime}.

(** The [while] loop of views.py 146-173, from index [i] with the
    particulars gathered so far.  [fuel] bounds the number of
    iterations; [None] means the bound was reached. *)
Fixpoint build_particulars (fuel : nat) (data : QueryDict)
         (files : list (string * File)) (i : nat)
         (particulars : list Serializers.ParticularData)
  : option (Response + list Serializers.ParticularData) :=
  match fuel with
  | O => None
  | S fuel' =>
      if contains (particular_key i "description") data
      then
        let desc := Py.strip (get_or (particular_key i "description") data EmptyString) in
        let amt := Py.strip (get_or (particular_key i "amount") data EmptyString) in
        let attachment := get (particular_key i "attachment") files in
        if Py.truthy desc && Py.truthy amt
        then
          match Decimal_of_string amt with
          | None =>
              Some (inl (bad_request "particulars"
                           ("Invalid amount for item " ++ Py.str_nat (i + 1))%string))
          | Some amount =>
              match Py.le_zero amount with
              | None =>
                  Some (inl (bad_request "particulars"
                               ("Invalid amount for item " ++ Py.str_nat (i + 1))%string))
              | Some true =>
                  Some (inl (bad_request "particulars"
                               ("Amount must be > 0 for item "
                                ++ Py.str_nat (i + 1))%string))
              | Some false =>
                  build_particulars fuel' data files (i + 1)
                    (particulars
                     ++ [Serializers.mkParticularData desc amount attachment])
              end
          end
        else build_particulars fuel' data files (i + 1) particulars
      else Some (inr particulars)
  end.

(** [VoucherCreateAPI.post] (views.py 141-207) behind
    [AccountantRequiredMixin] (views.py 21-28).  The loop gets one more
    iteration than the form has pairs. *)
Definition VoucherCreateAPI_post (db : Db) (now : Z) (request : CreateRequest)
  : option (Response * Db) :=
  match req_user request with
  | None => Some (Redirect "login", db)
  | Some u =>
      if negb (in_group db u "Accountants")
      then Some (Redirect "home", db)
      else
        let data := req_POST request in
        let files := req_FILES request in
        match build_particulars (S (List.length data)) data files 0 [] with
        | None => None
        | Some (inl response) => Some (response, db)
        | Some (inr []) =>
            Some (bad_request "particulars" "At least one particular is required.", db)
        | Some (inr particulars) =>
            match get "attachment" files with
            | None => Some (bad_request "attachment" "Main attachment is required.", db)
            | Some main_attachment =>
                let cheque_number := submitted_cheque_number data in
                let serializer_data :=
                  serializer_data data cheque_number main_attachment particulars in
                match Serializers.is_valid serializer_data with
                | inl e => Some (Raised e, db)
                | inr (inl errors) => Some (JsonResponse (JObj errors) 400, db)
                | inr (inr validated_data) =>
                    match Serializers.create db now (User.id u) validated_data with
                    | inl (e, db1) => Some (Raised e, db1)
                    | inr (voucher, db1) =>
                        Some (JsonResponse (JObj (voucher_data db1 voucher)) 201, db1)
                    end
                end
            end
        end
  end.

End WithRuntime.

Definition set_designations (db : Db) (l : list Designation.t) : Db :=
  mkDb (users db) (groups db) (user_groups db) l (profiles db)
       (active_designations db) (vouchers db) (particulars db) (approvals db)
       (media db).

(** [DesignationCreateAPI.post] (views.py 280-295). *)
Definition DesignationCreateAPI_post (db : Db) (now : Z) (user : option User.t)
           (name_field : Field) : Response * Db :=
  match user with
  | None => (JsonResponse not_authenticated 403, db)
  | Some u =>
      if negb (User.is_superuser u)
      then (JsonResponse (JObj [("error", JStr "Superuser only")]) 403, db)
      else
        match (match name_field with
               | Missing => Some EmptyString
               | Value (SStr s) => Some (Py.strip s)
               | _ => None
               end) with
        | None => (Raised AttributeError, db)
        | Some name =>
            if negb (Py.truthy name)
            then (JsonResponse (JObj [("error", JStr "Name is required")]) 400, db)
            else if existsb (fun d => String.eqb (Designation.name d) name)
                            (designations db)
                 then (JsonResponse
                         (JObj [("error", JStr "Designation already exists")]) 400, db)
                 else
                   let designation :=
                     Designation.mk (next_id (map Designation.id (designations db)))
                                    name (Some (User.id u)) now in
                   (JsonResponse
                      (JObj [("message",
                              JStr ("Designation '" ++ name ++ "' created.")%string);
                             ("id", JInt (Designation.id designation))])
                      201,
                    set_designations db (designations db ++ [designation]))
        end
  end.

(** [ApprovalControlAPI.get] (views.py 301-311). *)
Definition ApprovalControlAPI_get (db : Db) (user : option User.t) : Response :=
  match user with
  | None => JsonResponse not_authenticated 403
  | Some u =>
      if negb (User.is_superuser u)
      then JsonResponse (JObj [("error", JStr "Superuser only")]) 403
      else
        let active_designations := Models.active_des_ids db in
        let all_designations :=
          map (fun d => JObj [("id", JInt (Designation.id d));
                              ("name", JStr (Designation.name d))])
              (designations db) in
        JsonResponse
          (JObj [("active_designations", JList (map JInt active_designations));
                 ("all_designations", JList all_designations)])
          200
  end.

(** *** The list and detail pages *)

(** The rows of [voucher LEFT OUTER JOIN approvals] for one voucher: its
    approvals, or a single row of NULLs when it has none. *)
Definition approvals_left_join (db : Db) (v : Voucher.t)
  : list (option VoucherApproval.t) :=
  match Models.approvals_of db (Voucher.id v) with
  | [] => [None]
  | l => map Some l
  end.

(** [Count(Case(When(approvals__status=s, then=1)))] over the joined rows
    of a voucher: the rows where the CASE is not NULL. *)
Definition count_when (s : string) (rows : list (option VoucherApproval.t)) : nat :=
  List.length (filter (fun r => match r with
                                | Some a => String.eqb (VoucherApproval.status a) s
                                | None => false
                                end) rows).

(** A voucher with the two annotations of the queryset. *)
Record Annotated : Type := mkAnnotated {
  av_voucher : Voucher.t;
  av_approved_count : nat;
  av_rejected_count : nat
}.

Definition annotate (db : Db) (v : Voucher.t) : Annotated :=
  let rows := approvals_left_join db v in
  mkAnnotated v (count_when "APPROVED" rows) (count_when "REJECTED" rows).

(** [VoucherListView.get_queryset] (views.py 57-76) for a logged-in user,
    in table order. *)
Definition VoucherListView_get_queryset (db : Db) (user : User.t) : list Annotated :=
  let qs := vouchers db in
  let qs := if in_group db user "Accountants"
            then filter (fun v => Voucher.created_by v =? User.id user) qs
            else qs in
  map (annotate db) qs.

(** [voucher.approvals.get(approver=self.request.user)] with its
    [except VoucherApproval.DoesNotExist] (views.py 82-85, 119-122). *)
Definition user_approval (db : Db) (voucher : Voucher.t) (user : User.t)
  : Exn + option VoucherApproval.t :=
  match filter (fun a => VoucherApproval.approver a =? User.id user)
               (Models.approvals_of db (Voucher.id voucher)) with
  | [] => inr None
  | [a] => inr (Some a)
  | _ => inl MultipleObjectsReturned
  end.

(** [voucher.approvals.filter(status='APPROVED')
      .values_list('approver__username', flat=True)]: approvals JOIN user. *)
Definition approved_usernames (db : Db) (voucher : Voucher.t) : list string :=
  flat_map (fun a =>
              if String.eqb (VoucherApproval.status a) "APPROVED"
              then map User.username
                       (filter (fun u => User.id u =? VoucherApproval.approver a)
                               (users db))
              else [])
           (Models.approvals_of db (Voucher.id voucher)).

(** The [pending_approvers] entry of the two pages (views.py 87-92 and
    128-133): one pair (name, has_approved) per element of
    [set(voucher.required_approvers)].  The order in which a set is gone
    through is not fixed by the language; the list below has the elements
    in the order of their last occurrence. *)
Definition pending_approvers (db : Db) (voucher : Voucher.t) : list (string * bool) :=
  let required := nodup string_dec (Models.required_approvers db voucher) in
  let approved := approved_usernames db voucher in
  map (fun name => (name, mem_string name approved)) required.

End Views.

(* ================================================================== *)
(** * vouchers/templatetags/voucher_tags.py *)
(* ================================================================== *)

Module Templatetags.

(** [int(x)] on what a template hands to a filter; [None] stands for the
    exception ([TypeError] on [None], [ValueError] on a text that is not an
    integer literal or has more digits than the interpreter converts). *)
Definition int_of (x : Scalar) : option Z :=
  match x with
  | SNone => None
  | SBool b => Some (if b then 1 else 0)
  | SInt z => Some z
  | SStr s => Py.int_limited s
  end.

(** The filter [sub] (voucher_tags.py 14-20). *)
Definition sub (a b : Scalar) : Z :=
  match int_of a with
  | Some x =>
      match int_of b with
      | Some y => x - y
      | None => 0
      end
  | None => 0
  end.

End Templatetags.

(* ================================================================== *)
(** * Vocabulary of the specification *)
(* ================================================================== *)

(** Membership of a user in a named group, read off the two auth tables. *)
Definition is_member (db : Db) (u : User.t) (gname : string) : Prop :=
  exists m g, In m (user_groups db) /\ In g (groups db)
              /\ UserGroup.user_id m = User.id u
              /\ UserGroup.group_id m = Group.id g
              /\ Group.name g = gname.

(** The set D of active designations. *)
Definition active_designation (db : Db) (d : Z) : Prop :=
  exists a, In a (active_designations db)
            /\ ActiveApprovalDesignation.is_active a = true
            /\ ActiveApprovalDesignation.designation a = d.

(** Admin-Staff users whose profile designation is in D. *)
Definition eligible_approver (db : Db) (name : string) : Prop :=
  exists u p d, In u (users db) /\ User.username u = name
                /\ is_member db u "Admin Staff"
                /\ In p (profiles db) /\ UserProfile.user p = User.id u
                /\ UserProfile.designation p = Some d
                /\ active_designation db d.

(** Schema constraints the approver query relies on:
    [User.username] is unique and [UserProfile.user] is one-to-one. *)
Definition approver_schema (db : Db) : Prop :=
  NoDup (map User.username (users db))
  /\ NoDup (map UserProfile.user (profiles db)).

(** The status state machine as the specification words it, for a voucher
    [v'] read back from the database [db'] after a decision, [old] being
    its status before. *)
Definition has_rejection (db : Db) (pk : Z) : Prop :=
  exists a, In a (Models.approvals_of db pk) /\ VoucherApproval.status a = "REJECTED".

Definition approved_count (db : Db) (pk : Z) : nat :=
  List.length (filter (fun a => String.eqb (VoucherApproval.status a) "APPROVED")
                      (Models.approvals_of db pk)).

Definition recomputation_rule (db' : Db) (old : string) (v' : Voucher.t) : Prop :=
  let required := Models.required_approvers db' v' in
  let pk := Voucher.id v' in
  (required = [] -> Voucher.status v' = old)
  /\ (required <> [] -> has_rejection db' pk -> Voucher.status v' = "REJECTED")
  /\ (required <> [] -> ~ has_rejection db' pk ->
      approved_count db' pk = List.length required -> Voucher.status v' = "APPROVED")
  /\ (required <> [] -> ~ has_rejection db' pk ->
      approved_count db' pk <> List.length required -> Voucher.status v' = "PENDING")
  /\ (required <> [] ->
      (Voucher.status v' = "APPROVED" <->
       approved_count db' pk = List.length required /\ ~ has_rejection db' pk)).

(** The rows of one (voucher, approver) pair. *)
Definition pair_rows (db : Db) (voucher approver : Z) : list VoucherApproval.t :=
  filter (fun a => (VoucherApproval.voucher a =? voucher)
                   && (VoucherApproval.approver a =? approver))
         (approvals db).

(** ** A runtime for the worked examples

    [Decimal(text)] on ASCII text after the numeric-string grammar of the
    [decimal] module (sign, digits with an optional fraction, optional
    exponent, or Inf / Infinity / NaN in any case, underscores ignored), and
    dates written YYYY-MM-DD. *)
Module AsciiRuntime.

Fixpoint remove_underscores (s : string) : string :=
  match s with
  | EmptyString => EmptyString
  | String c r =>
      if Ascii.eqb c "_" then remove_underscores r else String c (remove_underscores r)
  end.

(** The longest prefix of decimal digits, and what follows it. *)
Fixpoint span_digits (s : string) : string * string :=
  match s with
  | String c r =>
      if Py.isdecimal_char c
      then let '(d, rest) := span_digits r in (String c d, rest)
      else (EmptyString, s)
  | EmptyString => (EmptyString, EmptyString)
  end.

Definition digits_value (ds : string) : option N :=
  option_map N.of_uint (NilEmpty.uint_of_string ds).

Definition split_sign (s : string) : bool * string :=
  match s with
  | String c r =>
      if Ascii.eqb c "-" then (true, r)
      else if Ascii.eqb c "+" then (false, r) else (false, s)
  | EmptyString => (false, s)
  end.

Definition exponent_part (s : string) : option Z :=
  match s with
  | EmptyString => Some 0
  | String c r =>
      if Ascii.eqb c "e" || Ascii.eqb c "E"
      then
        let '(neg, ds) := split_sign r in
        if Py.truthy ds && Py.forallb_string Py.isdecimal_char ds
        then option_map (fun n => if neg then - Z.of_N n else Z.of_N n) (digits_value ds)
        else None
      else None
  end.

Definition Decimal_of_string (text : string) : option Py.Decimal :=
  let '(neg, body) := split_sign (remove_underscores (Py.strip text)) in
  let word := Py.lower body in
  if String.eqb word "inf" || String.eqb word "infinity" then Some (Py.Infinity neg)
  else if Py.startswith "nan" word
            && Py.forallb_string Py.isdecimal_char (Py.drop 3 word)
       then Some Py.NaN
       else if Py.startswith "snan" word
                 && Py.forallb_string Py.isdecimal_char (Py.drop 4 word)
            then Some Py.NaN
            else
              let '(int_part, rest) := span_digits body in
              let '(frac_part, rest') :=
                match rest with
                | String c r => if Ascii.eqb c "." then span_digits r
                                else (EmptyString, rest)
                | EmptyString => (EmptyString, rest)
                end in
              if Py.truthy int_part || Py.truthy frac_part
              then
                match digits_value (int_part ++ frac_part)%string,
                      exponent_part rest' with
                | Some c, Some e =>
                    Some (Py.Finite neg c (e - Z.of_nat (String.length frac_part)))
                | _, _ => None
                end
              else None.

Definition number (ds : string) : option Z :=
  if Py.truthy ds && Py.forallb_string Py.isdecimal_char ds
  then option_map Z.of_N (digits_value ds) else None.

Definition leap (y : Z) : bool :=
  ((y mod 4 =? 0) && negb (y mod 100 =? 0)) || (y mod 400 =? 0).

Definition days_in_month (y m : Z) : Z :=
  if m =? 2 then (if leap y then 29 else 28)
  else if (m =? 4) || (m =? 6) || (m =? 9) || (m =? 11) then 30 else 31.

Fixpoint split_dash (s : string) : list string :=
  match s with
  | EmptyString => [EmptyString]
  | String c r =>
      if Ascii.eqb c "-" then EmptyString :: split_dash r
      else match split_dash r with
           | w :: ws => String c w :: ws
           | [] => [String c EmptyString]
           end
  end.

Definition parse_date (text : string) : option date :=
  match split_dash text with
  | [ys; ms; ds] =>
      match number ys, number ms, number ds with
      | Some y, Some m, Some d =>
          if (String.length ys =? 4)%nat && (String.length ms <=? 2)%nat
             && (String.length ds <=? 2)%nat
             && (1 <=? y) && (1 <=? m) && (m <=? 12)
             && (1 <=? d) && (d <=? days_in_month y m)
          then Some (mkDate y m d) else None
      | _, _, _ => None
      end
  | _ => None
  end.

(** A storage for the examples.  It cleans the name as
    [get_valid_filename] does (the name is trimmed, blanks become
    underscores, characters other than letters, numbers, [-], [_] and [.]
    are dropped) and gives a name in use a numbered infix before its
    extension, where Django's storage puts seven random characters; it does
    not shorten names. *)
Definition valid_char (c : ascii) : bool :=
  let n := N_of_ascii c in
  (Py.isdecimal_char c || ((65 <=? n) && (n <=? 90)) || ((97 <=? n) && (n <=? 122))
   || (n =? 45) || (n =? 95) || (n =? 46)
   || (n =? 170) || (n =? 181) || (n =? 186)
   || (n =? 178) || (n =? 179) || (n =? 185) || ((188 <=? n) && (n <=? 190))
   || ((192 <=? n) && (n <=? 214)) || ((216 <=? n) && (n <=? 246))
   || (248 <=? n))%N.

Fixpoint clean (s : string) : string :=
  match s with
  | EmptyString => EmptyString
  | String c r =>
      if Ascii.eqb c " " then String "_" (clean r)
      else if valid_char c then String c (clean r) else clean r
  end.

Definition get_valid_filename (name : string) : string := clean (Py.strip name).

Definition numbered (name : string) (k : nat) : string :=
  match Py.rpartition_dot name with
  | Some (root, ext) => (root ++ "_" ++ Py.str_nat k ++ "." ++ ext)%string
  | None => (name ++ "_" ++ Py.str_nat k)%string
  end.

Fixpoint get_available_name (fuel k : nat) (taken : list string) (dir name : string)
  : string :=
  let candidate := (dir ++ numbered name k)%string in
  match fuel with
  | O => candidate
  | S fuel' =>
      if mem_string candidate taken
      then get_available_name fuel' (S k) taken dir name
      else candidate
  end.

Definition storage_save (taken : list string) (upload_to name : string) : string :=
  let name := get_valid_filename name in
  if mem_string (upload_to ++ name)%string taken
  then get_available_name (List.length taken) 0 taken upload_to name
  else (upload_to ++ name)%string.

Definition runtime : Runtime := Build_Runtime Decimal_of_string parse_date storage_save.

End AsciiRuntime.

(** A small database used by the worked examples: two designations, of
    which only Manager is active; alice (Manager) and bob (Director) are
    Admin Staff, carol is an accountant, root is a superuser; one voucher on
    which alice has approved at time 10. *)
Module Sample.

Definition alice := User.mk 1 "alice" false.
Definition bob := User.mk 2 "bob" false.
Definition carol := User.mk 3 "carol" false.
Definition root := User.mk 4 "root" true.

Definition voucher1 : Voucher.t :=
  Voucher.mk 1 "VCH0001" (mkDate 2024 5 17) "CASH" "MR" "Acme Ltd"
             (Some "vouchers/attachments/bill.pdf") None 3 5 "APPROVED".

Definition db : Db :=
  mkDb [alice; bob; carol; root]
       [Group.mk 1 "Accountants"; Group.mk 2 "Admin Staff"]
       [UserGroup.mk 1 2; UserGroup.mk 2 2; UserGroup.mk 3 1]
       [Designation.mk 1 "Manager" (Some 4) 0; Designation.mk 2 "Director" (Some 4) 0]
       [UserProfile.mk 1 1 (Some 1); UserProfile.mk 2 2 (Some 2)]
       [ActiveApprovalDesignation.mk 1 1 true 4 1;
        ActiveApprovalDesignation.mk 2 2 false 4 1]
       [voucher1]
       [Particular.mk 1 1 "Taxi" (Py.Finite false 1000 (-2)) None]
       [VoucherApproval.mk 1 1 1 "APPROVED" 10]
       ["vouchers/attachments/bill.pdf"].

(** carol submits a cheque voucher with two rows; the second row has an
    empty description. *)
Definition submission : Views.CreateRequest :=
  Views.mkCreateRequest (Some carol)
    [("voucher_date", "2024-05-17"); ("payment_type", "CHEQUE");
     ("name_title", "MR"); ("pay_to", "Acme Ltd"); ("cheque_number", " 1204 ");
     ("particulars[0][description]", "Taxi"); ("particulars[0][amount]", "10.50");
     ("particulars[1][description]", EmptyString); ("particulars[1][amount]", "7")]
    [("attachment", mkFile "bill.pdf" 1000)].

(** The same form with another cheque number, payment type or second
    amount. *)
Definition submission_with (payment_type cheque_number amount1 : string)
  : Views.CreateRequest :=
  Views.mkCreateRequest (Some carol)
    [("voucher_date", "2024-05-17"); ("payment_type", payment_type);
     ("name_title", "MR"); ("pay_to", "Acme Ltd"); ("cheque_number", cheque_number);
     ("particulars[0][description]", "Taxi"); ("particulars[0][amount]", "10.50");
     ("particulars[1][description]", "Lunch"); ("particulars[1][amount]", amount1)]
    [("attachment", mkFile "bill.pdf" 1000)].

(** The text 12 followed by the superscript two (U+00B2). *)
Definition twelve_squared : string := "12" ++ String (ascii_of_N 178) EmptyString.

(** The sample database before any voucher was submitted. *)
Definition fresh_db : Db :=
  mkDb (users db) (groups db) (user_groups db) (designations db) (profiles db)
       (active_designations db) [] [] [] [].

(** The answer and the database of a view that came to an end. *)
Definition outcome (r : option (Response * Db)) : Response * Db :=
  match r with Some x => x | None => (Http404, empty_db) end.

Definition submit (d : Db) (now : Z) (request : Views.CreateRequest) : Response * Db :=
  outcome (@Views.VoucherCreateAPI_post AsciiRuntime.runtime d now request).

End Sample.

(** ** Claims that do not hold as worded, stated for one request *)

(** C3 as worded: after a recorded decision the pair has one row, with the
    new decision and the time of this call. *)
Definition upsert_with_fresh_timestamp (db : Db) (now : Z) (u : User.t)
           (status_field : Field) (pk : Z) : Prop :=
  forall body db' decision,
    Views.VoucherApprovalAPI_post db now (Some u) status_field pk
      = (JsonResponse body 200, db') ->
    Views.decision_of status_field = Some decision ->
    exists a, pair_rows db' pk (User.id u) = [a]
              /\ VoucherApproval.status a = decision
              /\ VoucherApproval.approved_at a = now.


(** ** Activation state *)

(** A designation id is listed in a request body as a number or as its
    decimal text. *)
Definition listed (designation_id : Z) (active_ids : list Scalar) : Prop :=
  In (SInt designation_id) active_ids \/ In (SStr (Py.str designation_id)) active_ids.

(** The activation state: which designation each row flags, and how. *)
Definition activation (db : Db) : list (Z * bool) :=
  map (fun a => (ActiveApprovalDesignation.designation a,
                 ActiveApprovalDesignation.is_active a))
      (active_designations db).

(** Constraints of the activation table: its primary key, and
    [designation = models.ForeignKey(..., unique=True)]. *)
Definition activation_pk (db : Db) : Prop :=
  NoDup (map ActiveApprovalDesignation.id (active_designations db)).

Definition activation_unique (db : Db) : Prop :=
  NoDup (map ActiveApprovalDesignation.designation (active_designations db)).

(** ** Submitted particulars *)

Section SubmittedRows.

Context {R : Runtime}.

(** Row [i] of the form as the loop of [VoucherCreateAPI.post] reads it. *)
Definition row_present (data : Views.QueryDict) (i : nat) : bool :=
  Views.contains (Views.particular_key i "description") data.

Definition row_description (data : Views.QueryDict) (i : nat) : string :=
  Py.strip (Views.get_or (Views.particular_key i "description") data EmptyString).

Definition row_amount (data : Views.QueryDict) (i : nat) : string :=
  Py.strip (Views.get_or (Views.particular_key i "amount") data EmptyString).

(** Both the description and the amount are filled in. *)
Definition row_complete (data : Views.QueryDict) (i : nat) : bool :=
  Py.truthy (row_description data i) && Py.truthy (row_amount data i).




End SubmittedRows.

(** C4 as worded, for one submission: it creates a CHEQUE voucher only
    with a cheque number that, trimmed, is non-empty and consists only of
    the digits 0 to 9. *)
Definition cheque_number_only_digits {R : Runtime} (db : Db) (now : Z)
           (request : Views.CreateRequest) : Prop :=
  forall body db',
    Views.VoucherCreateAPI_post db now request = Some (JsonResponse body 201, db') ->
    Views.get "payment_type" (Views.req_POST request) = Some "CHEQUE" ->
    let supplied :=
      Py.strip (Views.get_or "cheque_number" (Views.req_POST request) EmptyString) in
    Py.truthy supplied = true
    /\ Py.forallb_string Py.isdecimal_char supplied = true.

(** A particular the serializer lets through. *)
Definition acceptable (p : Serializers.ParticularData) : Prop :=
  Py.truthy (Serializers.pd_description p) = true
  /\ Py.le_zero (Serializers.pd_amount p) = Some false.


(** ** Voucher numbers *)

(** The numeric suffix of a voucher number of the form VCH.... *)
Definition suffix (v : Voucher.t) : option Z :=
  if Py.startswith "VCH" (Voucher.voucher_number v)
  then Py.int (Py.drop 3 (Voucher.voucher_number v))
  else None.

(** The highest numeric suffix among the vouchers, 0 when there is none. *)
Definition highest_suffix (vs : list Voucher.t) : Z :=
  fold_right (fun v m => match suffix v with Some n => Z.max n m | None => m end) 0 vs.

(** The number of the [k]-th voucher created. *)
Definition sequence_number (k : nat) : string :=
  ("VCH" ++ Py.format_04d (Z.of_nat k))%string.

(** Vouchers in creation order carry the numbers VCH0001, VCH0002, ... and
    increasing primary keys. *)
Definition numbered_in_sequence (vs : list Voucher.t) : Prop :=
  map Voucher.voucher_number vs = map sequence_number (seq 1 (List.length vs))
  /\ StronglySorted Z.lt (map Voucher.id vs).

(** Databases the four views lead to from a database without vouchers. *)
Inductive reachable {R : Runtime} : Db -> Prop :=
| reach_start db :
    vouchers db = [] -> reachable db
| reach_submit db now request response db' :
    reachable db ->
    Views.VoucherCreateAPI_post db now request = Some (response, db') ->
    reachable db'
| reach_decision db now user status_field pk response db' :
    reachable db ->
    Views.VoucherApprovalAPI_post db now user status_field pk = (response, db') ->
    reachable db'
| reach_control db now user active_designations_field response db' :
    reachable db ->
    Views.ApprovalControlAPI_post db now user active_designations_field = (response, db') ->
    reachable db'
| reach_designation db now user name_field response db' :
    reachable db ->
    Views.DesignationCreateAPI_post db now user name_field = (response, db') ->
    reachable db'.

(** ** Auxiliary notions *)

(** The rows that flag one designation. *)
Definition rows_of (db : Db) (d : Z) : list ActiveApprovalDesignation.t :=
  filter (fun a => ActiveApprovalDesignation.designation a =? d)
         (active_designations db).

(** Designation [d] has exactly one row and its flag is [f]. *)
Definition settled (db : Db) (d : Z) (f : bool) : Prop :=
  filter (fun p => fst p =? d) (activation db) = [(d, f)].

(** Same tables apart from the activation rows. *)
Definition same_but_activation (db db' : Db) : Prop :=
  db' = Models.set_active_designations db (active_designations db').

(** No white space in front. *)
Definition starts_clean (s : string) : bool :=
  match s with String c _ => negb (Py.isspace c) | EmptyString => true end.

(** ** Constraints kept by the views *)

(** [Designation.name] is unique. *)
Definition designation_names_unique (db : Db) : Prop :=
  NoDup (map Designation.name (designations db)).

(** Every activation row points to an existing designation (the foreign
    key of [ActiveApprovalDesignation.designation]). *)
Definition activation_fk (db : Db) : Prop :=
  forall a, In a (active_designations db) ->
            In (ActiveApprovalDesignation.designation a)
               (map Designation.id (designations db)).

(** [unique_together = ('voucher', 'approver')] on [VoucherApproval]. *)
Definition approvals_unique (db : Db) : Prop :=
  NoDup (map (fun a => (VoucherApproval.voucher a, VoucherApproval.approver a))
             (approvals db)).

(** The databases agree on every table but [designations]. *)
Definition same_but_designations (db db' : Db) : Prop :=
  db' = Views.set_designations db (designations db').

(** The databases agree on every table but [vouchers] and [approvals]. *)
Definition same_but_decisions (db db' : Db) : Prop :=
  db' = Models.set_vouchers (Models.set_approvals db (approvals db')) (vouchers db').

(** Designation [d] has exactly one activation row; it carries the flag
    [f] and was last written by [actor] at [now]. *)
Definition stamped (db : Db) (d : Z) (f : bool) (actor now : Z) : Prop :=
  exists r, rows_of db d = [r]
            /\ ActiveApprovalDesignation.is_active r = f
            /\ ActiveApprovalDesignation.updated_by r = actor
            /\ ActiveApprovalDesignation.updated_at r = now.

(** ** Stored submissions *)

(** What the serializer asks of the main attachment: a file name, a
    non-empty content of at most 5 MB and an allowed extension. *)
Definition attachment_ok (f : File) : bool :=
  Py.truthy (file_name f)
  && negb (file_size f =? 0)%N
  && (file_size f <=? Serializers.max_upload_size)%N
  && mem_string (Py.lower (Py.suffix1 (file_name f))) Serializers.allowed_extensions.

(** A stored amount: the submitted text read as a positive decimal with at
    most two places, written with exactly two. *)
Definition stored_amount {R : Runtime} (text : string) (d : Py.Decimal) : Prop :=
  exists c e,
    Decimal_of_string text = Some (Py.Finite false c e)
    /\ (0 < c)%N /\ -2 <= e
    /\ d = Py.Finite false (c * 10 ^ Z.to_N (e + 2)) (-2).

(** The form has the rows 0 .. n-1 and no row n: this is where the loop of
    [VoucherCreateAPI.post] stops. *)
Definition rows_end (data : Views.QueryDict) (n : nat) : Prop :=
  (forall j, (j < n)%nat -> row_present data j = true) /\ row_present data n = false.

(** The rows among the first [n] with both a description and an amount. *)
Definition complete_rows (data : Views.QueryDict) (n : nat) : list nat :=
  filter (row_complete data) (seq 0 n).

(** The file column [name] of a row written on the way from [db] to [db']
    for the upload [f]: without an upload it is empty; with one it is the
    name the storage answered in directory [dir] when at least the files of
    [db] were there, and the file is among the stored ones of [db']. *)
Definition stored_as {R : Runtime} (db db' : Db) (dir : string) (f : option File)
           (name : option string) : Prop :=
  match f with
  | Some f =>
      exists taken,
        incl (media db) taken
        /\ name = Some (storage_save taken dir (file_name f))
        /\ In (storage_save taken dir (file_name f)) (media db')
  | None => name = None
  end.

(** Row [j] of the form as the particular [p] of voucher [pk], written on
    the way from [db] to [db']. *)
Definition stored_row {R : Runtime} (db db' : Db) (data : Views.QueryDict)
           (files : list (string * File)) (pk : Z) (j : nat) (p : Particular.t) : Prop :=
  Particular.voucher p = pk
  /\ Particular.description p = row_description data j
  /\ (String.length (Particular.description p) <= 300)%nat
  /\ stored_amount (row_amount data j) (Particular.amount p)
  /\ stored_as db db' "vouchers/particulars/"
               (Views.get (Views.particular_key j "attachment") files)
               (Particular.attachment p).

(** The message [m] is reported for [field] in the serializer's errors,
    bare or as a one-element list. *)
Definition reports (errs : Serializers.Errors) (field m : string) : Prop :=
  In (field, JStr m) errs \/ In (field, JList [JStr m]) errs.

(** The value [x] handed to a template filter is the integer [a]: as a
    number, or as its decimal text, which the interpreter writes and reads
    for up to 4300 digits. *)
Definition reads_as (x : Scalar) (a : Z) : Prop :=
  x = SInt a
  \/ (x = SStr (Py.str a)
      /\ (Py.count_digits (Py.str a) <= Py.int_max_str_digits)%nat).

(** The three states of a voucher. *)
Definition status_known (v : Voucher.t) : Prop :=
  In (Voucher.status v) ["PENDING"; "APPROVED"; "REJECTED"].

(** The databases agree on every table the submission does not write. *)
Definition same_but_submission (db db' : Db) : Prop :=
  users db' = users db /\ groups db' = groups db /\ user_groups db' = user_groups db
  /\ designations db' = designations db /\ profiles db' = profiles db
  /\ active_designations db' = active_designations db /\ approvals db' = approvals db.

(* ================================================================== *)
(** * Facts *)
(* ================================================================== *)

Section ApproverResolution.

Lemma mem_Z_In x l : mem_Z x l = true <-> In x l.
Proof.
  unfold mem_Z. rewrite existsb_exists. split.
  - intros (y & Hy & E). apply Z.eqb_eq in E. now subst.
  - intros H. exists x. split; [assumption | apply Z.eqb_refl].
Qed.

Lemma active_des_ids_spec db d :
  In d (Models.active_des_ids db) <-> active_designation db d.
Proof.
  unfold Models.active_des_ids, active_designation.
  rewrite in_map_iff. split.
  - intros (a & E & Ha). apply filter_In in Ha. exists a. tauto.
  - intros (a & Ha & Hact & E). exists a. rewrite filter_In. tauto.
Qed.

Lemma approver_row_spec active p u m g :
  Models.approver_row active p u m g = true <->
  UserProfile.user p = User.id u
  /\ UserGroup.user_id m = User.id u
  /\ UserGroup.group_id m = Group.id g
  /\ Group.name g = "Admin Staff"
  /\ exists d, UserProfile.designation p = Some d /\ In d active.
Proof.
  unfold Models.approver_row.
  rewrite !andb_true_iff, !Z.eqb_eq, String.eqb_eq.
  destruct (UserProfile.designation p) as [d|].
  - rewrite mem_Z_In. split.
    + intros H. repeat split; try tauto. exists d. tauto.
    + intros (? & ? & ? & ? & d' & E & ?). inversion E; subst. tauto.
  - split; [intros (_ & H); discriminate|].
    intros (_ & _ & _ & _ & d & E & _). discriminate.
Qed.

Lemma In_profile_join db active p u :
  In (p, u) (Models.profile_join db active) <->
  In p (profiles db) /\ In u (users db)
  /\ exists m g, In m (user_groups db) /\ In g (groups db)
                 /\ Models.approver_row active p u m g = true.
Proof.
  unfold Models.profile_join. rewrite in_flat_map. split.
  - intros (p' & Hp & H). apply in_flat_map in H as (u' & Hu & H).
    apply in_flat_map in H as (m & Hm & H).
    apply in_flat_map in H as (g & Hg & H).
    destruct (Models.approver_row active p' u' m g) eqn:E; [|contradiction].
    destruct H as [H|[]]. inversion H; subst. eauto 8.
  - intros (Hp & Hu & m & g & Hm & Hg & E).
    exists p. split; [assumption|].
    apply in_flat_map. exists u. split; [assumption|].
    apply in_flat_map. exists m. split; [assumption|].
    apply in_flat_map. exists g. split; [assumption|].
    rewrite E. now left.
Qed.

Lemma In_user_join db active name :
  In name (Serializers.user_join db active) <->
  exists p u, In (p, u) (Models.profile_join db active) /\ User.username u = name.
Proof.
  unfold Serializers.user_join. rewrite in_flat_map. split.
  - intros (u & Hu & H). apply in_flat_map in H as (m & Hm & H).
    apply in_flat_map in H as (g & Hg & H).
    apply in_flat_map in H as (p & Hp & H).
    destruct (Models.approver_row active p u m g) eqn:E; [|contradiction].
    destruct H as [H|[]]. exists p, u. split; [|assumption].
    apply In_profile_join. eauto 8.
  - intros (p & u & H & E). apply In_profile_join in H.
    destruct H as (Hp & Hu & m & g & Hm & Hg & Hrow).
    exists u. split; [assumption|].
    apply in_flat_map. exists m. split; [assumption|].
    apply in_flat_map. exists g. split; [assumption|].
    apply in_flat_map. exists p. split; [assumption|].
    rewrite Hrow. now left.
Qed.

Lemma In_required_approvers db v name :
  In name (Models.required_approvers db v) <->
  exists p u, In (p, u) (Models.profile_join db (Models.active_des_ids db))
              /\ User.username u = name.
Proof.
  unfold Models.required_approvers. rewrite in_map_iff. split.
  - intros ([p u] & E & H). apply nodup_In in H. exists p, u. auto.
  - intros (p & u & H & E). exists (p, u). split; [assumption|].
    now apply nodup_In.
Qed.

Lemma required_approvers_eligible db v name :
  In name (Models.required_approvers db v) <-> eligible_approver db name.
Proof.
  rewrite In_required_approvers. unfold eligible_approver, is_member. split.
  - intros (p & u & H & E). apply In_profile_join in H.
    destruct H as (Hp & Hu & m & g & Hm & Hg & Hrow).
    apply approver_row_spec in Hrow.
    destruct Hrow as (E1 & E2 & E3 & E4 & d & E5 & Hd).
    apply active_des_ids_spec in Hd.
    exists u, p, d. repeat split; try assumption.
    exists m, g. tauto.
  - intros (u & p & d & Hu & E & (m & g & Hm & Hg & E2 & E3 & E4) & Hp & E1 & E5 & Hd).
    exists p, u. split; [|assumption].
    apply In_profile_join. repeat split; try assumption.
    exists m, g. repeat split; try assumption.
    apply approver_row_spec. repeat split; try assumption.
    exists d. split; [assumption|]. now apply active_des_ids_spec.
Qed.

Lemma NoDup_map_In_inj {A B} (f : A -> B) l x y :
  NoDup (map f l) -> In x l -> In y l -> f x = f y -> x = y.
Proof.
  induction l as [|a l IH]; simpl; [tauto|].
  intros Hnd [Hx|Hx] [Hy|Hy] E; inversion Hnd as [|? ? Hnot Hnd']; subst.
  - reflexivity.
  - exfalso. apply Hnot. rewrite E. now apply in_map.
  - exfalso. apply Hnot. rewrite <- E. now apply in_map.
  - now apply IH.
Qed.

Lemma required_approvers_NoDup db v :
  approver_schema db -> NoDup (Models.required_approvers db v).
Proof.
  intros [Hname Hone]. unfold Models.required_approvers.
  apply NoDup_map_NoDup_ForallPairs; [|apply NoDup_nodup].
  intros [p1 u1] [p2 u2] H1 H2 E. simpl in E.
  apply nodup_In, In_profile_join in H1.
  apply nodup_In, In_profile_join in H2.
  destruct H1 as (Hp1 & Hu1 & m1 & g1 & _ & _ & R1).
  destruct H2 as (Hp2 & Hu2 & m2 & g2 & _ & _ & R2).
  apply approver_row_spec in R1, R2.
  assert (u1 = u2) by (eapply NoDup_map_In_inj; eauto). subst u2.
  assert (p1 = p2).
  { eapply NoDup_map_In_inj; eauto. destruct R1 as [-> _], R2 as [-> _]. reflexivity. }
  now subst.
Qed.

(** C2.  Whatever the active-designation set D is, [required_approvers]
    lists exactly the usernames of the users that belong to the group
    'Admin Staff' and whose profile designation is in D, each once; the
    voucher plays no part; with no active designation the list is empty. *)
Theorem C2_required_approvers_exact :
  forall (db : Db) (v : Voucher.t),
    approver_schema db ->
    NoDup (Models.required_approvers db v)
    /\ (forall name, In name (Models.required_approvers db v)
                     <-> eligible_approver db name)
    /\ (forall v', Models.required_approvers db v' = Models.required_approvers db v)
    /\ ((forall d, ~ active_designation db d) -> Models.required_approvers db v = []).
Proof.
  intros db v Hschema. repeat split.
  - now apply required_approvers_NoDup.
  - now apply required_approvers_eligible.
  - now apply required_approvers_eligible.
  - intros Hnone.
    destruct (Models.required_approvers db v) as [|name l] eqn:E; [reflexivity|].
    exfalso.
    assert (H : In name (Models.required_approvers db v)) by (rewrite E; now left).
    apply required_approvers_eligible in H.
    destruct H as (u & p & d & _ & _ & _ & _ & _ & _ & Hd).
    now apply (Hnone d).
Qed.

(** C10.  The model property and the serializer method compute the same
    set of usernames, for every voucher and every database state. *)
Theorem C10_model_and_serializer_agree :
  forall (db : Db) (v : Voucher.t) (name : string),
    In name (Models.required_approvers db v)
    <-> In name (Serializers.get_required_approvers db v).
Proof.
  intros db v name. rewrite In_required_approvers.
  unfold Serializers.get_required_approvers.
  rewrite nodup_In. symmetry. apply In_user_join.
Qed.

End ApproverResolution.

Section ApprovalConsensus.

Lemma required_approvers_frame db db' v v' :
  users db' = users db -> groups db' = groups db ->
  user_groups db' = user_groups db -> profiles db' = profiles db ->
  active_designations db' = active_designations db ->
  Models.required_approvers db' v' = Models.required_approvers db v.
Proof.
  intros H1 H2 H3 H4 H5.
  unfold Models.required_approvers, Models.profile_join, Models.active_des_ids.
  now rewrite H1, H2, H3, H4, H5.
Qed.

Lemma find_map_preserve {A} (p : A -> bool) (f : A -> A) l :
  (forall x, p (f x) = p x) ->
  find p (map f l) = option_map f (find p l).
Proof.
  intros Hp. induction l as [|a l IH]; simpl; [reflexivity|].
  rewrite Hp. destruct (p a); [reflexivity | exact IH].
Qed.

Lemma get_voucher_id db pk v :
  Views.get_voucher db pk = Some v -> Voucher.id v = pk.
Proof.
  unfold Views.get_voucher. intros H. apply find_some in H.
  now apply Z.eqb_eq.
Qed.

Lemma get_voucher_In db pk v :
  Views.get_voucher db pk = Some v -> In v (vouchers db).
Proof. unfold Views.get_voucher. intros H. now apply find_some in H. Qed.

Lemma assign_voucher_number_keeps db self self' :
  Models.assign_voucher_number db self = inr self' ->
  Voucher.id self' = Voucher.id self /\ Voucher.status self' = Voucher.status self.
Proof.
  unfold Models.assign_voucher_number.
  destruct (negb (Py.truthy (Voucher.voucher_number self))).
  - destruct (Models.last_voucher (vouchers db)) as [last|].
    + destruct (Py.startswith "VCH" (Voucher.voucher_number last)).
      * destruct (Py.int _); intros H; inversion H; subst; simpl; auto.
      * intros H; inversion H; subst; simpl; auto.
    + intros H; inversion H; subst; simpl; auto.
  - intros H; inversion H; subst; auto.
Qed.

(** What [save(update_fields=['status'])] leaves in the database. *)
Lemma save_status_spec db self self' db' :
  Models.save_status db self = inr (self', db') ->
  Voucher.id self' = Voucher.id self
  /\ Voucher.status self' = Voucher.status self
  /\ db' = Models.set_vouchers db
             (map (fun v => if Voucher.id v =? Voucher.id self
                            then Models.set_status v (Voucher.status self) else v)
                  (vouchers db)).
Proof.
  unfold Models.save_status.
  destruct (Models.assign_voucher_number db self) as [e|s] eqn:E; [discriminate|].
  apply assign_voucher_number_keeps in E. destruct E as [Eid Est].
  destruct (existsb _ _); [|discriminate].
  intros H. inversion H; subst. rewrite Eid, Est. auto.
Qed.

Lemma get_voucher_after_save db self pk v :
  Views.get_voucher db pk = Some v ->
  Views.get_voucher
    (Models.set_vouchers db
       (map (fun v => if Voucher.id v =? Voucher.id self
                      then Models.set_status v (Voucher.status self) else v)
            (vouchers db))) pk
  = Some (if Voucher.id v =? Voucher.id self
          then Models.set_status v (Voucher.status self) else v).
Proof.
  unfold Views.get_voucher. simpl. intros H.
  rewrite find_map_preserve, H; [reflexivity|].
  intros x. destruct (Voucher.id x =? Voucher.id self); reflexivity.
Qed.

Lemma existsb_rejected db pk :
  existsb (fun a => String.eqb (VoucherApproval.status a) "REJECTED")
          (Models.approvals_of db pk) = true <-> has_rejection db pk.
Proof.
  unfold has_rejection. rewrite existsb_exists.
  split; intros (a & Ha & E); exists a; (split; [assumption|]);
    now apply String.eqb_eq.
Qed.

Lemma update_status_keeps_approvals db self self' db' :
  Models._update_status_if_all_approved db self = inr (self', db') ->
  approvals db' = approvals db.
Proof.
  unfold Models._update_status_if_all_approved.
  destruct (Models.required_approvers db self).
  - intros H. now inversion H.
  - intros H. apply save_status_spec in H. destruct H as (_ & _ & ->). reflexivity.
Qed.

(** The routine of models.py 79-94 implements the state machine: the row
    it leaves in the table obeys the rule, and the object it hands back
    carries the same status. *)
Lemma update_status_rule db self self' db' :
  Views.get_voucher db (Voucher.id self) = Some self ->
  Models._update_status_if_all_approved db self = inr (self', db') ->
  approvals db' = approvals db
  /\ (forall v, Models.required_approvers db' v = Models.required_approvers db self)
  /\ exists row,
      Views.get_voucher db' (Voucher.id self) = Some row
      /\ Voucher.status row = Voucher.status self'
      /\ recomputation_rule db' (Voucher.status self) row.
Proof.
  intros Hget. unfold Models._update_status_if_all_approved.
  destruct (Models.required_approvers db self) as [|r0 rs] eqn:Hreq.
  - intros H. inversion H; subst. split; [reflexivity|].
    split; [intros v; rewrite <- Hreq; now apply required_approvers_frame|].
    exists self'. split; [assumption|]. split; [reflexivity|].
    unfold recomputation_rule. rewrite Hreq.
    repeat split; intros; try reflexivity; exfalso; auto.
  - set (required := r0 :: rs) in *.
    set (st := if existsb _ _ then _ else _).
    assert (Eid' : Voucher.id st = Voucher.id self)
      by (subst st; destruct (existsb _ _); [|destruct (Nat.eqb _ _)]; reflexivity).
    intros H. apply save_status_spec in H. destruct H as (Eid & Est & ->).
    rewrite Eid' in *.
    assert (Hreq' : forall l v, Models.required_approvers (Models.set_vouchers db l) v
                                = required).
    { intros l v. subst required. rewrite <- Hreq.
      now apply required_approvers_frame. }
    split; [reflexivity|]. split; [intros v; apply Hreq'|].
    pose proof (get_voucher_after_save db st _ _ Hget) as Hafter.
    rewrite Eid', Z.eqb_refl in Hafter.
    eexists. split; [exact Hafter|]. split; [simpl; now rewrite Est|].
    unfold recomputation_rule. rewrite Hreq'.
    assert (Hne : required <> []) by (subst required; discriminate).
    change (Voucher.id (Models.set_status self (Voucher.status st)))
      with (Voucher.id self).
    change (Voucher.status (Models.set_status self (Voucher.status st)))
      with (Voucher.status st).
    assert (Hrej : forall l, has_rejection (Models.set_vouchers db l) (Voucher.id self)
                             <-> has_rejection db (Voucher.id self))
      by (intros l; reflexivity).
    assert (Hcnt : forall l, approved_count (Models.set_vouchers db l) (Voucher.id self)
                             = approved_count db (Voucher.id self))
      by (intros l; reflexivity).
    rewrite Hcnt. setoid_rewrite Hrej.
    subst st. fold (approved_count db (Voucher.id self)).
    destruct (existsb _ _) eqn:ER.
    + apply existsb_rejected in ER. simpl.
      repeat split; try tauto; try discriminate; intros; try tauto;
        exfalso; tauto.
    + assert (Hno : ~ has_rejection db (Voucher.id self)).
      { intros Hr. apply existsb_rejected in Hr. congruence. }
      destruct (Nat.eqb _ _) eqn:EC.
      * apply Nat.eqb_eq in EC. simpl.
        repeat split; try tauto; try discriminate; intros; try tauto;
          exfalso; tauto.
      * apply Nat.eqb_neq in EC. simpl.
        repeat split; try tauto; try discriminate; intros; try tauto;
          try (exfalso; tauto).
Qed.

Lemma mem_string_In x l : mem_string x l = true <-> In x l.
Proof.
  unfold mem_string. rewrite existsb_exists. split.
  - intros (y & Hy & E). apply String.eqb_eq in E. now subst.
  - intros H. exists x. split; [assumption | apply String.eqb_refl].
Qed.

Lemma filter_map_preserve {A} (p : A -> bool) (f : A -> A) l :
  (forall x, p (f x) = p x) ->
  filter p (map f l) = map f (filter p l).
Proof.
  intros Hp. induction l as [|a l IH]; simpl; [reflexivity|].
  rewrite Hp. destruct (p a); simpl; now rewrite IH.
Qed.

(** [update_or_create] on the approvals table: one row for the pair
    afterwards, carrying the new decision; a fresh row is stamped with the
    clock, an existing row keeps the stamp it had. *)
Lemma approval_update_or_create_spec db now voucher approver st a created db1 :
  Views.approval_update_or_create db now voucher approver st = inr (a, created, db1) ->
  (exists l, db1 = Models.set_approvals db l)
  /\ pair_rows db1 voucher approver = [a]
  /\ VoucherApproval.status a = st
  /\ VoucherApproval.voucher a = voucher
  /\ VoucherApproval.approver a = approver
  /\ (created = true ->
      pair_rows db voucher approver = [] /\ VoucherApproval.approved_at a = now)
  /\ (created = false ->
      exists old, pair_rows db voucher approver = [old]
                  /\ VoucherApproval.id a = VoucherApproval.id old
                  /\ VoucherApproval.approved_at a = VoucherApproval.approved_at old).
Proof.
  unfold Views.approval_update_or_create, pair_rows.
  set (p := fun a0 : VoucherApproval.t =>
              (VoucherApproval.voucher a0 =? voucher)
              && (VoucherApproval.approver a0 =? approver)).
  destruct (filter p (approvals db)) as [|old [|x rest]] eqn:E; [| |discriminate].
  - intros H. inversion H; subst. simpl.
    split; [eauto|]. rewrite filter_app, E. simpl.
    unfold p at 1. simpl. rewrite !Z.eqb_refl. simpl.
    repeat split; auto; discriminate.
  - intros H. inversion H; subst. simpl.
    assert (Hold : In old (filter p (approvals db))) by (rewrite E; now left).
    apply filter_In in Hold. destruct Hold as [_ Hp].
    unfold p in Hp. apply andb_true_iff in Hp.
    rewrite !Z.eqb_eq in Hp. destruct Hp as [Hv Ha].
    split; [eauto|].
    rewrite filter_map_preserve, E.
    + simpl. rewrite Z.eqb_refl.
      repeat split; auto; try discriminate.
      intros _. exists old. auto.
    + intros x. destruct (VoucherApproval.id x =? VoucherApproval.id old); reflexivity.
Qed.

Lemma pair_rows_approvals_of db voucher approver a :
  In a (pair_rows db voucher approver) -> In a (Models.approvals_of db voucher).
Proof.
  unfold pair_rows, Models.approvals_of. rewrite !filter_In.
  intros [H Hp]. apply andb_true_iff in Hp. tauto.
Qed.

(** A decision of a required approver is recorded: with at most one row
    for the pair (the [unique_together] constraint) and a voucher that has
    its number, the view answers 200. *)
Lemma required_approver_decision_is_recorded db now u decision pk v :
  Views.get_voucher db pk = Some v ->
  Py.truthy (Voucher.voucher_number v) = true ->
  (List.length (pair_rows db pk (User.id u)) <= 1)%nat ->
  (Views.in_group db u "Admin Staff" || User.is_superuser u) = true ->
  In (User.username u) (Models.required_approvers db v) ->
  decision = "APPROVED" \/ decision = "REJECTED" ->
  exists body db',
    Views.VoucherApprovalAPI_post db now (Some u) (Value (SStr decision)) pk
    = (JsonResponse body 200, db').
Proof.
  intros Hget Hnum Hone Hgate Hreq Hdec.
  unfold Views.VoucherApprovalAPI_post, Views.AdminStaffRequiredMixin.
  rewrite Hgate, Hget. cbn [negb].
  assert (Hd : Views.decision_of (Value (SStr decision)) = Some decision).
  { destruct Hdec as [-> | ->]; reflexivity. }
  rewrite Hd. apply mem_string_In in Hreq. rewrite Hreq. cbn [negb].
  pose proof (get_voucher_id _ _ _ Hget) as Hid. rewrite Hid.
  destruct (Views.approval_update_or_create db now pk (User.id u) decision)
    as [e|[[a created] db1]] eqn:Hup.
  { exfalso. unfold Views.approval_update_or_create in Hup.
    fold (pair_rows db pk (User.id u)) in Hup.
    destruct (pair_rows db pk (User.id u)) as [|x [|y l]]; try discriminate.
    simpl in Hone. lia. }
  apply approval_update_or_create_spec in Hup. destruct Hup as ((l & ->) & _).
  unfold Models._update_status_if_all_approved.
  destruct (Models.required_approvers _ _); [eauto|].
  unfold Models.save_status, Models.assign_voucher_number.
  match goal with
  | |- context [if existsb ?p ?l then Models.set_status v ?a else ?b] =>
      set (st := if existsb p l then Models.set_status v a else b)
  end.
  assert (Est : Voucher.voucher_number st = Voucher.voucher_number v
                /\ Voucher.id st = Voucher.id v)
    by (subst st; destruct (existsb _ _); [|destruct (Nat.eqb _ _)]; auto).
  destruct Est as [En Ei]. rewrite En, Hnum. cbn [negb].
  assert (Hex : existsb (fun v0 => Voucher.id v0 =? Voucher.id st)
                        (vouchers (Models.set_approvals db l)) = true).
  { apply existsb_exists. exists v. split; [now apply get_voucher_In in Hget|].
    rewrite Ei. apply Z.eqb_refl. }
  rewrite Hex. eauto.
Qed.

(** C1.  After a decision has been recorded (the view answers 200), the
    stored voucher status follows the full recomputation rule: unchanged
    when nobody is required; REJECTED when a stored approval is REJECTED;
    otherwise APPROVED exactly when the number of stored APPROVED
    decisions equals the number of required approvers, else PENDING.  In
    particular a recorded REJECTED decision leaves the status REJECTED. *)
Theorem C1_status_follows_recomputation_rule :
  forall (db : Db) (now : Z) (user : option User.t) (status_field : Field)
         (pk : Z) (body : Json) (db' : Db),
    Views.VoucherApprovalAPI_post db now user status_field pk
      = (JsonResponse body 200, db') ->
    exists old row decision,
      Views.get_voucher db pk = Some old
      /\ Views.get_voucher db' pk = Some row
      /\ Views.decision_of status_field = Some decision
      /\ recomputation_rule db' (Voucher.status old) row
      /\ (decision = "REJECTED" -> Voucher.status row = "REJECTED").
Proof.
  intros db now user fld pk body db'.
  unfold Views.VoucherApprovalAPI_post, Views.AdminStaffRequiredMixin.
  destruct user as [u|]; [|discriminate].
  destruct (negb _); [discriminate|].
  destruct (Views.get_voucher db pk) as [voucher|] eqn:Hget; [|discriminate].
  destruct (Views.decision_of fld) as [choice|]; [|discriminate].
  destruct (negb (mem_string _ _)) eqn:Hmem; [discriminate|].
  apply negb_false_iff, mem_string_In in Hmem.
  pose proof (get_voucher_id _ _ _ Hget) as Hid.
  destruct (Views.approval_update_or_create _ _ _ _ _) as [e|[[a created] db1]] eqn:Hup;
    [discriminate|].
  apply approval_update_or_create_spec in Hup.
  destruct Hup as ((l & ->) & Hrows & Hst & Hv & Ha & _).
  destruct (Models._update_status_if_all_approved _ _) as [e|[voucher' db2]] eqn:Hrec;
    [discriminate|].
  intros H. inversion H; subst db2. clear H.
  apply update_status_rule in Hrec.
  2:{ rewrite Hid. exact Hget. }
  destruct Hrec as (Happ & Hreq & row & Hrow & Hrs & Hrule).
  rewrite Hid in Hrow.
  exists voucher, row, choice.
  split; [reflexivity|]. split; [assumption|]. split; [reflexivity|].
  split; [assumption|].
  intros ->.
  pose proof (get_voucher_id _ _ _ Hrow) as Hid'.
  destruct Hrule as (_ & Hrej & _). apply Hrej.
  - rewrite Hreq.
    rewrite (required_approvers_frame db (Models.set_approvals db l) voucher voucher)
      by reflexivity.
    intros E. rewrite E in Hmem. contradiction.
  - exists a. split; [|assumption].
    rewrite Hid'. unfold Models.approvals_of. rewrite Happ.
    apply (pair_rows_approvals_of _ _ (User.id u)).
    rewrite Hid in Hrows. rewrite Hrows. now left.
Qed.

(** C3 (counterexample).  alice approved voucher 1 at time 10 and rejects
    it at time 20: the single row of the pair still carries time 10. *)
Lemma C3_timestamp_not_fresh_on_update :
  ~ upsert_with_fresh_timestamp Sample.db 20 Sample.alice (Value (SStr "REJECTED")) 1.
Proof.
  intros H.
  destruct (Views.VoucherApprovalAPI_post Sample.db 20 (Some Sample.alice)
              (Value (SStr "REJECTED")) 1) as [resp db'] eqn:E.
  vm_compute in E. inversion E; subst. clear E.
  edestruct H as (a & Hrows & _ & Hat); [reflexivity | reflexivity |].
  vm_compute in Hrows. inversion Hrows; subst. discriminate.
Qed.

(** C3 (amended).  A recorded decision leaves exactly one row for the
    (voucher, approver) pair and that row carries the new decision; its
    timestamp is the time of the call when the pair had no row before, and
    is the timestamp of the earlier row when the decision replaces one. *)
Theorem C3_upsert_one_row_per_pair :
  forall (db : Db) (now : Z) (u : User.t) (status_field : Field) (pk : Z)
         (body : Json) (db' : Db) (decision : string),
    Views.VoucherApprovalAPI_post db now (Some u) status_field pk
      = (JsonResponse body 200, db') ->
    Views.decision_of status_field = Some decision ->
    exists a,
      pair_rows db' pk (User.id u) = [a]
      /\ VoucherApproval.status a = decision
      /\ ((pair_rows db pk (User.id u) = [] /\ VoucherApproval.approved_at a = now)
          \/ (exists old, pair_rows db pk (User.id u) = [old]
                          /\ VoucherApproval.id a = VoucherApproval.id old
                          /\ VoucherApproval.approved_at a
                             = VoucherApproval.approved_at old)).
Proof.
  intros db now u fld pk body db' decision.
  unfold Views.VoucherApprovalAPI_post, Views.AdminStaffRequiredMixin.
  destruct (negb _); [discriminate|].
  destruct (Views.get_voucher db pk) as [voucher|] eqn:Hget; [|discriminate].
  destruct (Views.decision_of fld) as [choice|]; [|discriminate].
  destruct (negb (mem_string _ _)); [discriminate|].
  pose proof (get_voucher_id _ _ _ Hget) as Hid. rewrite Hid.
  destruct (Views.approval_update_or_create _ _ _ _ _) as [e|[[a created] db1]] eqn:Hup;
    [discriminate|].
  apply approval_update_or_create_spec in Hup.
  destruct Hup as (_ & Hrows & Hst & _ & _ & Hnew & Hold).
  destruct (Models._update_status_if_all_approved _ _) as [e|[voucher' db2]] eqn:Hrec;
    [discriminate|].
  intros H Hdec. inversion H; subst db2. inversion Hdec; subst choice. clear H Hdec.
  apply update_status_keeps_approvals in Hrec.
  exists a. split; [unfold pair_rows in *; now rewrite Hrec|].
  split; [congruence|].
  destruct created; [left | right]; auto.
Qed.



End ApprovalConsensus.

Section DesignationRegistry.

Lemma str_inj a b : Py.str a = Py.str b -> a = b.
Proof.
  unfold Py.str. intros H.
  apply (f_equal NilEmpty.int_of_string) in H.
  rewrite !NilEmpty.isi in H. inversion H.
  now apply DecimalZ.to_int_inj.
Qed.

Lemma str_scalar_is_id x z :
  str_scalar x = Py.str z -> x = SInt z \/ x = SStr (Py.str z).
Proof.
  destruct x as [|[|]|y|s]; simpl; intros H.
  - apply (f_equal NilEmpty.int_of_string) in H.
    unfold Py.str in H. rewrite NilEmpty.isi in H. discriminate.
  - apply (f_equal NilEmpty.int_of_string) in H.
    unfold Py.str in H. rewrite NilEmpty.isi in H. discriminate.
  - apply (f_equal NilEmpty.int_of_string) in H.
    unfold Py.str in H. rewrite NilEmpty.isi in H. discriminate.
  - apply str_inj in H. left. now subst.
  - right. now subst.
Qed.

Lemma id_in_active_ids_listed z active_ids :
  Views.id_in_active_ids z active_ids = true <-> listed z active_ids.
Proof.
  unfold Views.id_in_active_ids, listed. rewrite mem_string_In, in_map_iff. split.
  - intros (x & E & Hx). apply str_scalar_is_id in E. destruct E; subst; auto.
  - intros [H|H]; eexists; (split; [|exact H]); reflexivity.
Qed.

Lemma next_id_fresh ids x : In x ids -> x < next_id ids.
Proof.
  unfold next_id. induction ids as [|a l IH]; cbn [fold_right In]; [tauto|].
  intros [->|H]; [lia|]. specialize (IH H). lia.
Qed.

Lemma filter_map_comm {A B} (p : B -> bool) (f : A -> B) l :
  filter p (map f l) = map f (filter (fun x => p (f x)) l).
Proof.
  induction l as [|a l IH]; simpl; [reflexivity|].
  destruct (p (f a)); simpl; now rewrite IH.
Qed.

Lemma filter_activation db d :
  filter (fun p => fst p =? d) (activation db)
  = map (fun a => (ActiveApprovalDesignation.designation a,
                   ActiveApprovalDesignation.is_active a))
        (rows_of db d).
Proof. unfold activation, rows_of. now rewrite filter_map_comm. Qed.

Lemma settled_rows db d f :
  settled db d f <->
  exists r, rows_of db d = [r] /\ ActiveApprovalDesignation.is_active r = f.
Proof.
  unfold settled. rewrite filter_activation. split.
  - destruct (rows_of db d) as [|r [|r' l]] eqn:E; simpl; try discriminate.
    intros H. inversion H. eauto.
  - intros (r & E & Hf). rewrite E. simpl. rewrite Hf.
    assert (Hin : In r (rows_of db d)) by (rewrite E; now left).
    apply filter_In in Hin. destruct Hin as [_ Hd].
    apply Z.eqb_eq in Hd. now rewrite Hd.
Qed.

Lemma active_des_ids_activation db :
  Models.active_des_ids db = map fst (filter snd (activation db)).
Proof.
  unfold Models.active_des_ids, activation.
  induction (active_designations db) as [|a l IH]; simpl; [reflexivity|].
  destruct (ActiveApprovalDesignation.is_active a); simpl; now rewrite IH.
Qed.

Lemma settled_active db d f :
  settled db d f -> (active_designation db d <-> f = true).
Proof.
  intros H. rewrite <- active_des_ids_spec, active_des_ids_activation.
  rewrite in_map_iff. split.
  - intros ([d' b] & E & Hin). simpl in E. subst d'.
    apply filter_In in Hin. destruct Hin as [Hin Hb]. simpl in Hb. subst b.
    assert (Hin' : In (d, true) (filter (fun p => fst p =? d) (activation db))).
    { apply filter_In. split; [assumption | apply Z.eqb_refl]. }
    unfold settled in H. rewrite H in Hin'.
    destruct Hin' as [E|[]]. now inversion E.
  - intros ->. exists (d, true). split; [reflexivity|].
    assert (Hin : In (d, true) (filter (fun p => fst p =? d) (activation db))).
    { unfold settled in H. rewrite H. now left. }
    apply filter_In in Hin. apply filter_In. tauto.
Qed.

Lemma same_but_activation_refl db : same_but_activation db db.
Proof. unfold same_but_activation. now destruct db. Qed.

Lemma same_but_activation_trans db1 db2 db3 :
  same_but_activation db1 db2 -> same_but_activation db2 db3 ->
  same_but_activation db1 db3.
Proof.
  unfold same_but_activation. intros H1 H2. rewrite H2 at 1. rewrite H1 at 1.
  reflexivity.
Qed.

Lemma same_but_activation_designations db db' :
  same_but_activation db db' -> designations db' = designations db.
Proof. intros ->. reflexivity. Qed.

Lemma required_approvers_activation db db' v v' :
  same_but_activation db db' -> activation db' = activation db ->
  Models.required_approvers db' v' = Models.required_approvers db v.
Proof.
  intros Hs Ha.
  unfold Models.required_approvers.
  rewrite !active_des_ids_activation, Ha.
  unfold Models.profile_join. rewrite Hs. reflexivity.
Qed.

(** One [update_or_create] on the activation table. *)
Lemma active_update_or_create_spec db now d f actor db1 :
  activation_pk db ->
  Views.active_update_or_create db now d f actor = inr db1 ->
  activation_pk db1
  /\ same_but_activation db db1
  /\ settled db1 d f
  /\ (forall d', d' <> d -> rows_of db1 d' = rows_of db d').
Proof.
  unfold Views.active_update_or_create, activation_pk. intros Hpk.
  fold (rows_of db d).
  destruct (rows_of db d) as [|a [|a' l]] eqn:E; [| |discriminate];
    intros H; inversion H; subst db1; clear H; simpl.
  - split.
    { rewrite map_app. simpl. apply NoDup_app; [assumption| repeat constructor; auto |].
      intros x Hx [<-|[]]. apply next_id_fresh in Hx. lia. }
    split; [reflexivity|]. split.
    + apply settled_rows. unfold rows_of. simpl.
      rewrite filter_app. fold (rows_of db d). rewrite E. simpl.
      rewrite Z.eqb_refl. eauto.
    + intros d' Hd'. unfold rows_of. simpl. rewrite filter_app. simpl.
      apply Z.eqb_neq in Hd'. rewrite Z.eqb_sym in Hd'. rewrite Hd'.
      now rewrite app_nil_r.
  - assert (Ha : In a (rows_of db d)) by (rewrite E; now left).
    apply filter_In in Ha. destruct Ha as [Ha Hd]. apply Z.eqb_eq in Hd.
    split.
    { rewrite map_map. erewrite map_ext; [exact Hpk|].
      intros r. simpl.
      destruct (ActiveApprovalDesignation.id r =? ActiveApprovalDesignation.id a);
        reflexivity. }
    split; [reflexivity|]. split.
    + apply settled_rows. unfold rows_of. simpl.
      rewrite filter_map_preserve.
      * fold (rows_of db d). rewrite E. simpl. rewrite Z.eqb_refl. eauto.
      * intros r.
        destruct (ActiveApprovalDesignation.id r =? ActiveApprovalDesignation.id a);
          reflexivity.
    + intros d' Hd'. unfold rows_of. simpl.
      rewrite filter_map_preserve.
      * rewrite <- (map_id (filter _ (active_designations db))) at 2.
        apply map_ext_in. intros r Hr. apply filter_In in Hr.
        destruct Hr as [Hr Hrd]. apply Z.eqb_eq in Hrd.
        destruct (ActiveApprovalDesignation.id r =? ActiveApprovalDesignation.id a)
          eqn:Eid; [|reflexivity].
        apply Z.eqb_eq in Eid.
        assert (r = a) by (eapply NoDup_map_In_inj; eauto). subst r. congruence.
      * intros r.
        destruct (ActiveApprovalDesignation.id r =? ActiveApprovalDesignation.id a);
          reflexivity.
Qed.

Lemma active_update_or_create_settled db now d f actor :
  activation_pk db -> settled db d f ->
  exists db1, Views.active_update_or_create db now d f actor = inr db1
              /\ activation db1 = activation db.
Proof.
  intros Hpk Hs. apply settled_rows in Hs. destruct Hs as (a & E & Hf).
  unfold Views.active_update_or_create. fold (rows_of db d). rewrite E.
  eexists. split; [reflexivity|].
  unfold activation. simpl. rewrite map_map. apply map_ext_in.
  intros r Hr.
  destruct (ActiveApprovalDesignation.id r =? ActiveApprovalDesignation.id a) eqn:Eid;
    [|reflexivity].
  apply Z.eqb_eq in Eid.
  assert (Ha : In a (rows_of db d)) by (rewrite E; now left).
  apply filter_In in Ha. destruct Ha as [Ha _].
  assert (r = a) by (eapply NoDup_map_In_inj; eauto). subst r.
  simpl. now rewrite Hf.
Qed.

Lemma settled_transfer db db' d f :
  activation db' = activation db -> settled db d f -> settled db' d f.
Proof. unfold settled. now intros ->. Qed.

Lemma settled_other db db' x f :
  rows_of db' x = rows_of db x -> settled db x f -> settled db' x f.
Proof. unfold settled. rewrite !filter_activation. now intros ->. Qed.

(** A completed pass of the loop settles every designation it visited on
    the flag computed from the request, and leaves the rows of every
    other designation alone. *)
Lemma control_loop_spec now actor active_ids all :
  forall db db',
    activation_pk db ->
    Views.control_loop db now actor active_ids all = inr db' ->
    activation_pk db'
    /\ same_but_activation db db'
    /\ (forall d, In d all ->
                  settled db' (Designation.id d)
                          (Views.id_in_active_ids (Designation.id d) active_ids))
    /\ (forall x, (forall d, In d all -> Designation.id d <> x) ->
                  rows_of db' x = rows_of db x).
Proof.
  induction all as [|d rest IH]; intros db db' Hpk; simpl.
  - intros H. inversion H; subst.
    repeat split; auto using same_but_activation_refl. intros d [].
  - destruct (Views.active_update_or_create _ _ _ _ _) as [e|db1] eqn:E; [discriminate|].
    apply active_update_or_create_spec in E; [|assumption].
    destruct E as (Hpk1 & Hs1 & Hset & Hother).
    intros H. apply IH in H; [|assumption].
    destruct H as (Hpk' & Hs' & Hall & Hrest).
    split; [assumption|].
    split; [eapply same_but_activation_trans; eauto|].
    split.
    + intros d0 [<-|Hin]; [|now apply Hall].
      destruct (in_dec Z.eq_dec (Designation.id d) (map Designation.id rest)) as [Hd|Hd].
      * apply in_map_iff in Hd. destruct Hd as (d1 & E1 & Hd1).
        rewrite <- E1. now apply Hall.
      * eapply settled_other; [|exact Hset].
        apply Hrest. intros d1 Hd1 E1. apply Hd. rewrite <- E1. now apply in_map.
    + intros x Hx. rewrite Hrest by (intros d1 Hd1; apply Hx; now right).
      apply Hother. intros ->. now apply (Hx d); [left|].
Qed.

(** On a table already settled on the same flags a pass succeeds and
    changes no flag. *)
Lemma control_loop_settled now actor active_ids all :
  forall db,
    activation_pk db ->
    (forall d, In d all ->
               settled db (Designation.id d)
                       (Views.id_in_active_ids (Designation.id d) active_ids)) ->
    exists db', Views.control_loop db now actor active_ids all = inr db'
                /\ activation db' = activation db
                /\ same_but_activation db db'.
Proof.
  induction all as [|d rest IH]; intros db Hpk Hall; simpl.
  - exists db. auto using same_but_activation_refl.
  - destruct (active_update_or_create_settled db now (Designation.id d)
                (Views.id_in_active_ids (Designation.id d) active_ids) actor)
      as (db1 & E & Hact); [assumption | apply Hall; now left |].
    rewrite E.
    pose proof (active_update_or_create_spec _ _ _ _ _ _ Hpk E) as (Hpk1 & Hs1 & _).
    destruct (IH db1) as (db' & E' & Hact' & Hs'); [assumption | |].
    + intros d1 Hd1. eapply settled_transfer; [exact Hact|]. apply Hall. now right.
    + exists db'. split; [assumption|]. split; [congruence|].
      eapply same_but_activation_trans; eauto.
Qed.

Lemma NoDup_filter_key {A} (f : A -> Z) (l : list A) d :
  NoDup (map f l) ->
  filter (fun a => f a =? d) l = [] \/ exists a, filter (fun a => f a =? d) l = [a].
Proof.
  induction l as [|a l IH]; simpl; [auto|].
  intros H. inversion H as [|? ? Hnot Hnd]; subst.
  destruct (f a =? d) eqn:E.
  - right. exists a. f_equal.
    apply Z.eqb_eq in E.
    destruct (filter (fun a0 => f a0 =? d) l) as [|x r] eqn:F; [reflexivity|].
    exfalso. apply Hnot.
    assert (Hx : In x (filter (fun a0 => f a0 =? d) l)) by (rewrite F; now left).
    apply filter_In in Hx. destruct Hx as [Hx Hd]. apply Z.eqb_eq in Hd.
    rewrite E, <- Hd. now apply in_map.
  - now apply IH.
Qed.

(** Under the uniqueness constraint [update_or_create] finds at most one
    row, so it does not raise, and it keeps the constraint. *)
Lemma active_update_or_create_total db now d f actor :
  activation_unique db ->
  exists db1, Views.active_update_or_create db now d f actor = inr db1
              /\ activation_unique db1.
Proof.
  unfold activation_unique, Views.active_update_or_create. intros Hu.
  destruct (NoDup_filter_key ActiveApprovalDesignation.designation
              (active_designations db) d Hu) as [E|(a & E)]; rewrite E.
  - eexists. split; [reflexivity|]. simpl. rewrite map_app. simpl.
    apply NoDup_app; [assumption | repeat constructor; auto |].
    intros x Hx [<-|[]]. apply in_map_iff in Hx. destruct Hx as (r & Hr & Hin).
    assert (Hf : In r (filter (fun a => ActiveApprovalDesignation.designation a =? d)
                              (active_designations db))).
    { apply filter_In. split; [assumption | now apply Z.eqb_eq]. }
    rewrite E in Hf. contradiction.
  - eexists. split; [reflexivity|]. simpl. rewrite map_map.
    erewrite map_ext; [exact Hu|]. intros r. simpl.
    destruct (ActiveApprovalDesignation.id r =? ActiveApprovalDesignation.id a);
      reflexivity.
Qed.

Lemma control_loop_total now actor active_ids all :
  forall db, activation_unique db ->
             exists db', Views.control_loop db now actor active_ids all = inr db'.
Proof.
  induction all as [|d rest IH]; intros db Hu; simpl; [eauto|].
  destruct (active_update_or_create_total db now (Designation.id d)
              (Views.id_in_active_ids (Designation.id d) active_ids) actor Hu)
    as (db1 & E & Hu1).
  rewrite E. now apply IH.
Qed.

(** C5.  [setActiveSet] by a superuser is a full replace: it answers 200
    and afterwards every existing designation is active exactly when its id
    is listed in the request (as a number or as its decimal text) and
    inactive otherwise.  It is idempotent: repeating the call succeeds
    again and leaves the activation state, and with it the required
    approvers of every voucher, as the first call left them. *)
Theorem C5_set_active_set_replaces_and_is_idempotent :
  forall (db : Db) (now now' : Z) (actor : User.t) (active_ids : list Scalar),
    activation_pk db ->
    activation_unique db ->
    User.is_superuser actor = true ->
    exists body db1,
      Views.ApprovalControlAPI_post db now (Some actor) (Items active_ids)
        = (JsonResponse body 200, db1)
      /\ designations db1 = designations db
      /\ (forall d, In d (designations db1) ->
                    (active_designation db1 (Designation.id d)
                     <-> listed (Designation.id d) active_ids))
      /\ exists body' db2,
          Views.ApprovalControlAPI_post db1 now' (Some actor) (Items active_ids)
            = (JsonResponse body' 200, db2)
          /\ activation db2 = activation db1
          /\ forall v, Models.required_approvers db2 v
                       = Models.required_approvers db1 v.
Proof.
  intros db now now' actor ids Hpk Hu Hsuper.
  unfold Views.ApprovalControlAPI_post. simpl. rewrite Hsuper. simpl.
  destruct (control_loop_total now (User.id actor) ids (designations db) db Hu)
    as (db1 & E).
  rewrite E. do 2 eexists. split; [reflexivity|].
  apply control_loop_spec in E; [|assumption].
  destruct E as (Hpk1 & Hs1 & Hall & _).
  pose proof (same_but_activation_designations _ _ Hs1) as Hdes.
  split; [assumption|]. split.
  { intros d Hd. rewrite Hdes in Hd.
    rewrite (settled_active _ _ _ (Hall d Hd)).
    apply id_in_active_ids_listed. }
  destruct (control_loop_settled now' (User.id actor) ids (designations db1) db1)
    as (db2 & E2 & Hact & Hs2); [assumption | |].
  { intros d Hd. apply Hall. now rewrite <- Hdes. }
  rewrite E2. do 2 eexists. split; [reflexivity|]. split; [assumption|].
  intros v. now apply required_approvers_activation.
Qed.

End DesignationRegistry.

Section PythonText.

Lemma string_of_uint_digits d :
  Py.forallb_string Py.isdecimal_char (NilEmpty.string_of_uint d) = true.
Proof. induction d; simpl; auto. Qed.

Lemma str_nat_digits n : Py.forallb_string Py.isdecimal_char (Py.str_nat n) = true.
Proof. apply string_of_uint_digits. Qed.

Lemma str_nat_inj i j : Py.str_nat i = Py.str_nat j -> i = j.
Proof.
  unfold Py.str_nat. intros H.
  apply (f_equal NilEmpty.uint_of_string) in H.
  rewrite !NilEmpty.usu in H. inversion H.
  now apply DecimalNat.Unsigned.to_uint_inj.
Qed.

(** Two digit strings followed by the same non-digit continue alike. *)
Lemma digits_append_inj a : forall b c t t',
  Py.forallb_string Py.isdecimal_char a = true ->
  Py.forallb_string Py.isdecimal_char b = true ->
  Py.isdecimal_char c = false ->
  (a ++ String c t)%string = (b ++ String c t')%string -> a = b.
Proof.
  induction a as [|x a IH]; intros [|y b] c t t' Ha Hb Hc; simpl in *; intros H.
  - reflexivity.
  - inversion H; subst. apply andb_true_iff in Hb. destruct Hb as [Hb _]. congruence.
  - inversion H; subst. apply andb_true_iff in Ha. destruct Ha as [Ha _]. congruence.
  - inversion H; subst. f_equal.
    apply andb_true_iff in Ha, Hb. eapply IH; eauto; tauto.
Qed.

Lemma particular_key_inj field i j :
  Views.particular_key i field = Views.particular_key j field -> i = j.
Proof.
  unfold Views.particular_key. simpl. intros H.
  repeat (injection H as H).
  apply str_nat_inj.
  eapply (digits_append_inj _ _ "]"%char); eauto using str_nat_digits.
Qed.

Lemma rstrip_cons c r :
  Py.rstrip (String c r)
  = match Py.rstrip r with
    | EmptyString => if Py.isspace c then EmptyString else String c EmptyString
    | r' => String c r'
    end.
Proof. reflexivity. Qed.

Lemma rstrip_idem s : Py.rstrip (Py.rstrip s) = Py.rstrip s.
Proof.
  induction s as [|c r IH]; [reflexivity|].
  rewrite rstrip_cons. destruct (Py.rstrip r) as [|a t] eqn:E.
  - destruct (Py.isspace c) eqn:Hc; [reflexivity|].
    rewrite rstrip_cons. simpl. now rewrite Hc.
  - rewrite rstrip_cons, IH. reflexivity.
Qed.

Lemma lstrip_clean s : starts_clean (Py.lstrip s) = true.
Proof.
  induction s as [|c r IH]; [reflexivity|]. simpl.
  destruct (Py.isspace c) eqn:Hc; [assumption|]. simpl. now rewrite Hc.
Qed.

Lemma clean_lstrip s : starts_clean s = true -> Py.lstrip s = s.
Proof.
  destruct s as [|c r]; [reflexivity|]. simpl.
  destruct (Py.isspace c); [discriminate | reflexivity].
Qed.

Lemma rstrip_clean s : starts_clean s = true -> starts_clean (Py.rstrip s) = true.
Proof.
  destruct s as [|c r]; [reflexivity|]. rewrite rstrip_cons. simpl. intros H.
  destruct (Py.rstrip r); destruct (Py.isspace c) eqn:Hc; simpl in *;
    rewrite ?Hc; auto; discriminate.
Qed.

(** Stripping twice is stripping once. *)
Lemma strip_idem s : Py.strip (Py.strip s) = Py.strip s.
Proof.
  unfold Py.strip.
  rewrite (clean_lstrip (Py.rstrip (Py.lstrip s)))
    by apply rstrip_clean, lstrip_clean.
  apply rstrip_idem.
Qed.

(** ** Reading back a formatted number *)

Lemma isdecimal_char_facts c :
  Py.isdecimal_char c = true ->
  Py.isspace c = false /\ Ascii.eqb c "+" = false /\ Ascii.eqb c "-" = false
  /\ Ascii.eqb c "_" = false.
Proof.
  destruct c as [[] [] [] [] [] [] [] []]; vm_compute; intros H;
    try discriminate H; auto.
Qed.

Lemma digits_lstrip s :
  Py.forallb_string Py.isdecimal_char s = true -> Py.lstrip s = s.
Proof.
  destruct s as [|c r]; [reflexivity|]. simpl. intros H.
  apply andb_true_iff in H. destruct H as [H _].
  apply isdecimal_char_facts in H. destruct H as [-> _]. reflexivity.
Qed.

Lemma digits_rstrip s :
  Py.forallb_string Py.isdecimal_char s = true -> Py.rstrip s = s.
Proof.
  induction s as [|c r IH]; [reflexivity|]. simpl Py.forallb_string. intros H.
  apply andb_true_iff in H. destruct H as [Hc Hr].
  rewrite rstrip_cons, (IH Hr).
  apply isdecimal_char_facts in Hc. destruct Hc as [-> _].
  destruct r; reflexivity.
Qed.

Lemma digits_strip s :
  Py.forallb_string Py.isdecimal_char s = true -> Py.strip s = s.
Proof.
  intros H. unfold Py.strip. rewrite (digits_lstrip s H). now apply digits_rstrip.
Qed.

Lemma isdecimal_isspace_int c :
  Py.isdecimal_char c = true -> Py.isspace_int c = false.
Proof.
  destruct c as [[] [] [] [] [] [] [] []]; vm_compute; intros H;
    try discriminate H; reflexivity.
Qed.

Lemma rstrip_int_cons c r :
  Py.rstrip_int (String c r)
  = match Py.rstrip_int r with
    | EmptyString => if Py.isspace_int c then EmptyString else String c EmptyString
    | r' => String c r'
    end.
Proof. reflexivity. Qed.

Lemma digits_rstrip_int s :
  Py.forallb_string Py.isdecimal_char s = true -> Py.rstrip_int s = s.
Proof.
  induction s as [|c r IH]; [reflexivity|]. simpl Py.forallb_string. intros H.
  apply andb_true_iff in H. destruct H as [Hc Hr].
  rewrite rstrip_int_cons, (IH Hr), (isdecimal_isspace_int _ Hc).
  destruct r; reflexivity.
Qed.

Lemma digits_strip_int s :
  Py.forallb_string Py.isdecimal_char s = true -> Py.strip_int s = s.
Proof.
  intros H. unfold Py.strip_int.
  assert (Hl : Py.lstrip_int s = s).
  { destruct s as [|c r]; [reflexivity|]. simpl in H. apply andb_true_iff in H.
    destruct H as [Hc _]. simpl. now rewrite (isdecimal_isspace_int _ Hc). }
  rewrite Hl. now apply digits_rstrip_int.
Qed.

Lemma literal_digits_digits s :
  forall prev,
    Py.forallb_string Py.isdecimal_char s = true ->
    (Py.truthy s = true \/ prev = true) ->
    Py.literal_digits prev s = Some s.
Proof.
  induction s as [|c r IH]; intros prev H Hne; simpl.
  - destruct Hne as [Hne | ->]; [discriminate | reflexivity].
  - simpl in H. apply andb_true_iff in H. destruct H as [Hc Hr].
    rewrite Hc. rewrite (IH true Hr); auto.
Qed.

Lemma forallb_string_app f a b :
  Py.forallb_string f (a ++ b)%string
  = Py.forallb_string f a && Py.forallb_string f b.
Proof.
  induction a as [|c a IH]; simpl; [reflexivity|].
  now rewrite IH, andb_assoc.
Qed.

Lemma zeros_digits k : Py.forallb_string Py.isdecimal_char (Py.zeros k) = true.
Proof. induction k; simpl; auto. Qed.

Lemma uint_of_string_zeros k u :
  NilEmpty.uint_of_string (Py.zeros k ++ NilEmpty.string_of_uint u)%string
  = Some (Nat.iter k D0 u).
Proof.
  induction k as [|k IH]; simpl.
  - apply NilEmpty.usu.
  - now rewrite IH.
Qed.

Lemma of_uint_zeros k u : N.of_uint (Nat.iter k D0 u) = N.of_uint u.
Proof. induction k as [|k IH]; simpl; [reflexivity | exact IH]. Qed.

Lemma to_uint_truthy n : Py.truthy (NilEmpty.string_of_uint (N.to_uint n)) = true.
Proof.
  destruct n as [|p]; [reflexivity|].
  simpl. unfold Pos.to_uint.
  destruct (Decimal.rev (Pos.to_little_uint p)) eqn:E; try reflexivity.
  exfalso. pose proof (DecimalPos.Unsigned.to_uint_nonnil p) as Hn.
  unfold Pos.to_uint in Hn. congruence.
Qed.

(** [int] reads a zero-filled rendering of [n] back as [n]. *)
Lemma int_zfill width n :
  Py.int (Py.zfill width (NilEmpty.string_of_uint (N.to_uint n))) = Some (Z.of_N n).
Proof.
  unfold Py.zfill.
  set (k := (width - _)%nat). set (ds := NilEmpty.string_of_uint (N.to_uint n)).
  assert (Hd : Py.forallb_string Py.isdecimal_char (Py.zeros k ++ ds)%string = true).
  { rewrite forallb_string_app, zeros_digits. apply string_of_uint_digits. }
  assert (Ht : Py.truthy (Py.zeros k ++ ds)%string = true).
  { destruct k; simpl; [apply to_uint_truthy | reflexivity]. }
  unfold Py.int. rewrite (digits_strip_int _ Hd).
  destruct (Py.zeros k ++ ds)%string as [|c r] eqn:E; [discriminate|].
  pose proof Hd as Hd'. simpl in Hd'. apply andb_true_iff in Hd'.
  destruct Hd' as [Hc _]. apply isdecimal_char_facts in Hc.
  destruct Hc as (_ & -> & -> & _).
  unfold Py.unsigned_literal. rewrite (literal_digits_digits _ false Hd); [|now left].
  rewrite <- E. subst ds. rewrite uint_of_string_zeros. simpl.
  now rewrite of_uint_zeros, DecimalN.Unsigned.of_to.
Qed.

Lemma int_format_04d n : 0 <= n -> Py.int (Py.format_04d n) = Some n.
Proof.
  intros Hn. unfold Py.format_04d.
  destruct (n <? 0) eqn:E; [apply Z.ltb_lt in E; lia|].
  rewrite int_zfill. f_equal. now apply Z2N.id.
Qed.

Lemma zfill_length width ds :
  String.length (Py.zfill width ds) = Nat.max width (String.length ds).
Proof.
  unfold Py.zfill.
  assert (Happ : forall a b, String.length (a ++ b)%string
                             = (String.length a + String.length b)%nat)
    by (induction a; simpl; auto).
  assert (Hz : forall k, String.length (Py.zeros k) = k)
    by (induction k; simpl; auto).
  rewrite Happ, Hz. lia.
Qed.

Lemma format_04d_nonneg n :
  0 <= n -> Py.format_04d n = Py.zfill 4 (Py.str n).
Proof.
  intros Hn. unfold Py.format_04d, Py.str.
  destruct (n <? 0) eqn:E; [apply Z.ltb_lt in E; lia|].
  destruct n as [|p|p]; [reflexivity | reflexivity | lia].
Qed.

End PythonText.

Section Submission.

Context {R : Runtime}.

Lemma contains_In {A} key (d : list (string * A)) :
  Views.contains key d = true -> In key (map fst d).
Proof.
  unfold Views.contains. rewrite existsb_exists.
  intros ([k v] & Hin & E). apply String.eqb_eq in E. simpl in E. subst.
  now apply (in_map fst) in Hin.
Qed.

(** When the loop uses up its fuel, every index it went through has a
    description key in the form. *)
Lemma build_particulars_exhausted fuel data files :
  forall i acc,
    Views.build_particulars fuel data files i acc = None ->
    forall j, (i <= j < i + fuel)%nat ->
              Views.contains (Views.particular_key j "description") data = true.
Proof.
  induction fuel as [|fuel IH]; intros i acc H j Hj; [lia|].
  simpl in H.
  destruct (Views.contains (Views.particular_key i "description") data) eqn:Hc;
    [|discriminate].
  destruct (Nat.eq_dec j i) as [->|Hne]; [assumption|].
  assert (Hj' : (i + 1 <= j < i + 1 + fuel)%nat) by lia.
  destruct (Py.truthy _ && Py.truthy _).
  - destruct (Decimal_of_string _) as [amount|]; [|discriminate].
    destruct (Py.le_zero amount) as [[|]|]; try discriminate.
    eapply IH; eauto.
  - eapply IH; eauto.
Qed.

(** The loop stops within one more iteration than the form has pairs. *)
Lemma build_particulars_terminates data files :
  Views.build_particulars (S (List.length data)) data files 0 [] <> None.
Proof.
  intros H.
  pose proof (build_particulars_exhausted _ _ _ _ _ H) as Hall.
  set (keys := map (fun i => Views.particular_key i "description")
                   (seq 0 (S (List.length data)))).
  assert (Hnd : NoDup keys).
  { apply Injective_map_NoDup; [|apply seq_NoDup].
    intros i j. apply particular_key_inj. }
  assert (Hincl : incl keys (map fst data)).
  { intros k Hk. apply in_map_iff in Hk. destruct Hk as (i & <- & Hi).
    apply in_seq in Hi. apply contains_In. apply Hall. lia. }
  pose proof (NoDup_incl_length Hnd Hincl) as Hlen.
  subst keys. rewrite !length_map, length_seq in Hlen. lia.
Qed.

(** The view always comes to an answer. *)
Lemma VoucherCreateAPI_post_returns db now request :
  exists r, Views.VoucherCreateAPI_post db now request = Some r.
Proof.
  unfold Views.VoucherCreateAPI_post.
  destruct (Views.req_user request) as [u|]; [|eauto].
  destruct (negb (Views.in_group db u "Accountants")); [eauto|].
  pose proof (build_particulars_terminates (Views.req_POST request)
                (Views.req_FILES request)) as Hterm.
  destruct (Views.build_particulars _ _ _ _ _) as [[resp|ps]|]; [eauto| |contradiction].
  destruct ps as [|p0 ps]; [eauto|].
  destruct (Views.get "attachment" _) as [att|]; [|eauto].
  destruct (Serializers.is_valid _) as [e|[errs|validated]]; eauto.
  destruct (Serializers.create _ _ _ _) as [[e dbe]|[voucher db1]]; eauto.
Qed.

Lemma build_particulars_response fuel data files :
  forall i acc response,
    Views.build_particulars fuel data files i acc = Some (inl response) ->
    exists message, response = Views.bad_request "particulars" message.
Proof.
  induction fuel as [|fuel IH]; intros i acc response; simpl; [discriminate|].
  destruct (Views.contains _ data); [|discriminate].
  destruct (Py.truthy _ && Py.truthy _); [|apply IH].
  destruct (Decimal_of_string _) as [amount|].
  - destruct (Py.le_zero amount) as [[|]|]; try apply IH;
      intros H; inversion H; eauto.
  - intros H; inversion H; eauto.
Qed.

(** ** Creation writes *)

Lemma add_media_vouchers db path : vouchers (Models.add_media db path) = vouchers db.
Proof. now destruct path. Qed.

Lemma add_media_particulars db path :
  particulars (Models.add_media db path) = particulars db.
Proof. now destruct path. Qed.

Lemma create_particulars_spec voucher items :
  forall db,
    vouchers (Serializers.create_particulars db voucher items) = vouchers db
    /\ exists rows,
        particulars (Serializers.create_particulars db voucher items)
        = particulars db ++ rows
        /\ map Particular.description rows = map Serializers.pd_description items
        /\ map Particular.amount rows = map Serializers.pd_amount items
        /\ Forall (fun p => Particular.voucher p = voucher) rows.
Proof.
  induction items as [|p rest IH]; intros db; cbn [Serializers.create_particulars].
  - split; [reflexivity|]. exists []. rewrite app_nil_r. simpl. auto.
  - set (row := Particular.mk _ _ _ _ _).
    destruct (IH (Serializers.add_particular db row)) as (Hv & rows & Hp & Hd & Ha & Hall).
    split.
    + rewrite Hv. unfold Serializers.add_particular. simpl. apply add_media_vouchers.
    + exists (row :: rows). split.
      * rewrite Hp. unfold Serializers.add_particular. simpl.
        rewrite add_media_particulars, <- app_assoc. reflexivity.
      * simpl. rewrite Hd, Ha. repeat split; auto.
Qed.

(** What [Voucher.save] does to a new object. *)
Lemma save_spec db self self' db' :
  Models.save db self = inr (self', db') ->
  exists numbered,
    Models.assign_voucher_number db self = inr numbered
    /\ self' = Models.set_id
                 (Models.set_attachment numbered
                    (option_map (storage_save (media db) "vouchers/attachments/")
                                (Voucher.attachment numbered)))
                 (next_id (map Voucher.id (vouchers db)))
    /\ vouchers db' = vouchers db ++ [self']
    /\ particulars db' = particulars db
    /\ existsb (fun v => String.eqb (Voucher.voucher_number v)
                                    (Voucher.voucher_number numbered))
               (vouchers db) = false.
Proof.
  unfold Models.save.
  destruct (Models.assign_voucher_number db self) as [e|numbered]; [discriminate|].
  cbv zeta. cbn [Models.set_attachment Voucher.voucher_number].
  destruct (existsb _ _) eqn:E; [discriminate|].
  intros H. inversion H; subst. exists numbered.
  repeat split; auto. simpl. apply add_media_particulars.
Qed.

Lemma assign_voucher_number_fields db self self' :
  Models.assign_voucher_number db self = inr self' ->
  Voucher.payment_type self' = Voucher.payment_type self
  /\ Voucher.cheque_number self' = Voucher.cheque_number self
  /\ Voucher.status self' = Voucher.status self.
Proof.
  unfold Models.assign_voucher_number.
  destruct (negb (Py.truthy (Voucher.voucher_number self))).
  - destruct (Models.last_voucher (vouchers db)) as [last|].
    + destruct (Py.startswith "VCH" (Voucher.voucher_number last)).
      * destruct (Py.int _); intros H; inversion H; subst; simpl; auto.
      * intros H; inversion H; subst; simpl; auto.
    + intros H; inversion H; subst; simpl; auto.
  - intros H; inversion H; subst; auto.
Qed.

(** What [VoucherSerializer.create] leaves behind. *)
Lemma create_spec db now created_by validated voucher db' :
  Serializers.create db now created_by validated = inr (voucher, db') ->
  vouchers db' = vouchers db ++ [voucher]
  /\ Voucher.payment_type voucher = Serializers.vd_payment_type validated
  /\ Voucher.cheque_number voucher = Serializers.vd_cheque_number validated
  /\ Voucher.status voucher = "PENDING"
  /\ Voucher.id voucher = next_id (map Voucher.id (vouchers db))
  /\ exists rows,
      particulars db' = particulars db ++ rows
      /\ map Particular.description rows
         = map Serializers.pd_description (Serializers.vd_particulars validated)
      /\ map Particular.amount rows
         = map Serializers.pd_amount (Serializers.vd_particulars validated)
      /\ Forall (fun p => Particular.voucher p = Voucher.id voucher) rows.
Proof.
  unfold Serializers.create.
  destruct (Models.save db _) as [[e dbe]|[v db1]] eqn:E; [discriminate|].
  intros H. inversion H; subst. clear H.
  apply save_spec in E. destruct E as (numbered & Hn & -> & Hv & Hp & _).
  apply assign_voucher_number_fields in Hn. simpl in Hn. destruct Hn as (H1 & H2 & H3).
  cbn [Voucher.id Models.set_id] in *.
  destruct (create_particulars_spec
              (next_id (map Voucher.id (vouchers db)))
              (Serializers.vd_particulars validated) db1) as (Hv' & rows & Hrows).
  rewrite Hv', Hv. simpl. repeat split; auto.
  exists rows. now rewrite <- Hp.
Qed.

(** ** Field validation *)

Lemma truthy_false s : Py.truthy s = false -> s = EmptyString.
Proof. destruct s; [reflexivity | discriminate]. Qed.

Lemma ChoiceField_inr choices data v :
  Serializers.ChoiceField choices data = inr v -> data = Some v.
Proof.
  unfold Serializers.ChoiceField. destruct data as [s|]; [|discriminate].
  destruct (mem_string s choices); [|discriminate]. intros H. now inversion H.
Qed.

Lemma CharField_text_inr allow_blank n s v :
  Serializers.CharField_text allow_blank n s = inr v -> v = Py.strip s.
Proof.
  unfold Serializers.CharField_text.
  destruct (negb (Py.truthy (Py.strip s))) eqn:E.
  - destruct allow_blank; [|discriminate]. intros H. inversion H.
    apply negb_true_iff, truthy_false in E. now rewrite E.
  - destruct (_ ++ _); [|discriminate]. intros H. now inversion H.
Qed.

Lemma CharField_inr n data v :
  Serializers.CharField n data = inr v ->
  exists s, data = Some s /\ v = Py.strip s /\ Py.truthy v = true.
Proof.
  unfold Serializers.CharField. destruct data as [s|]; [|discriminate].
  intros H. exists s. split; [reflexivity|].
  pose proof (CharField_text_inr _ _ _ _ H) as ->. split; [reflexivity|].
  unfold Serializers.CharField_text in H.
  destruct (Py.truthy (Py.strip s)); [reflexivity | discriminate].
Qed.

Lemma CharField_nullable_inr n data c :
  Serializers.CharField_nullable n data = inr c -> c = option_map Py.strip data.
Proof.
  unfold Serializers.CharField_nullable. destruct data as [s|].
  - destruct (Serializers.CharField_text true n s) as [m|v] eqn:E; [discriminate|].
    intros H. inversion H. apply CharField_text_inr in E. now subst.
  - intros H. now inversion H.
Qed.

Lemma DecimalField_inr d v :
  Serializers.DecimalField d = inr v -> Py.le_zero v <> None.
Proof.
  unfold Serializers.DecimalField. destruct d as [neg c e| |]; try discriminate.
  destruct (if 0 <=? e then _ else _) as [[t w] dp].
  destruct (12 <? t); [discriminate|].
  destruct (2 <? dp); [discriminate|].
  destruct (10 <? w); [discriminate|].
  intros H. inversion H. discriminate.
Qed.

Lemma amount_field_no_raise d e : Serializers.amount_field d <> inl e.
Proof.
  unfold Serializers.amount_field.
  destruct (Serializers.DecimalField d) as [m|v] eqn:E; [discriminate|].
  apply DecimalField_inr in E. unfold Serializers.validate_amount.
  destruct (Py.le_zero v) as [[|]|]; try discriminate. contradiction.
Qed.

Lemma amount_field_inr d v :
  Serializers.amount_field d = inr (inr v) -> Py.le_zero v = Some false.
Proof.
  unfold Serializers.amount_field.
  destruct (Serializers.DecimalField d) as [m|w]; [discriminate|].
  unfold Serializers.validate_amount.
  destruct (Py.le_zero w) as [[|]|] eqn:E; try discriminate.
  intros H. inversion H. now subst.
Qed.

Lemma validate_particular_no_raise item e :
  Serializers.validate_particular item <> inl e.
Proof.
  unfold Serializers.validate_particular.
  destruct (Serializers.amount_field _) as [e'|a] eqn:E.
  - now apply amount_field_no_raise in E.
  - destruct (Serializers.CharField 300 _), a,
      (Serializers.particular_attachment_field _); discriminate.
Qed.

Lemma validate_particular_inr item v :
  Serializers.validate_particular item = inr (inr v) -> acceptable v.
Proof.
  unfold Serializers.validate_particular.
  destruct (Serializers.amount_field _) as [e'|a] eqn:E; [discriminate|].
  destruct (Serializers.CharField 300 _) as [|d] eqn:Ed; destruct a as [|amt];
    destruct (Serializers.particular_attachment_field _); try discriminate.
  intros H. inversion H. subst. split; simpl.
  - apply CharField_inr in Ed. destruct Ed as (s0 & _ & _ & Ht). exact Ht.
  - now apply amount_field_inr in E.
Qed.

Lemma validate_particulars_spec items :
  (forall e, Serializers.validate_particulars items <> inl e)
  /\ forall errs vals,
      Serializers.validate_particulars items = inr (errs, vals) ->
      Forall acceptable vals.
Proof.
  induction items as [|item rest [IHr IHv]]; simpl.
  - split; [discriminate|]. intros errs vals H. inversion H. constructor.
  - destruct (Serializers.validate_particular item) as [e|r] eqn:E.
    { now apply validate_particular_no_raise in E. }
    destruct (Serializers.validate_particulars rest) as [e|[errs vals]] eqn:Er.
    { exfalso. now apply (IHr e). }
    split; [destruct r; discriminate|].
    intros errs' vals' H. destruct r as [e1|v]; inversion H; subst.
    + now apply (IHv errs vals').
    + constructor; [now apply validate_particular_inr in E | now apply (IHv errs vals)].
Qed.

Lemma particulars_field_no_raise items e :
  Serializers.particulars_field items <> inl e.
Proof.
  unfold Serializers.particulars_field.
  destruct (Serializers.validate_particulars items) as [e'|[errs vals]] eqn:E.
  - now apply (proj1 (validate_particulars_spec items)) in E.
  - cbv beta iota. destruct (forallb _ _); discriminate.
Qed.

Lemma particulars_field_inr items vals :
  Serializers.particulars_field items = inr (inr vals) -> Forall acceptable vals.
Proof.
  unfold Serializers.particulars_field.
  destruct (Serializers.validate_particulars items) as [e'|[errs vals']] eqn:E;
    [discriminate|].
  cbv beta iota. destruct (forallb _ _); [|discriminate].
  intros H. inversion H; subst.
  eapply (proj2 (validate_particulars_spec items)); eauto.
Qed.

(** What [validate] checks about the cheque number, and what it stores. *)
Lemma validate_inr data data' :
  Serializers.validate data = inr (inr data') ->
  Serializers.vd_particulars data' = Serializers.vd_particulars data
  /\ Serializers.vd_payment_type data' = Serializers.vd_payment_type data
  /\ (Serializers.vd_payment_type data = "CHEQUE" ->
      exists raw, Serializers.vd_cheque_number data = Some raw
                  /\ Py.isdigit (Py.strip raw) = true
                  /\ Serializers.vd_cheque_number data' = Some (Py.strip raw))
  /\ (Serializers.vd_payment_type data <> "CHEQUE" ->
      Serializers.vd_cheque_number data' = None).
Proof.
  unfold Serializers.validate.
  destruct (Serializers.vd_particulars data) as [|p ps] eqn:Eps; [discriminate|].
  destruct (existsb _ _); [discriminate|].
  destruct (negb (Py.truthy (file_name _))); [discriminate|].
  destruct (String.eqb (Serializers.vd_payment_type data) "CHEQUE") eqn:Ept.
  - apply String.eqb_eq in Ept.
    destruct (Serializers.vd_cheque_number data) as [raw|]; [|discriminate].
    destruct (negb (Py.truthy (Py.strip raw))); [discriminate|].
    destruct (negb (Py.isdigit (Py.strip raw))) eqn:Ed; [discriminate|].
    apply negb_false_iff in Ed.
    intros H. inversion H. simpl. repeat split; auto.
    + intros _. eauto.
    + intros Hne. contradiction.
  - apply String.eqb_neq in Ept.
    intros H. inversion H. simpl. repeat split; auto.
    intros Heq. contradiction.
Qed.

(** [is_valid] succeeds only when every field does and [validate] accepts. *)
Lemma is_valid_inr data validated :
  Serializers.is_valid data = inr (inr validated) ->
  exists d pt nt payee cheque att ps,
    Serializers.ChoiceField ["CASH"; "CHEQUE"; "PETTY_CASH"]
      (Serializers.in_payment_type data) = inr pt
    /\ Serializers.CharField_nullable 20 (Serializers.in_cheque_number data) = inr cheque
    /\ Serializers.particulars_field (Serializers.in_particulars data) = inr (inr ps)
    /\ Serializers.validate (Serializers.mkValidatedData d pt nt payee cheque att ps)
       = inr (inr validated).
Proof.
  unfold Serializers.is_valid.
  destruct (Serializers.particulars_field _) as [e|items]; [discriminate|].
  destruct (Serializers.DateField _) as [|d];
    destruct (Serializers.ChoiceField ["CASH"; "CHEQUE"; "PETTY_CASH"] _) as [|pt];
    destruct (Serializers.ChoiceField ["MR"; "MRS"; "MS"] _) as [|nt];
    destruct (Serializers.CharField 200 _) as [|payee];
    destruct (Serializers.CharField_nullable 20 _) as [|cheque];
    destruct (Serializers.attachment_field _) as [|att];
    destruct items as [|ps]; try discriminate.
  intros H. exists d, pt, nt, payee, cheque, att, ps. auto.
Qed.

Lemma validate_no_raise d pt nt payee cheque att ps e :
  (pt = "CHEQUE" -> cheque <> None) ->
  Serializers.validate (Serializers.mkValidatedData d pt nt payee cheque att ps) <> inl e.
Proof.
  intros Hc. unfold Serializers.validate. simpl.
  destruct ps; [discriminate|].
  destruct (existsb _ _); [discriminate|].
  destruct (negb (Py.truthy (file_name att))); [discriminate|].
  destruct (String.eqb pt "CHEQUE") eqn:Ept; [|discriminate].
  apply String.eqb_eq in Ept. destruct cheque as [raw|]; [|now elim (Hc Ept)].
  destruct (negb (Py.truthy (Py.strip raw))); [discriminate|].
  destruct (negb (Py.isdigit (Py.strip raw))); discriminate.
Qed.

(** The serializer raises nothing on the data the view builds: a cheque
    payment always comes with a (possibly empty) cheque number string. *)
Lemma is_valid_no_raise data e :
  (Serializers.in_payment_type data = Some "CHEQUE" ->
   Serializers.in_cheque_number data <> None) ->
  Serializers.is_valid data <> inl e.
Proof.
  intros Hc. unfold Serializers.is_valid.
  destruct (Serializers.particulars_field _) as [e'|items] eqn:Ep.
  { now apply particulars_field_no_raise in Ep. }
  destruct (Serializers.DateField _) as [|d];
    destruct (Serializers.ChoiceField ["CASH"; "CHEQUE"; "PETTY_CASH"] _) as [|pt] eqn:Ept;
    destruct (Serializers.ChoiceField ["MR"; "MRS"; "MS"] _) as [|nt];
    destruct (Serializers.CharField 200 _) as [|payee];
    destruct (Serializers.CharField_nullable 20 _) as [|cheque] eqn:Ech;
    destruct (Serializers.attachment_field _) as [|att];
    destruct items as [|ps]; try discriminate.
  apply validate_no_raise. intros ->.
  apply ChoiceField_inr in Ept. apply CharField_nullable_inr in Ech.
  specialize (Hc Ept). subst cheque.
  destruct (Serializers.in_cheque_number data); [discriminate | contradiction].
Qed.

Lemma submitted_cheque_number_cheque data :
  Views.get "payment_type" data = Some "CHEQUE" ->
  Views.submitted_cheque_number data
  = Some (Py.strip (Views.get_or "cheque_number" data EmptyString)).
Proof. unfold Views.submitted_cheque_number. now intros ->. Qed.

Lemma submitted_cheque_number_other data :
  Views.get "payment_type" data <> Some "CHEQUE" ->
  Views.submitted_cheque_number data = None.
Proof.
  unfold Views.submitted_cheque_number. intros H.
  destruct (Views.get "payment_type" data) as [pt|]; [|reflexivity].
  destruct (String.eqb pt "CHEQUE") eqn:E; [|reflexivity].
  apply String.eqb_eq in E. subst. contradiction.
Qed.

Lemma serializer_data_no_raise data att ps e :
  Serializers.is_valid
    (Views.serializer_data data (Views.submitted_cheque_number data) att ps) <> inl e.
Proof.
  apply is_valid_no_raise. simpl. intros H.
  rewrite (submitted_cheque_number_cheque _ H). discriminate.
Qed.

(** ** The shape of a submission *)

(** A 201 answer means: the mixin let the user through, the loop gathered at
    least one particular, the main attachment was there, the serializer
    accepted the data and [create] ran to its end. *)
Lemma post_created db now request body db' :
  Views.VoucherCreateAPI_post db now request = Some (JsonResponse body 201, db') ->
  exists u ps att validated voucher,
    Views.req_user request = Some u
    /\ Views.in_group db u "Accountants" = true
    /\ Views.build_particulars (S (List.length (Views.req_POST request)))
         (Views.req_POST request) (Views.req_FILES request) 0 [] = Some (inr ps)
    /\ ps <> []
    /\ Views.get "attachment" (Views.req_FILES request) = Some att
    /\ Serializers.is_valid
         (Views.serializer_data (Views.req_POST request)
            (Views.submitted_cheque_number (Views.req_POST request)) att ps)
       = inr (inr validated)
    /\ Serializers.create db now (User.id u) validated = inr (voucher, db').
Proof.
  unfold Views.VoucherCreateAPI_post.
  destruct (Views.req_user request) as [u|]; [|discriminate].
  destruct (Views.in_group db u "Accountants") eqn:Hg; cbn [negb]; [|discriminate].
  destruct (Views.build_particulars _ _ _ _ _) as [[resp|ps]|] eqn:Hloop; [| |discriminate].
  { apply build_particulars_response in Hloop. destruct Hloop as (m & ->).
    unfold Views.bad_request. discriminate. }
  destruct ps as [|p0 ps]; [discriminate|].
  destruct (Views.get "attachment" _) as [att|] eqn:Hatt; [|discriminate].
  destruct (Serializers.is_valid _) as [e|[errs|validated]] eqn:Hvalid; try discriminate.
  destruct (Serializers.create _ _ _ _) as [[e dbe]|[voucher db1]] eqn:Hcreate;
    [discriminate|].
  intros H. inversion H; subst.
  exists u, (p0 :: ps), att, validated, voucher.
  repeat split; auto. discriminate.
Qed.

(** C8.  A submission answered with a validation error (400) writes
    nothing: the database, with its voucher, particular and stored-file
    records, is the one the request found. *)
Theorem C8_validation_failure_writes_nothing :
  forall (db : Db) (now : Z) (request : Views.CreateRequest) (body : Json) (db' : Db),
    Views.VoucherCreateAPI_post db now request = Some (JsonResponse body 400, db') ->
    db' = db.
Proof.
  intros db now request body db'.
  unfold Views.VoucherCreateAPI_post.
  destruct (Views.req_user request) as [u|]; [|discriminate].
  destruct (negb (Views.in_group db u "Accountants")); [discriminate|].
  destruct (Views.build_particulars _ _ _ _ _) as [[resp|ps]|]; [| |discriminate].
  { intros H. now inversion H. }
  destruct ps as [|p0 ps]; [intros H; now inversion H|].
  destruct (Views.get "attachment" _) as [att|]; [|intros H; now inversion H].
  destruct (Serializers.is_valid _) as [e|[errs|validated]];
    try (intros H; now inversion H).
  destruct (Serializers.create _ _ _ _) as [[e dbe]|[voucher db1]]; discriminate.
Qed.

(** C4 (amended).  When the payment type is CHEQUE a submission is created
    only if a cheque number was supplied that, trimmed, is non-empty and
    made of characters [str.isdigit] accepts (the digits 0 to 9 and the
    other digit characters, such as the superscript two), and that trimmed
    number is what gets stored; an accountant's cheque submission without
    such a number is answered with a validation error and writes nothing.
    For any other payment type the stored cheque number is null whatever
    was submitted. *)
Theorem C4_cheque_number_rule :
  forall (db : Db) (now : Z) (request : Views.CreateRequest)
         (response : Response) (db' : Db),
    Views.VoucherCreateAPI_post db now request = Some (response, db') ->
    let data := Views.req_POST request in
    let supplied := Py.strip (Views.get_or "cheque_number" data EmptyString) in
    (forall body, response = JsonResponse body 201 ->
       exists voucher,
         vouchers db' = vouchers db ++ [voucher]
         /\ (Views.get "payment_type" data = Some "CHEQUE" ->
             Py.isdigit supplied = true
             /\ Views.get "cheque_number" data <> None
             /\ Voucher.cheque_number voucher = Some supplied)
         /\ (Views.get "payment_type" data <> Some "CHEQUE" ->
             Voucher.cheque_number voucher = None))
    /\ (forall u,
          Views.req_user request = Some u ->
          Views.in_group db u "Accountants" = true ->
          Views.get "payment_type" data = Some "CHEQUE" ->
          Py.isdigit supplied = false ->
          exists body, response = JsonResponse body 400 /\ db' = db).
Proof.
  intros db now request response db' Hpost data supplied.
  assert (Hok : forall att ps validated,
             Serializers.is_valid
               (Views.serializer_data data (Views.submitted_cheque_number data) att ps)
             = inr (inr validated) ->
             (Views.get "payment_type" data = Some "CHEQUE" ->
              Py.isdigit supplied = true
              /\ Serializers.vd_cheque_number validated = Some supplied)
             /\ (Views.get "payment_type" data <> Some "CHEQUE" ->
                 Serializers.vd_cheque_number validated = None)).
  { intros att ps validated Hvalid.
    apply is_valid_inr in Hvalid.
    destruct Hvalid as (d & pt & nt & payee & cheque & att' & ps' & Hpt & Hch & _ & Hval).
    simpl in Hpt, Hch.
    apply ChoiceField_inr in Hpt. apply CharField_nullable_inr in Hch.
    apply validate_inr in Hval. simpl in Hval.
    destruct Hval as (_ & _ & Hcheque & Hother).
    split.
    - intros Hc. rewrite Hpt in Hc. inversion Hc; subst pt.
      rewrite (submitted_cheque_number_cheque _ Hpt) in Hch. simpl in Hch.
      destruct (Hcheque eq_refl) as (raw & Eraw & Hdig & Hst).
      rewrite Hch in Eraw. inversion Eraw; subst raw.
      rewrite !strip_idem in Hdig, Hst. auto.
    - intros Hc. apply Hother. intros ->. now rewrite Hpt in Hc. }
  split.
  - intros body ->. apply post_created in Hpost.
    destruct Hpost as (u & ps & att & validated & voucher & _ & _ & _ & _ & _ & Hv & Hc).
    apply create_spec in Hc. destruct Hc as (Hvs & _ & Hcheque & _).
    exists voucher. split; [assumption|]. rewrite Hcheque.
    destruct (Hok _ _ _ Hv) as [Hcq Hoth]. split; [|assumption].
    intros Hpt. destruct (Hcq Hpt) as [Hdig Hst]. repeat split; auto.
    intros Hnone. subst supplied. unfold Views.get_or in Hdig.
    fold data in Hnone. rewrite Hnone in Hdig. discriminate.
  - intros u Hu Hg Hpt Hbad. revert Hpost.
    unfold Views.VoucherCreateAPI_post. rewrite Hu, Hg. cbn [negb].
    fold data.
    destruct (Views.build_particulars _ _ _ _ _) as [[resp|ps]|] eqn:Hloop;
      [| |discriminate].
    { apply build_particulars_response in Hloop. destruct Hloop as (m & ->).
      intros H. inversion H. unfold Views.bad_request. eauto. }
    destruct ps as [|p0 ps];
      [intros H; inversion H; unfold Views.bad_request; eauto|].
    destruct (Views.get "attachment" _) as [att|];
      [|intros H; inversion H; unfold Views.bad_request; eauto].
    destruct (Serializers.is_valid _) as [e|[errs|validated]] eqn:Hvalid.
    + now apply serializer_data_no_raise in Hvalid.
    + intros H. inversion H. eauto.
    + destruct (Hok _ _ _ Hvalid) as [Hcq _].
      destruct (Hcq Hpt) as [Hdig _]. congruence.
Qed.

(** ** Particulars *)

(** The rows of a form are at most as many as its pairs. *)
Lemma rows_bound data i :
  (forall j, (j <= i)%nat -> row_present data j = true) -> (i < List.length data)%nat.
Proof.
  intros Hall.
  set (keys := map (fun j => Views.particular_key j "description") (seq 0 (S i))).
  assert (Hnd : NoDup keys).
  { apply Injective_map_NoDup; [|apply seq_NoDup].
    intros a b. apply particular_key_inj. }
  assert (Hincl : incl keys (map fst data)).
  { intros k Hk. apply in_map_iff in Hk. destruct Hk as (j & <- & Hj).
    apply in_seq in Hj. apply contains_In. apply Hall. lia. }
  pose proof (NoDup_incl_length Hnd Hincl) as Hlen.
  subst keys. rewrite !length_map, length_seq in Hlen. lia.
Qed.



End Submission.

Section VoucherNumbers.

Context {R : Runtime}.

Lemma startswith_append p s : Py.startswith p (p ++ s)%string = true.
Proof.
  unfold Py.startswith. induction p as [|a p IH]; simpl.
  - now destruct s.
  - destruct (ascii_dec a a); [exact IH | congruence].
Qed.

Lemma startswith_sequence k : Py.startswith "VCH" (sequence_number k) = true.
Proof. apply startswith_append. Qed.

Lemma suffix_sequence v k :
  Voucher.voucher_number v = sequence_number k -> suffix v = Some (Z.of_nat k).
Proof.
  unfold suffix. intros ->. rewrite startswith_sequence.
  unfold sequence_number. cbn [append Py.drop].
  apply int_format_04d. lia.
Qed.

Lemma suffix_le_highest vs w n :
  In w vs -> suffix w = Some n -> n <= highest_suffix vs.
Proof.
  induction vs as [|v vs IH]; cbn [highest_suffix fold_right In]; [tauto|].
  fold (highest_suffix vs).
  intros [->|Hin] Hs.
  - rewrite Hs. lia.
  - specialize (IH Hin Hs). destruct (suffix v); lia.
Qed.

Lemma highest_suffix_nonneg_sequence vs : forall a,
  map Voucher.voucher_number vs = map sequence_number (seq a (List.length vs)) ->
  highest_suffix vs
  = match vs with [] => 0 | _ => Z.of_nat (a + List.length vs - 1) end.
Proof.
  induction vs as [|v vs IH]; intros a H; [reflexivity|].
  cbn [highest_suffix fold_right]. fold (highest_suffix vs).
  simpl in H. injection H as Hv Hrest.
  rewrite (suffix_sequence _ _ Hv), (IH (S a) Hrest).
  destruct vs; simpl List.length; lia.
Qed.

Lemma highest_suffix_sequence vs :
  numbered_in_sequence vs -> highest_suffix vs = Z.of_nat (List.length vs).
Proof.
  intros [H _]. rewrite (highest_suffix_nonneg_sequence vs 1 H).
  destruct vs; simpl List.length; lia.
Qed.

Lemma last_voucher_snoc vs v :
  Models.last_voucher (vs ++ [v])
  = match Models.last_voucher vs with
    | Some b => if Voucher.id b <? Voucher.id v then Some v else Some b
    | None => Some v
    end.
Proof.
  unfold Models.last_voucher. rewrite fold_left_app. simpl.
  destruct (fold_left _ vs None) as [b|]; [destruct (_ <? _)|]; reflexivity.
Qed.

Lemma last_voucher_In vs b : Models.last_voucher vs = Some b -> In b vs.
Proof.
  revert b. induction vs as [|v vs IH] using rev_ind; intros b; [discriminate|].
  rewrite last_voucher_snoc, in_app_iff.
  destruct (Models.last_voucher vs) as [b0|].
  - destruct (Voucher.id b0 <? Voucher.id v); intros H; inversion H; subst.
    + right. now left.
    + left. now apply IH.
  - intros H; inversion H; subst. right. now left.
Qed.

Lemma sorted_snoc l x :
  StronglySorted Z.lt (l ++ [x]) <-> StronglySorted Z.lt l /\ Forall (fun y => y < x) l.
Proof.
  induction l as [|a l IH]; simpl.
  - split; [intros _; split; constructor | intros _; repeat constructor].
  - split.
    + intros H. inversion H as [|? ? Hs Hf]; subst.
      apply IH in Hs. destruct Hs as [Hs Hlt].
      apply Forall_app in Hf. destruct Hf as [Hf Hx].
      split; constructor; auto. now inversion Hx.
    + intros [H Hlt]. inversion H as [|? ? Hs Hf]; subst.
      inversion Hlt as [|? ? Hax Hlx]; subst.
      constructor; [apply IH; auto|].
      apply Forall_app. split; [assumption | repeat constructor; assumption].
Qed.

(** With increasing keys, the voucher with the greatest key is the one
    created last. *)
Lemma last_voucher_sorted vs v :
  StronglySorted Z.lt (map Voucher.id (vs ++ [v])) ->
  Models.last_voucher (vs ++ [v]) = Some v.
Proof.
  rewrite map_app. simpl. intros H. apply sorted_snoc in H. destruct H as [_ Hlt].
  rewrite last_voucher_snoc.
  destruct (Models.last_voucher vs) as [b|] eqn:E; [|reflexivity].
  apply last_voucher_In in E.
  rewrite Forall_forall in Hlt.
  assert (Hb : Voucher.id b < Voucher.id v) by (apply Hlt; now apply in_map).
  apply Z.ltb_lt in Hb. now rewrite Hb.
Qed.

(** The number [Voucher.save] gives to the next voucher of a sequence. *)
Lemma assign_voucher_number_sequenced db self :
  numbered_in_sequence (vouchers db) ->
  Voucher.voucher_number self = EmptyString ->
  exists self',
    Models.assign_voucher_number db self = inr self'
    /\ Voucher.voucher_number self' = sequence_number (S (List.length (vouchers db)))
    /\ Voucher.id self' = Voucher.id self.
Proof.
  intros [Hnum Hsort] Hblank. unfold Models.assign_voucher_number.
  rewrite Hblank. cbn [Py.truthy negb].
  destruct (vouchers db) as [|v1 vs1] eqn:Evs.
  - cbn. eexists. split; [reflexivity|]. split; reflexivity.
  - destruct (@exists_last _ (v1 :: vs1)) as (l & v0 & E); [discriminate|].
    rewrite E in *. clear E v1 vs1.
    rewrite (last_voucher_sorted _ _ Hsort).
    rewrite length_app in *. cbn [List.length] in *.
    rewrite Nat.add_1_r in *. rewrite seq_S, !map_app in Hnum.
    apply app_inj_tail in Hnum. destruct Hnum as [_ Hlast].
    cbn [Nat.add] in Hlast.
    pose proof (suffix_sequence _ _ Hlast) as Hs. unfold suffix in Hs.
    rewrite Hlast in *. cbn [sequence_number] in Hs.
    rewrite startswith_sequence.
    unfold sequence_number at 1. cbn [append Py.drop].
    rewrite int_format_04d by lia.
    eexists. split; [reflexivity|]. split; [|reflexivity].
    cbn [Voucher.voucher_number].
    replace (Z.of_nat (S (List.length l)) + 1) with (Z.of_nat (S (S (List.length l))))
      by lia.
    reflexivity.
Qed.

Lemma numbered_in_sequence_ext vs vs' :
  map Voucher.id vs' = map Voucher.id vs ->
  map Voucher.voucher_number vs' = map Voucher.voucher_number vs ->
  numbered_in_sequence vs -> numbered_in_sequence vs'.
Proof.
  intros Hid Hnum [H1 H2]. unfold numbered_in_sequence.
  assert (Hlen : List.length vs' = List.length vs).
  { rewrite <- (length_map Voucher.id vs'), Hid. apply length_map. }
  now rewrite Hid, Hnum, Hlen.
Qed.

(** A creation in a sequence appends the next number and keeps the
    sequence. *)
Lemma create_sequenced db now created_by validated voucher db' :
  numbered_in_sequence (vouchers db) ->
  Serializers.create db now created_by validated = inr (voucher, db') ->
  vouchers db' = vouchers db ++ [voucher]
  /\ Voucher.voucher_number voucher = sequence_number (S (List.length (vouchers db)))
  /\ numbered_in_sequence (vouchers db').
Proof.
  intros Hseq Hc. pose proof (create_spec _ _ _ _ _ _ Hc) as (Hvs & _ & _ & _ & Hid & _).
  unfold Serializers.create in Hc.
  destruct (Models.save db _) as [[e dbe]|[v db1]] eqn:E; [discriminate|].
  injection Hc as Ev _. subst v.
  apply save_spec in E. destruct E as (numbered & Hn & Hv & _).
  destruct (assign_voucher_number_sequenced db
              (Voucher.mk 0 EmptyString (Serializers.vd_voucher_date validated)
                 (Serializers.vd_payment_type validated)
                 (Serializers.vd_name_title validated) (Serializers.vd_pay_to validated)
                 (Some (file_name (Serializers.vd_attachment validated)))
                 (Serializers.vd_cheque_number validated) created_by now "PENDING")
              Hseq eq_refl) as (self' & Hn' & Hnum & _).
  rewrite Hn' in Hn. inversion Hn; subst numbered.
  assert (Hnumber : Voucher.voucher_number voucher
                    = sequence_number (S (List.length (vouchers db))))
    by (rewrite Hv; exact Hnum).
  split; [assumption|]. split; [assumption|].
  destruct Hseq as [H1 H2]. rewrite Hvs. split.
  - rewrite length_app. cbn [List.length]. rewrite Nat.add_1_r, seq_S, !map_app.
    cbn [map Nat.add]. now rewrite H1, Hnumber.
  - rewrite map_app. cbn [map]. apply sorted_snoc. split; [assumption|].
    rewrite Hid. apply Forall_forall. intros x Hx. now apply next_id_fresh.
Qed.

Lemma create_failure_vouchers db now created_by validated e db1 :
  Serializers.create db now created_by validated = inl (e, db1) ->
  vouchers db1 = vouchers db.
Proof.
  unfold Serializers.create, Models.save.
  destruct (Models.assign_voucher_number db _) as [e'|numbered].
  - intros H. now inversion H.
  - destruct (existsb _ _).
    + intros H. inversion H. apply add_media_vouchers.
    + discriminate.
Qed.

(** A submission leaves the vouchers alone or runs [create] to its end. *)
Lemma post_vouchers db now request response db' :
  Views.VoucherCreateAPI_post db now request = Some (response, db') ->
  vouchers db' = vouchers db
  \/ exists created_by validated voucher,
      Serializers.create db now created_by validated = inr (voucher, db').
Proof.
  unfold Views.VoucherCreateAPI_post.
  destruct (Views.req_user request) as [u|]; [|intros H; inversion H; auto].
  destruct (negb (Views.in_group db u "Accountants")); [intros H; inversion H; auto|].
  destruct (Views.build_particulars _ _ _ _ _) as [[resp|ps]|]; [| |discriminate].
  { intros H; inversion H; auto. }
  destruct ps as [|p0 ps]; [intros H; inversion H; auto|].
  destruct (Views.get "attachment" _) as [att|]; [|intros H; inversion H; auto].
  destruct (Serializers.is_valid _) as [e|[errs|validated]];
    try (intros H; inversion H; auto; fail).
  destruct (Serializers.create _ _ _ _) as [[e dbe]|[voucher db1]] eqn:Hc;
    intros H; inversion H; subst.
  - left. eapply create_failure_vouchers; eauto.
  - right. eauto.
Qed.

(** A decision changes at most the status column of the vouchers. *)
Lemma approval_post_vouchers db now user status_field pk response db' :
  Views.VoucherApprovalAPI_post db now user status_field pk = (response, db') ->
  map Voucher.id (vouchers db') = map Voucher.id (vouchers db)
  /\ map Voucher.voucher_number (vouchers db')
     = map Voucher.voucher_number (vouchers db).
Proof.
  unfold Views.VoucherApprovalAPI_post, Views.AdminStaffRequiredMixin.
  destruct user as [u|]; [|intros H; inversion H; auto].
  destruct (negb _); [intros H; inversion H; auto|].
  destruct (Views.get_voucher db pk) as [voucher|]; [|intros H; inversion H; auto].
  destruct (Views.decision_of status_field) as [choice|]; [|intros H; inversion H; auto].
  destruct (negb (mem_string _ _)); [intros H; inversion H; auto|].
  destruct (Views.approval_update_or_create _ _ _ _ _) as [e|[[a created] db1]] eqn:Hup;
    [intros H; inversion H; auto|].
  apply approval_update_or_create_spec in Hup. destruct Hup as ((l & ->) & _).
  unfold Models._update_status_if_all_approved.
  destruct (Models.required_approvers _ _).
  - intros H. inversion H. auto.
  - destruct (Models.save_status _ _) as [e|[voucher' db2]] eqn:Hs;
      [intros H; inversion H; auto|].
    apply save_status_spec in Hs. destruct Hs as (_ & _ & ->).
    intros H. inversion H. simpl. rewrite !map_map. split; apply map_ext; intros v;
      destruct (Voucher.id v =? _); reflexivity.
Qed.

Lemma active_update_or_create_vouchers db now d f actor db1 :
  Views.active_update_or_create db now d f actor = inr db1 ->
  vouchers db1 = vouchers db.
Proof.
  unfold Views.active_update_or_create.
  destruct (filter _ _) as [|a [|a' l]]; intros H; inversion H; reflexivity.
Qed.

Lemma control_loop_vouchers now actor active_ids all :
  forall db,
    match Views.control_loop db now actor active_ids all with
    | inl (_, db1) | inr db1 => vouchers db1 = vouchers db
    end.
Proof.
  induction all as [|d rest IH]; intros db; simpl; [reflexivity|].
  destruct (Views.active_update_or_create _ _ _ _ _) as [e|db1] eqn:E; [reflexivity|].
  apply active_update_or_create_vouchers in E.
  specialize (IH db1). destruct (Views.control_loop db1 _ _ _ _) as [[e dbe]|db2];
    congruence.
Qed.

Lemma control_post_vouchers db now user fld response db' :
  Views.ApprovalControlAPI_post db now user fld = (response, db') ->
  vouchers db' = vouchers db.
Proof.
  unfold Views.ApprovalControlAPI_post.
  destruct user as [u|]; [|intros H; now inversion H].
  destruct (negb _); [intros H; now inversion H|].
  destruct (Views.active_ids_of fld) as [ids|]; [|intros H; now inversion H].
  pose proof (control_loop_vouchers now (User.id u) ids (designations db) db) as Hl.
  destruct (Views.control_loop _ _ _ _ _) as [[e dbe]|db1];
    intros H; inversion H; subst; assumption.
Qed.

Lemma designation_post_vouchers db now user fld response db' :
  Views.DesignationCreateAPI_post db now user fld = (response, db') ->
  vouchers db' = vouchers db.
Proof.
  unfold Views.DesignationCreateAPI_post.
  destruct user as [u|]; [|intros H; now inversion H].
  destruct (negb _); [intros H; now inversion H|].
  destruct (match fld with Missing => _ | _ => _ end) as [name|];
    [|intros H; now inversion H].
  destruct (negb (Py.truthy name)); [intros H; now inversion H|].
  destruct (existsb _ _); intros H; now inversion H.
Qed.

(** Every database the views lead to has its vouchers numbered in
    sequence. *)
Lemma reachable_numbered db : reachable db -> numbered_in_sequence (vouchers db).
Proof.
  induction 1 as [db Hnil
                 | db now request response db' _ IH Hpost
                 | db now user fld pk response db' _ IH Hpost
                 | db now user fld response db' _ IH Hpost
                 | db now user fld response db' _ IH Hpost].
  - rewrite Hnil. split; [reflexivity | constructor].
  - apply post_vouchers in Hpost.
    destruct Hpost as [->|(u & validated & voucher & Hc)]; [assumption|].
    now apply (create_sequenced _ _ _ _ _ _ IH) in Hc.
  - apply approval_post_vouchers in Hpost. destruct Hpost as [Hid Hnum].
    now apply (numbered_in_sequence_ext (vouchers db)).
  - apply control_post_vouchers in Hpost. now rewrite Hpost.
  - apply designation_post_vouchers in Hpost. now rewrite Hpost.
Qed.

(** C7.  In every database the views lead to, a created voucher gets the
    number 'VCH' followed by the highest numeric suffix among the existing
    vouchers plus 1, zero-filled to four digits; it is 'VCH0001' when no
    voucher exists; and its suffix is greater than the suffix of every
    existing voucher. *)
Theorem C7_next_voucher_number :
  forall (db : Db) (now : Z) (request : Views.CreateRequest) (body : Json) (db' : Db),
    reachable db ->
    Views.VoucherCreateAPI_post db now request = Some (JsonResponse body 201, db') ->
    exists voucher,
      vouchers db' = vouchers db ++ [voucher]
      /\ Voucher.voucher_number voucher
         = ("VCH" ++ Py.zfill 4 (Py.str (highest_suffix (vouchers db) + 1)))%string
      /\ (vouchers db = [] -> Voucher.voucher_number voucher = "VCH0001")
      /\ suffix voucher = Some (highest_suffix (vouchers db) + 1)
      /\ forall w, In w (vouchers db) ->
                   exists n, suffix w = Some n /\ n < highest_suffix (vouchers db) + 1.
Proof.
  intros db now request body db' Hreach Hpost.
  apply reachable_numbered in Hreach.
  apply post_created in Hpost.
  destruct Hpost as (u & ps & att & validated & voucher & _ & _ & _ & _ & _ & _ & Hc).
  apply (create_sequenced _ _ _ _ _ _ Hreach) in Hc.
  destruct Hc as (Hvs & Hnum & _).
  pose proof (highest_suffix_sequence _ Hreach) as Hhigh.
  assert (Hnext : Z.of_nat (S (List.length (vouchers db)))
                  = highest_suffix (vouchers db) + 1) by lia.
  exists voucher. split; [assumption|]. split.
  { rewrite Hnum. unfold sequence_number. rewrite Hnext.
    rewrite format_04d_nonneg by lia. reflexivity. }
  split.
  { intros Hnil. rewrite Hnum, Hnil. reflexivity. }
  split.
  { rewrite <- Hnext. now apply suffix_sequence. }
  intros w Hw. destruct Hreach as [Hnums _].
  apply In_nth_error in Hw. destruct Hw as (k & Hk).
  assert (Hkn : nth_error (map Voucher.voucher_number (vouchers db)) k
                = Some (Voucher.voucher_number w)) by (now apply map_nth_error).
  rewrite Hnums in Hkn.
  assert (Hlt : (k < List.length (vouchers db))%nat).
  { apply nth_error_Some. congruence. }
  rewrite nth_error_map, nth_error_seq in Hkn.
  apply Nat.ltb_lt in Hlt. rewrite Hlt in Hkn. simpl in Hkn. inversion Hkn as [Hw].
  exists (Z.of_nat (S k)). split; [apply suffix_sequence; congruence|].
  apply Nat.ltb_lt in Hlt. lia.
Qed.

End VoucherNumbers.

(** C4 (counterexample).  A cheque submission whose cheque number is 12
    followed by the superscript two is created, and that text is stored:
    [str.isdigit] accepts the superscript, which is not one of the digits
    0 to 9. *)
Lemma C4_superscript_digit_is_accepted :
  ~ @cheque_number_only_digits AsciiRuntime.runtime Sample.db 50
      (Sample.submission_with "CHEQUE" Sample.twelve_squared "7").
Proof.
  intros H.
  edestruct H as [_ E].
  - vm_compute. reflexivity.
  - reflexivity.
  - vm_compute in E. discriminate E.
Qed.


(* ================================================================== *)
(** * Further facts about the views *)
(* ================================================================== *)

Section DesignationCreation.

Lemma existsb_name db name :
  existsb (fun d => String.eqb (Designation.name d) name) (designations db) = true
  <-> In name (map Designation.name (designations db)).
Proof.
  rewrite existsb_exists, in_map_iff. split.
  - intros (d & Hd & E). apply String.eqb_eq in E. eauto.
  - intros (d & E & Hd). exists d. split; [assumption|]. now apply String.eqb_eq.
Qed.

(** X1.  [DesignationCreateAPI.post] creates a designation exactly for a
    superuser who sends a name that, trimmed, is non-empty and not yet the
    name of a designation: the table then gains one row with the trimmed
    name, a fresh key, the creator and the time, and nothing else changes.
    Every other answer leaves the database as it was, and unique names stay
    unique. *)
Theorem X1_designation_create_effect :
  forall (db : Db) (now : Z) (user : option User.t) (name_field : Field)
         (response : Response) (db' : Db),
    Views.DesignationCreateAPI_post db now user name_field = (response, db') ->
    (designation_names_unique db -> designation_names_unique db')
    /\ ((forall body, response <> JsonResponse body 201) -> db' = db)
    /\ (forall body, response = JsonResponse body 201 ->
          exists u raw d,
            user = Some u /\ User.is_superuser u = true
            /\ name_field = Value (SStr raw)
            /\ designations db' = designations db ++ [d]
            /\ same_but_designations db db'
            /\ Designation.name d = Py.strip raw
            /\ Py.truthy (Designation.name d) = true
            /\ ~ In (Designation.name d) (map Designation.name (designations db))
            /\ (forall x, In x (designations db) -> Designation.id x < Designation.id d)
            /\ Designation.created_by d = Some (User.id u)
            /\ Designation.created_at d = now)
    /\ (forall u raw,
          user = Some u -> User.is_superuser u = true ->
          name_field = Value (SStr raw) ->
          Py.truthy (Py.strip raw) = true ->
          ~ In (Py.strip raw) (map Designation.name (designations db)) ->
          exists body, response = JsonResponse body 201).
Proof.
  intros db now user fld response db'. unfold Views.DesignationCreateAPI_post.
  assert (Hsame : forall r : Response, (r, db) = (response, db') ->
            (designation_names_unique db -> designation_names_unique db')
            /\ ((forall body, response <> JsonResponse body 201) -> db' = db)).
  { intros r H. inversion H; subst. auto. }
  destruct user as [u|].
  { destruct (User.is_superuser u) eqn:Hsuper; cbn [negb].
    - destruct fld as [|[| |z|raw]|l|]; cbn beta iota;
        try (intros H; split; [apply (Hsame _ H)|]; split; [apply (Hsame _ H)|];
             split; [intros body ->; inversion H | intros u0 raw0 _ _ E; inversion E]).
      destruct (Py.truthy (Py.strip raw)) eqn:Ht; cbn [negb].
      + destruct (existsb _ _) eqn:Hex.
        * intros H. split; [apply (Hsame _ H)|]. split; [apply (Hsame _ H)|].
          split; [intros body ->; inversion H|].
          intros u0 raw0 _ _ E _ Hnot. inversion E; subst raw0.
          apply existsb_name in Hex. contradiction.
        * assert (Hnot : ~ In (Py.strip raw) (map Designation.name (designations db))).
          { intros Hin. apply existsb_name in Hin. congruence. }
          intros H. inversion H; subst. clear H. split.
          { unfold designation_names_unique. simpl. intros Hnd.
            rewrite map_app. simpl. apply NoDup_app; [assumption| |].
            - repeat constructor. intros [].
            - intros x Hx [<-|[]]. contradiction. }
          split; [intros Hno; now elim (Hno _ eq_refl)|].
          split; [|eauto].
          intros body _. exists u, raw. eexists.
          split; [reflexivity|]. split; [assumption|]. split; [reflexivity|].
          split; [reflexivity|]. split; [reflexivity|]. simpl.
          repeat split; auto.
          intros x Hx. apply next_id_fresh. now apply in_map.
      + intros H. split; [apply (Hsame _ H)|]. split; [apply (Hsame _ H)|].
        split; [intros body ->; inversion H|].
        intros u0 raw0 _ _ E Ht'. inversion E; subst raw0. congruence.
    - intros H. split; [apply (Hsame _ H)|]. split; [apply (Hsame _ H)|].
      split; [intros body ->; inversion H|].
      intros u0 raw0 E Hs. inversion E; subst. congruence. }
  intros H. split; [apply (Hsame _ H)|]. split; [apply (Hsame _ H)|].
  split; [intros body ->; inversion H | intros u0 raw0 E; inversion E].
Qed.

End DesignationCreation.

Section RegistryRoundTrip.

Lemma active_update_or_create_stamps db now d f actor db1 :
  Views.active_update_or_create db now d f actor = inr db1 ->
  stamped db1 d f actor now.
Proof.
  unfold Views.active_update_or_create, stamped. fold (rows_of db d).
  destruct (rows_of db d) as [|a [|a' l]] eqn:E; [| |discriminate];
    intros H; inversion H; subst db1; clear H; unfold rows_of; simpl.
  - rewrite filter_app. fold (rows_of db d). rewrite E. simpl.
    rewrite Z.eqb_refl. eexists. split; [reflexivity|]. simpl. auto.
  - rewrite filter_map_preserve.
    + fold (rows_of db d). rewrite E. simpl. rewrite Z.eqb_refl.
      eexists. split; [reflexivity|]. simpl. auto.
    + intros r.
      destruct (ActiveApprovalDesignation.id r =? ActiveApprovalDesignation.id a);
        reflexivity.
Qed.

Lemma stamped_other db db' x f actor now :
  rows_of db' x = rows_of db x -> stamped db x f actor now -> stamped db' x f actor now.
Proof. unfold stamped. now intros ->. Qed.

(** A completed pass stamps the row of every designation it visited. *)
Lemma control_loop_stamps now actor active_ids all :
  forall db db',
    activation_pk db ->
    Views.control_loop db now actor active_ids all = inr db' ->
    forall d, In d all ->
              stamped db' (Designation.id d)
                      (Views.id_in_active_ids (Designation.id d) active_ids) actor now.
Proof.
  induction all as [|d rest IH]; intros db db' Hpk; simpl; [intros _ d []|].
  destruct (Views.active_update_or_create _ _ _ _ _) as [e|db1] eqn:E; [discriminate|].
  pose proof (active_update_or_create_stamps _ _ _ _ _ _ E) as Hst.
  apply active_update_or_create_spec in E; [|assumption].
  destruct E as (Hpk1 & _). intros Hloop d0 [<-|Hin]; [|eapply IH; eauto].
  destruct (in_dec Z.eq_dec (Designation.id d) (map Designation.id rest)) as [Hd|Hd].
  - apply in_map_iff in Hd. destruct Hd as (d1 & E1 & Hd1).
    rewrite <- E1. eapply IH; eauto.
  - eapply stamped_other; [|exact Hst].
    apply (control_loop_spec now actor active_ids rest db1 db' Hpk1 Hloop).
    intros d1 Hd1 E1. apply Hd. rewrite <- E1. now apply in_map.
Qed.

Lemma active_update_or_create_unique db now d f actor db1 :
  activation_unique db ->
  Views.active_update_or_create db now d f actor = inr db1 ->
  activation_unique db1.
Proof.
  intros Hu E.
  destruct (active_update_or_create_total db now d f actor Hu) as (db2 & E2 & Hu2).
  congruence.
Qed.

Lemma control_loop_unique now actor active_ids all :
  forall db db',
    activation_unique db ->
    Views.control_loop db now actor active_ids all = inr db' ->
    activation_unique db'.
Proof.
  induction all as [|d rest IH]; intros db db' Hu; simpl.
  - intros H. inversion H; subst. assumption.
  - destruct (Views.active_update_or_create _ _ _ _ _) as [e|db1] eqn:E; [discriminate|].
    apply IH. eapply active_update_or_create_unique; eauto.
Qed.

Lemma active_update_or_create_fk db now d f actor db1 (ids : list Z) :
  In d ids ->
  (forall a, In a (active_designations db) ->
             In (ActiveApprovalDesignation.designation a) ids) ->
  Views.active_update_or_create db now d f actor = inr db1 ->
  forall a, In a (active_designations db1) ->
            In (ActiveApprovalDesignation.designation a) ids.
Proof.
  intros Hd Hfk. unfold Views.active_update_or_create.
  destruct (filter _ _) as [|a0 [|a' l]]; [| |discriminate];
    intros H; inversion H; subst db1; clear H; simpl; intros a Ha.
  - apply in_app_iff in Ha. destruct Ha as [Ha|[<-|[]]]; [now apply Hfk | exact Hd].
  - apply in_map_iff in Ha. destruct Ha as (r & <- & Hr).
    destruct (ActiveApprovalDesignation.id r =? ActiveApprovalDesignation.id a0);
      simpl; now apply Hfk.
Qed.

Lemma control_loop_fk now actor active_ids (ids : list Z) all :
  forall db db',
    (forall d, In d all -> In (Designation.id d) ids) ->
    (forall a, In a (active_designations db) ->
               In (ActiveApprovalDesignation.designation a) ids) ->
    Views.control_loop db now actor active_ids all = inr db' ->
    forall a, In a (active_designations db') ->
              In (ActiveApprovalDesignation.designation a) ids.
Proof.
  induction all as [|d rest IH]; intros db db' Hall Hfk; simpl.
  - intros H. inversion H; subst. assumption.
  - destruct (Views.active_update_or_create _ _ _ _ _) as [e|db1] eqn:E; [discriminate|].
    apply IH; [intros d0 Hd0; apply Hall; now right|].
    eapply active_update_or_create_fk; eauto. apply Hall. now left.
Qed.

Lemma NoDup_map_filter {A B} (f : A -> B) (p : A -> bool) l :
  NoDup (map f l) -> NoDup (map f (filter p l)).
Proof.
  induction l as [|a l IH]; simpl; [auto|].
  intros H. inversion H as [|? ? Hnot Hnd]; subst.
  destruct (p a); simpl; [|auto].
  constructor; [|auto]. intros Hin. apply Hnot.
  apply in_map_iff in Hin. destruct Hin as (x & E & Hx).
  apply filter_In in Hx. rewrite <- E. apply in_map. tauto.
Qed.

(** The shape of a successful [ApprovalControlAPI.post]. *)
Lemma control_post_ok db now user fld body db1 :
  Views.ApprovalControlAPI_post db now user fld = (JsonResponse body 200, db1) ->
  exists actor active_ids,
    user = Some actor /\ User.is_superuser actor = true
    /\ Views.active_ids_of fld = Some active_ids
    /\ Views.control_loop db now (User.id actor) active_ids (designations db) = inr db1.
Proof.
  unfold Views.ApprovalControlAPI_post.
  destruct user as [u|]; [|discriminate].
  destruct (User.is_superuser u) eqn:Hs; cbn [negb]; [|discriminate].
  destruct (Views.active_ids_of fld) as [ids|]; [|discriminate].
  destruct (Views.control_loop _ _ _ _ _) as [[e dbe]|dbl] eqn:E; [discriminate|].
  intros H. inversion H; subst. eauto 8.
Qed.

(** X3.  After a successful [ApprovalControlAPI.post] every existing
    designation has exactly one activation row, flagged as the request says
    and stamped with the acting user and the time of the call, also where
    the flag did not change; the key constraints and the foreign key of the
    activation table are kept. *)
Theorem X3_control_post_stamps_every_designation :
  forall (db : Db) (now : Z) (user : option User.t) (fld : Field)
         (body : Json) (db1 : Db),
    activation_pk db ->
    Views.ApprovalControlAPI_post db now user fld = (JsonResponse body 200, db1) ->
    exists actor active_ids,
      user = Some actor
      /\ Views.active_ids_of fld = Some active_ids
      /\ (forall d, In d (designations db) ->
                    stamped db1 (Designation.id d)
                            (Views.id_in_active_ids (Designation.id d) active_ids)
                            (User.id actor) now)
      /\ activation_pk db1
      /\ (activation_unique db -> activation_unique db1)
      /\ (activation_fk db -> activation_fk db1)
      /\ same_but_activation db db1.
Proof.
  intros db now user fld body db1 Hpk Hpost.
  apply control_post_ok in Hpost.
  destruct Hpost as (actor & ids & -> & _ & Hids & Hloop).
  exists actor, ids. split; [reflexivity|]. split; [assumption|].
  pose proof (control_loop_spec _ _ _ _ _ _ Hpk Hloop) as (Hpk1 & Hsame & _ & _).
  split; [apply (control_loop_stamps _ _ _ _ _ _ Hpk Hloop)|].
  split; [assumption|].
  split; [intros Hu; eapply control_loop_unique; eauto|].
  split; [|assumption].
  intros Hfk. unfold activation_fk.
  rewrite (same_but_activation_designations _ _ Hsame).
  eapply control_loop_fk; [| |exact Hloop].
  - intros d Hd. now apply in_map.
  - exact Hfk.
Qed.

(** X2.  Reading the configuration back: after a successful
    [ApprovalControlAPI.post], [ApprovalControlAPI.get] answers 200 and its
    list of active designations contains exactly the ids of the existing
    designations that the request listed. *)
Theorem X2_control_get_after_post :
  forall (db : Db) (now : Z) (user : option User.t) (active_ids : list Scalar)
         (body : Json) (db1 : Db),
    activation_pk db ->
    activation_fk db ->
    Views.ApprovalControlAPI_post db now user (Items active_ids)
      = (JsonResponse body 200, db1) ->
    exists active all,
      Views.ApprovalControlAPI_get db1 user
      = JsonResponse (JObj [("active_designations", JList (map JInt active));
                            ("all_designations", JList all)]) 200
      /\ (forall x, In x active <->
                    In x (map Designation.id (designations db)) /\ listed x active_ids)
      /\ (activation_unique db -> NoDup active).
Proof.
  intros db now user ids body db1 Hpk Hfk Hpost.
  pose proof (control_post_ok _ _ _ _ _ _ Hpost) as (actor & ids' & -> & Hs & Hids & Hloop).
  simpl in Hids. inversion Hids; subst ids'. clear Hids.
  pose proof (control_loop_spec _ _ _ _ _ _ Hpk Hloop) as (Hpk1 & Hsame & Hall & _).
  unfold Views.ApprovalControlAPI_get. rewrite Hs. cbn [negb].
  do 2 eexists. split; [reflexivity|]. split.
  - intros x. rewrite active_des_ids_spec. split.
    + intros Hact. pose proof Hact as (a & Ha & _ & Hd).
      assert (Hx : In x (map Designation.id (designations db))).
      { rewrite <- Hd.
        eapply (control_loop_fk now (User.id actor) ids
                  (map Designation.id (designations db)) (designations db) db db1);
          eauto. intros d Hd'. now apply in_map. }
      split; [assumption|].
      apply in_map_iff in Hx. destruct Hx as (d & <- & Hd').
      apply (settled_active _ _ _ (Hall d Hd')) in Hact.
      now apply id_in_active_ids_listed.
    + intros [Hx Hl]. apply in_map_iff in Hx. destruct Hx as (d & <- & Hd').
      apply (settled_active _ _ _ (Hall d Hd')).
      now apply id_in_active_ids_listed.
  - intros Hu. unfold Models.active_des_ids. apply NoDup_map_filter.
    eapply control_loop_unique; eauto.
Qed.

End RegistryRoundTrip.

Section DecisionFrame.

Lemma same_but_decisions_refl db : same_but_decisions db db.
Proof. unfold same_but_decisions. now destruct db. Qed.

(** The steps of [VoucherApprovalAPI.post] behind an answer 200. *)
Lemma approval_post_ok db now user fld pk body db' :
  Views.VoucherApprovalAPI_post db now user fld pk = (JsonResponse body 200, db') ->
  exists u voucher decision a created db1 voucher',
    user = Some u
    /\ (Views.in_group db u "Admin Staff" || User.is_superuser u) = true
    /\ Views.get_voucher db pk = Some voucher
    /\ Views.decision_of fld = Some decision
    /\ In (User.username u) (Models.required_approvers db voucher)
    /\ Views.approval_update_or_create db now pk (User.id u) decision
       = inr (a, created, db1)
    /\ Models._update_status_if_all_approved db1 voucher = inr (voucher', db').
Proof.
  unfold Views.VoucherApprovalAPI_post, Views.AdminStaffRequiredMixin.
  destruct user as [u|]; [|discriminate].
  destruct (Views.in_group db u "Admin Staff" || User.is_superuser u) eqn:Hg;
    cbn [negb]; [|discriminate].
  destruct (Views.get_voucher db pk) as [voucher|] eqn:Hget; [|discriminate].
  destruct (Views.decision_of fld) as [choice|]; [|discriminate].
  destruct (mem_string _ _) eqn:Hmem; cbn [negb]; [|discriminate].
  apply mem_string_In in Hmem.
  rewrite (get_voucher_id _ _ _ Hget).
  destruct (Views.approval_update_or_create _ _ _ _ _) as [e|[[a created] db1]] eqn:Hup;
    [discriminate|].
  destruct (Models._update_status_if_all_approved _ _) as [e|[voucher' db2]] eqn:Hrec;
    [discriminate|].
  intros H. inversion H; subst db2.
  exists u, voucher, choice, a, created, db1, voucher'. auto 10.
Qed.

(** An answer other than 200 comes with the database unchanged. *)
Lemma approval_post_not_ok db now user fld pk response db' :
  Views.VoucherApprovalAPI_post db now user fld pk = (response, db') ->
  (forall body, response <> JsonResponse body 200) ->
  db' = db.
Proof.
  unfold Views.VoucherApprovalAPI_post, Views.AdminStaffRequiredMixin.
  destruct user as [u|]; [|intros H; now inversion H].
  destruct (negb _); [intros H; now inversion H|].
  destruct (Views.get_voucher db pk) as [voucher|]; [|intros H; now inversion H].
  destruct (Views.decision_of fld) as [choice|]; [|intros H; now inversion H].
  destruct (negb (mem_string _ _)); [intros H; now inversion H|].
  destruct (Views.approval_update_or_create _ _ _ _ _) as [e|[[a created] db1]];
    [intros H; now inversion H|].
  destruct (Models._update_status_if_all_approved _ _) as [e|[voucher' db2]];
    [intros H; now inversion H|].
  intros H Hno. inversion H; subst. now elim (Hno _ eq_refl).
Qed.

(** What the status routine writes: nothing, or the status column of the
    rows keyed like [self]. *)
Lemma update_status_writes db self self' db' :
  Models._update_status_if_all_approved db self = inr (self', db') ->
  db' = db
  \/ exists st,
      db' = Models.set_vouchers db
              (map (fun w => if Voucher.id w =? Voucher.id self
                             then Models.set_status w st else w)
                   (vouchers db)).
Proof.
  unfold Models._update_status_if_all_approved.
  destruct (Models.required_approvers db self).
  - intros H. inversion H. now left.
  - set (st := if existsb _ _ then _ else _).
    assert (Eid : Voucher.id st = Voucher.id self)
      by (subst st; destruct (existsb _ _); [|destruct (Nat.eqb _ _)]; reflexivity).
    intros H. apply save_status_spec in H. destruct H as (_ & _ & ->).
    right. exists (Voucher.status st). now rewrite Eid.
Qed.

(** X4.  A decision request touches only the approvals and the vouchers
    tables; it writes nothing at all unless it is answered 200; and when it
    writes, the vouchers table changes at most in the status column of the
    voucher addressed. *)
Theorem X4_decision_frame :
  forall (db : Db) (now : Z) (user : option User.t) (fld : Field) (pk : Z)
         (response : Response) (db' : Db),
    Views.VoucherApprovalAPI_post db now user fld pk = (response, db') ->
    same_but_decisions db db'
    /\ ((forall body, response <> JsonResponse body 200) -> db' = db)
    /\ (vouchers db' = vouchers db
        \/ exists st,
            vouchers db' = map (fun w => if Voucher.id w =? pk
                                         then Models.set_status w st else w)
                               (vouchers db)).
Proof.
  intros db now user fld pk response db' Hpost.
  assert (Hno := approval_post_not_ok _ _ _ _ _ _ _ Hpost).
  split; [|split; [assumption|]].
  - destruct response as [t| |body code|e];
      try (rewrite Hno by discriminate; apply same_but_decisions_refl).
    destruct (Z.eq_dec code 200) as [->|Hne].
    2:{ rewrite Hno; [apply same_but_decisions_refl|]. intros b E. inversion E. contradiction. }
    apply approval_post_ok in Hpost.
    destruct Hpost as (u & v & d & a & c & db1 & v' & _ & _ & _ & _ & _ & Hup & Hrec).
    apply approval_update_or_create_spec in Hup. destruct Hup as ((l & ->) & _).
    apply update_status_writes in Hrec.
    destruct Hrec as [->|(st & ->)]; reflexivity.
  - destruct response as [t| |body code|e];
      try (left; rewrite Hno by discriminate; reflexivity).
    destruct (Z.eq_dec code 200) as [->|Hne].
    2:{ left. rewrite Hno; [reflexivity|]. intros b E. inversion E. contradiction. }
    apply approval_post_ok in Hpost.
    destruct Hpost as (u & v & d & a & c & db1 & v' & _ & _ & Hget & _ & _ & Hup & Hrec).
    apply approval_update_or_create_spec in Hup. destruct Hup as ((l & ->) & _).
    apply update_status_writes in Hrec.
    rewrite (get_voucher_id _ _ _ Hget) in Hrec.
    destruct Hrec as [->|(st & ->)]; [now left | right; now exists st].
Qed.

Lemma NoDup_filter_one {A K} (f : A -> K) (p : A -> bool) (k : K) l :
  NoDup (map f l) -> (forall a, p a = true -> f a = k) ->
  filter p l = [] \/ exists a, filter p l = [a].
Proof.
  intros Hnd Hp. induction l as [|a l IH]; simpl; [auto|].
  inversion Hnd as [|? ? Hnot Hnd']; subst.
  destruct (p a) eqn:E; [|now apply IH].
  right. exists a. f_equal.
  destruct (filter p l) as [|x r] eqn:F; [reflexivity|].
  exfalso. apply Hnot.
  assert (Hx : In x (filter p l)) by (rewrite F; now left).
  apply filter_In in Hx. destruct Hx as [Hx Hpx].
  rewrite (Hp _ E), <- (Hp _ Hpx). now apply in_map.
Qed.

(** With one row per pair at most, [update_or_create] does not raise and
    keeps it so. *)
Lemma approval_update_or_create_unique db now voucher approver st :
  approvals_unique db ->
  exists a created db1,
    Views.approval_update_or_create db now voucher approver st = inr (a, created, db1)
    /\ approvals_unique db1.
Proof.
  unfold approvals_unique, Views.approval_update_or_create. intros Hu.
  set (pr := fun a => (VoucherApproval.voucher a, VoucherApproval.approver a)) in *.
  set (p := fun a : VoucherApproval.t =>
              (VoucherApproval.voucher a =? voucher)
              && (VoucherApproval.approver a =? approver)).
  assert (Hp : forall a, p a = true -> pr a = (voucher, approver)).
  { intros a H. unfold p in H. apply andb_true_iff in H. rewrite !Z.eqb_eq in H.
    unfold pr. destruct H as [-> ->]. reflexivity. }
  destruct (NoDup_filter_one pr p (voucher, approver) (approvals db) Hu Hp)
    as [E|(a & E)]; rewrite E.
  - do 3 eexists. split; [reflexivity|]. simpl. rewrite map_app. simpl.
    apply NoDup_app; [assumption | repeat constructor; auto |].
    intros x Hx [<-|[]]. apply in_map_iff in Hx. destruct Hx as (r & Hr & Hin).
    assert (Hf : In r (filter p (approvals db))).
    { apply filter_In. split; [assumption|]. unfold p. inversion Hr.
      now rewrite !Z.eqb_refl. }
    rewrite E in Hf. contradiction.
  - do 3 eexists. split; [reflexivity|]. simpl. rewrite map_map.
    erewrite map_ext; [exact Hu|]. intros r. simpl.
    destruct (VoucherApproval.id r =? VoucherApproval.id a); reflexivity.
Qed.



End DecisionFrame.

Section RepeatedDecision.

Lemma map_fixed {A} (f : A -> A) l : (forall x, In x l -> f x = x) -> map f l = l.
Proof.
  induction l as [|a l IH]; simpl; intros H; [reflexivity|].
  rewrite (H a) by auto. f_equal. apply IH. auto.
Qed.

(** An upsert that went through finds its own row a second time, and
    rewrites it to what it already is. *)
Lemma approval_update_or_create_again db now now' voucher approver st a created db1 db2 :
  Views.approval_update_or_create db now voucher approver st = inr (a, created, db1) ->
  approvals db2 = approvals db1 ->
  Views.approval_update_or_create db2 now' voucher approver st
  = inr (a, false, Models.set_approvals db2 (approvals db1)).
Proof.
  unfold Views.approval_update_or_create. intros H E2. rewrite E2.
  set (p := fun a : VoucherApproval.t =>
              (VoucherApproval.voucher a =? voucher)
              && (VoucherApproval.approver a =? approver)) in *.
  destruct (filter p (approvals db)) as [|a0 [|a1 r]] eqn:F; [| |discriminate].
  - inversion H; subst a created db1. cbn [approvals Models.set_approvals].
    set (a := VoucherApproval.mk _ voucher approver st now).
    assert (Fa : filter p [a] = [a]).
    { cbn [filter]. unfold p at 1. subst a.
      cbn [VoucherApproval.voucher VoucherApproval.approver].
      now rewrite !Z.eqb_refl. }
    rewrite filter_app, F, Fa, app_nil_l. subst a. cbv beta iota.
    cbn [VoucherApproval.id VoucherApproval.status VoucherApproval.approved_at
         VoucherApproval.voucher VoucherApproval.approver].
    do 3 f_equal.
    rewrite map_app. cbn [map VoucherApproval.id]. rewrite Z.eqb_refl. f_equal.
    apply map_fixed. intros x Hx.
    assert (Hlt := next_id_fresh (map VoucherApproval.id (approvals db))
                                 (VoucherApproval.id x) (in_map _ _ _ Hx)).
    destruct (Z.eqb_spec (VoucherApproval.id x)
                (next_id (map VoucherApproval.id (approvals db)))); [lia | reflexivity].
  - inversion H; subst a created db1. cbn [approvals Models.set_approvals].
    set (h := fun r => if VoucherApproval.id r =? VoucherApproval.id a0
                       then VoucherApproval.mk (VoucherApproval.id r)
                              (VoucherApproval.voucher r) (VoucherApproval.approver r) st
                              (VoucherApproval.approved_at r)
                       else r).
    assert (Hp : forall x, p (h x) = p x).
    { intros x. unfold h. destruct (VoucherApproval.id x =? VoucherApproval.id a0); reflexivity. }
    rewrite (filter_map_preserve p h _ Hp), F. cbn [map].
    assert (Ha0 : h a0 = VoucherApproval.mk (VoucherApproval.id a0)
                           (VoucherApproval.voucher a0) (VoucherApproval.approver a0) st
                           (VoucherApproval.approved_at a0)).
    { unfold h. now rewrite Z.eqb_refl. }
    rewrite Ha0. cbn [VoucherApproval.id VoucherApproval.status
                      VoucherApproval.approved_at VoucherApproval.voucher
                      VoucherApproval.approver].
    do 3 f_equal. rewrite map_map. apply map_ext. intros x. unfold h.
    destruct (VoucherApproval.id x =? VoucherApproval.id a0) eqn:E; cbn [VoucherApproval.id];
      rewrite E; reflexivity.
Qed.

(** [order_by('-id').first()] commutes with a rewriting of rows that
    keeps their keys. *)
Lemma last_voucher_map (g : Voucher.t -> Voucher.t) vs :
  (forall w, Voucher.id (g w) = Voucher.id w) ->
  Models.last_voucher (map g vs) = option_map g (Models.last_voucher vs).
Proof.
  intros Hg. unfold Models.last_voucher.
  change (@None Voucher.t) with (option_map g None) at 1.
  generalize (@None Voucher.t). induction vs as [|v vs IH]; intros best; [reflexivity|].
  cbn [map fold_left]. rewrite <- IH. f_equal.
  destruct best as [b|]; cbn [option_map]; [|reflexivity].
  rewrite !Hg. destruct (Voucher.id b <? Voucher.id v); reflexivity.
Qed.

Lemma assign_voucher_number_map (g : Voucher.t -> Voucher.t) db self :
  (forall w, Voucher.id (g w) = Voucher.id w) ->
  (forall w, Voucher.voucher_number (g w) = Voucher.voucher_number w) ->
  Models.assign_voucher_number (Models.set_vouchers db (map g (vouchers db))) self
  = Models.assign_voucher_number db self.
Proof.
  intros Hid Hnum. unfold Models.assign_voucher_number.
  cbn [vouchers Models.set_vouchers]. rewrite (last_voucher_map g _ Hid).
  destruct (Models.last_voucher (vouchers db)) as [last|]; cbn [option_map];
    [rewrite Hnum|]; reflexivity.
Qed.

Lemma existsb_map {A B} (p : B -> bool) (f : A -> B) l :
  existsb p (map f l) = existsb (fun x => p (f x)) l.
Proof. induction l as [|a l IH]; simpl; [reflexivity | now rewrite IH]. Qed.

Lemma existsb_pointwise {A} (p q : A -> bool) l :
  (forall x, p x = q x) -> existsb p l = existsb q l.
Proof. intros H. induction l as [|a l IH]; simpl; [reflexivity | now rewrite H, IH]. Qed.

(** Writing the same status to the same row twice is writing it once. *)
Lemma save_status_again db self self' db' :
  Models.save_status db self = inr (self', db') ->
  Models.save_status db' self = inr (self', db').
Proof.
  intros H. pose proof (save_status_spec _ _ _ _ H) as (Eid & Est & Edb).
  set (g := fun v => if Voucher.id v =? Voucher.id self
                     then Models.set_status v (Voucher.status self) else v) in Edb.
  assert (Hid : forall w, Voucher.id (g w) = Voucher.id w)
    by (intros w; unfold g; destruct (Voucher.id w =? Voucher.id self); reflexivity).
  assert (Hnum : forall w, Voucher.voucher_number (g w) = Voucher.voucher_number w)
    by (intros w; unfold g; destruct (Voucher.id w =? Voucher.id self); reflexivity).
  unfold Models.save_status in *.
  destruct (Models.assign_voucher_number db self) as [e|s] eqn:Ea; [discriminate|].
  destruct (existsb _ (vouchers db)) eqn:Ex; [|discriminate].
  injection H as Es _. subst s.
  rewrite Edb, (assign_voucher_number_map g db self Hid Hnum), Ea.
  cbn [vouchers Models.set_vouchers]. rewrite existsb_map.
  erewrite existsb_pointwise; [rewrite Ex | intros w; cbv beta; now rewrite Hid].
  do 2 f_equal. unfold Models.set_vouchers. cbn. f_equal.
  rewrite map_map. rewrite Eid, Est. apply map_ext. intros w. unfold g.
  destruct (Voucher.id w =? Voucher.id self) eqn:E; cbn [Voucher.id Models.set_status];
    rewrite E; reflexivity.
Qed.

Lemma update_status_again db1 voucher voucher' db' s :
  Models.required_approvers db1 voucher <> [] ->
  Models._update_status_if_all_approved db1 voucher = inr (voucher', db') ->
  Models._update_status_if_all_approved db' (Models.set_status voucher s)
  = inr (voucher', db').
Proof.
  intros Hne Hrec.
  pose proof (update_status_keeps_approvals _ _ _ _ Hrec) as Ea.
  assert (Er : Models.required_approvers db' (Models.set_status voucher s)
               = Models.required_approvers db1 voucher).
  { apply required_approvers_frame;
      destruct (update_status_writes _ _ _ _ Hrec) as [-> | (st & ->)]; reflexivity. }
  unfold Models._update_status_if_all_approved in *. cbv zeta in *. rewrite Er.
  destruct (Models.required_approvers db1 voucher) as [|r rs]; [contradiction|].
  unfold Models.approvals_of in *. rewrite Ea.
  apply save_status_again with (db := db1). exact Hrec.
Qed.

(** X5.  A decision that was answered 200 can be sent again, at any later
    time: the answer is the same, body included, and the database stays as
    the first request left it. *)
Theorem X5_repeated_decision_changes_nothing :
  forall (db : Db) (now now' : Z) (user : option User.t) (fld : Field) (pk : Z)
         (body : Json) (db' : Db),
    Views.VoucherApprovalAPI_post db now user fld pk = (JsonResponse body 200, db') ->
    Views.VoucherApprovalAPI_post db' now' user fld pk = (JsonResponse body 200, db').
Proof.
  intros db now now' user fld pk body db' Hpost.
  destruct (approval_post_ok _ _ _ _ _ _ _ Hpost)
    as (u & voucher & decision & a & c & db1 & voucher' & -> & Hg & Hget & Hdec
        & Hreq & Hup & Hrec).
  pose proof (get_voucher_id _ _ _ Hget) as Epk.
  (* the body of the first answer *)
  unfold Views.VoucherApprovalAPI_post, Views.AdminStaffRequiredMixin in Hpost.
  rewrite Hg, Hget, Hdec, (proj2 (mem_string_In _ _) Hreq), Epk, Hup, Hrec in Hpost.
  cbn [negb] in Hpost. injection Hpost as Hbody.
  unfold Views.VoucherApprovalAPI_post, Views.AdminStaffRequiredMixin.
  (* the tables the decision leaves alone *)
  destruct (proj1 (approval_update_or_create_spec _ _ _ _ _ _ _ _ Hup)) as (l & Edb1).
  assert (Hreq1 : Models.required_approvers db1 voucher
                  = Models.required_approvers db voucher)
    by (apply required_approvers_frame; subst db1; reflexivity).
  assert (Hne : Models.required_approvers db1 voucher <> [])
    by (rewrite Hreq1; intros E; rewrite E in Hreq; contradiction).
  assert (Hget1 : Views.get_voucher db1 pk = Some voucher) by (subst db1; exact Hget).
  pose proof Hrec as Hrec'. unfold Models._update_status_if_all_approved in Hrec'.
  destruct (Models.required_approvers db1 voucher) as [|r rs] eqn:Er;
    [now elim Hne|]. cbv zeta in Hrec'.
  set (st0 := if existsb _ _ then _ else _) in Hrec'.
  assert (Eid0 : Voucher.id st0 = pk)
    by (subst st0; destruct (existsb _ _); [|destruct (Nat.eqb _ _)]; exact Epk).
  apply save_status_spec in Hrec'. destruct Hrec' as (_ & _ & Edb').
  assert (Hget' : Views.get_voucher db' pk
                  = Some (Models.set_status voucher (Voucher.status st0))).
  { rewrite Edb'.
    rewrite (get_voucher_after_save db1 st0 pk voucher Hget1).
    now rewrite Eid0, Epk, Z.eqb_refl. }
  assert (Hg' : Views.in_group db' u "Admin Staff" = Views.in_group db u "Admin Staff")
    by (rewrite Edb', Edb1; reflexivity).
  assert (Hreq' : Models.required_approvers db'
                    (Models.set_status voucher (Voucher.status st0))
                  = Models.required_approvers db voucher)
    by (apply required_approvers_frame; rewrite Edb', Edb1; reflexivity).
  assert (Ea : approvals db' = approvals db1) by (rewrite Edb'; reflexivity).
  assert (Eeta : Models.set_approvals db' (approvals db1) = db')
    by (rewrite Edb'; reflexivity).
  rewrite Hg', Hg, Hget', Hdec, Hreq', (proj2 (mem_string_In _ _) Hreq).
  cbn [negb Voucher.id Models.set_status]. rewrite Epk.
  rewrite (approval_update_or_create_again _ _ now' _ _ _ _ _ _ db' Hup Ea), Eeta.
  assert (Hne' : Models.required_approvers db1 voucher <> [])
    by (rewrite Er; discriminate).
  rewrite (update_status_again db1 voucher voucher' db' _ Hne' Hrec).
  rewrite <- Hbody. reflexivity.
Qed.

End RepeatedDecision.

Section StoredSubmission.

Context {R : Runtime}.

(** ** What the fields let through *)

Lemma ChoiceField_In choices data v :
  Serializers.ChoiceField choices data = inr v -> In v choices.
Proof.
  unfold Serializers.ChoiceField. destruct data as [s|]; [|discriminate].
  destruct (mem_string s choices) eqn:E; [|discriminate].
  intros H. inversion H; subst. now apply mem_string_In.
Qed.

Lemma CharField_text_length allow_blank n s v :
  Serializers.CharField_text allow_blank n s = inr v -> (String.length v <= n)%nat.
Proof.
  unfold Serializers.CharField_text.
  destruct (negb (Py.truthy (Py.strip s))).
  - destruct allow_blank; [|discriminate]. intros H. inversion H. simpl. lia.
  - destruct (n <? String.length (Py.strip s))%nat eqn:E.
    + cbn [app]. discriminate.
    + destruct (Serializers.has_null_char _); cbn [app]; [discriminate|].
      intros H. inversion H; subst. now apply Nat.ltb_ge in E.
Qed.

Lemma DateField_inr data d :
  Serializers.DateField data = inr d ->
  exists text, data = Some text /\ parse_date text = Some d.
Proof.
  unfold Serializers.DateField. destruct data as [s|]; [|discriminate].
  destruct (parse_date s) as [d'|] eqn:E; [|discriminate].
  intros H. inversion H; subst. eauto.
Qed.

Lemma DecimalField_value d v :
  Serializers.DecimalField d = inr v ->
  exists neg c e,
    d = Py.Finite neg c e /\ -2 <= e
    /\ v = Py.Finite neg (c * 10 ^ Z.to_N (e + 2)) (-2).
Proof.
  unfold Serializers.DecimalField. destruct d as [neg c e| |]; try discriminate.
  destruct (0 <=? e) eqn:E0.
  - destruct (12 <? _); [discriminate|]. cbn [Z.ltb Z.compare].
    destruct (10 <? _); [discriminate|].
    intros H. inversion H. apply Z.leb_le in E0. exists neg, c, e. repeat split. lia.
  - destruct (Z.abs e <? Py.ndigits c);
      (destruct (12 <? _); [discriminate|]);
      (destruct (2 <? Z.abs e) eqn:E2; [discriminate|]);
      (destruct (10 <? _); [discriminate|]);
      intros H; inversion H; apply Z.ltb_ge in E2;
      exists neg, c, e; repeat split; lia.
Qed.

Lemma amount_field_value d v :
  Serializers.amount_field d = inr (inr v) ->
  exists c e,
    d = Py.Finite false c e /\ (0 < c)%N /\ -2 <= e
    /\ v = Py.Finite false (c * 10 ^ Z.to_N (e + 2)) (-2).
Proof.
  unfold Serializers.amount_field.
  destruct (Serializers.DecimalField d) as [m|w] eqn:E; [discriminate|].
  apply DecimalField_value in E. destruct E as (neg & c & e & -> & He & ->).
  unfold Serializers.validate_amount. cbn [Py.le_zero].
  destruct neg; cbn [orb]; [discriminate|].
  destruct (N.eqb_spec (c * 10 ^ Z.to_N (e + 2)) 0) as [E|E]; [discriminate|].
  intros H. inversion H. exists c, e. repeat split; try assumption.
  destruct c; [now elim E | lia].
Qed.

Lemma FileField_inr f v : Serializers.FileField f = inr v -> v = f.
Proof.
  unfold Serializers.FileField.
  destruct (negb _); [discriminate|]. destruct (_ =? _)%N; [discriminate|].
  intros H. now inversion H.
Qed.

Lemma particular_attachment_field_inr data v :
  Serializers.particular_attachment_field data = inr v -> v = data.
Proof.
  unfold Serializers.particular_attachment_field.
  destruct data as [f|]; [|intros H; now inversion H].
  destruct (Serializers.FileField f) as [m|f'] eqn:E; [discriminate|].
  apply FileField_inr in E. subst f'.
  destruct (Serializers.FileExtensionValidator _ f); [|discriminate].
  unfold Serializers.particular_validate_attachment.
  destruct (_ && _); [discriminate|]. intros H. now inversion H.
Qed.

Lemma lower_allowed_extensions :
  map Py.lower Serializers.allowed_extensions = Serializers.allowed_extensions.
Proof. reflexivity. Qed.

(** The three checks on the main attachment, taken together. *)
Lemma attachment_field_spec f :
  if attachment_ok f
  then Serializers.attachment_field f = inr f
  else exists msgs, Serializers.attachment_field f = inl msgs.
Proof.
  unfold attachment_ok, Serializers.attachment_field, Serializers.FileField,
    Serializers.FileExtensionValidator, Serializers.validate_attachment.
  rewrite lower_allowed_extensions.
  destruct (Py.truthy (file_name f)) eqn:Et; cbn [negb andb]; [|eauto].
  destruct (file_size f =? 0)%N; cbn [negb andb]; [eauto|].
  destruct (mem_string _ _); rewrite ?andb_false_r; [|eauto].
  rewrite andb_true_r, N.ltb_antisym, Et.
  destruct (file_size f <=? Serializers.max_upload_size)%N; cbn [negb]; eauto.
Qed.

(** One particular through the serializer. *)
Lemma validate_particular_value item v :
  Serializers.validate_particular item = inr (inr v) ->
  Serializers.pd_description v = Py.strip (Serializers.pd_description item)
  /\ (String.length (Serializers.pd_description v) <= 300)%nat
  /\ (exists c e,
        Serializers.pd_amount item = Py.Finite false c e /\ (0 < c)%N /\ -2 <= e
        /\ Serializers.pd_amount v = Py.Finite false (c * 10 ^ Z.to_N (e + 2)) (-2))
  /\ Serializers.pd_attachment v = Serializers.pd_attachment item.
Proof.
  unfold Serializers.validate_particular.
  destruct (Serializers.amount_field _) as [e'|a] eqn:E; [discriminate|].
  destruct (Serializers.CharField 300 _) as [|d] eqn:Ed; destruct a as [|amt];
    destruct (Serializers.particular_attachment_field _) as [|att] eqn:Ea;
    try discriminate.
  intros H. inversion H; subst. cbn [Serializers.pd_description Serializers.pd_amount
                                      Serializers.pd_attachment].
  cbn [Serializers.CharField] in Ed.
  split; [now apply CharField_text_inr in Ed|].
  split; [now apply CharField_text_length in Ed|].
  split; [now apply amount_field_value | now apply particular_attachment_field_inr].
Qed.

Lemma validate_particular_errors item errs :
  Serializers.validate_particular item = inr (inl errs) -> errs <> [].
Proof.
  unfold Serializers.validate_particular.
  destruct (Serializers.amount_field _) as [e'|a]; [discriminate|].
  destruct (Serializers.CharField 300 _) as [|d]; destruct a as [|amt];
    destruct (Serializers.particular_attachment_field _) as [|att];
    intros H; inversion H; discriminate.
Qed.

(** When the list serializer reports no error, every item went through. *)
Lemma validate_particulars_all items :
  forall errs vals,
    Serializers.validate_particulars items = inr (errs, vals) ->
    forallb (fun e => match e with [] => true | _ => false end) errs = true ->
    Forall2 (fun item v => Serializers.validate_particular item = inr (inr v)) items vals.
Proof.
  induction items as [|item rest IH]; intros errs vals; cbn [Serializers.validate_particulars].
  - intros H _. inversion H. constructor.
  - destruct (Serializers.validate_particular item) as [e|r] eqn:E; [discriminate|].
    destruct (Serializers.validate_particulars rest) as [e|[errs0 vals0]]; [discriminate|].
    destruct r as [e1|v]; intros H; inversion H; subst; cbn [forallb].
    + apply validate_particular_errors in E. destruct e1; [now elim E | discriminate].
    + intros Hall. constructor; [exact E | exact (IH errs0 vals0 eq_refl Hall)].
Qed.

Lemma particulars_field_all items vals :
  Serializers.particulars_field items = inr (inr vals) ->
  Forall2 (fun item v => Serializers.validate_particular item = inr (inr v)) items vals.
Proof.
  unfold Serializers.particulars_field.
  destruct (Serializers.validate_particulars items) as [e|[errs vals']] eqn:E;
    [discriminate|].
  cbv beta iota. destruct (forallb _ _) eqn:Hall; [|discriminate].
  intros H. inversion H; subst. now apply (validate_particulars_all items errs).
Qed.

(** [validate] returns its argument with the cheque number settled. *)
Lemma validate_keeps data data' :
  Serializers.validate data = inr (inr data') ->
  exists c, data' = Serializers.set_cheque_number data c.
Proof.
  unfold Serializers.validate.
  destruct (Serializers.vd_particulars data); [discriminate|].
  destruct (existsb _ _); [discriminate|].
  destruct (negb (Py.truthy (file_name _))); [discriminate|].
  destruct (String.eqb _ _).
  - destruct (Serializers.vd_cheque_number data) as [raw|]; [|discriminate].
    destruct (negb (Py.truthy _)); [discriminate|].
    destruct (negb (Py.isdigit _)); [discriminate|].
    intros H. inversion H. eauto.
  - intros H. inversion H. eauto.
Qed.

(** Every field behind an accepted submission. *)
Lemma is_valid_fields data validated :
  Serializers.is_valid data = inr (inr validated) ->
  Serializers.DateField (Serializers.in_voucher_date data)
  = inr (Serializers.vd_voucher_date validated)
  /\ Serializers.ChoiceField ["CASH"; "CHEQUE"; "PETTY_CASH"]
       (Serializers.in_payment_type data) = inr (Serializers.vd_payment_type validated)
  /\ Serializers.ChoiceField ["MR"; "MRS"; "MS"] (Serializers.in_name_title data)
     = inr (Serializers.vd_name_title validated)
  /\ Serializers.CharField 200 (Serializers.in_pay_to data)
     = inr (Serializers.vd_pay_to validated)
  /\ Serializers.attachment_field (Serializers.in_attachment data)
     = inr (Serializers.vd_attachment validated)
  /\ Serializers.particulars_field (Serializers.in_particulars data)
     = inr (inr (Serializers.vd_particulars validated)).
Proof.
  unfold Serializers.is_valid.
  destruct (Serializers.particulars_field _) as [e|items]; [discriminate|].
  destruct (Serializers.DateField _) as [|d];
    destruct (Serializers.ChoiceField ["CASH"; "CHEQUE"; "PETTY_CASH"] _) as [|pt];
    destruct (Serializers.ChoiceField ["MR"; "MRS"; "MS"] _) as [|nt];
    destruct (Serializers.CharField 200 _) as [|payee];
    destruct (Serializers.CharField_nullable 20 _) as [|cheque];
    destruct (Serializers.attachment_field _) as [|att];
    destruct items as [|ps]; try discriminate.
  intros H. apply validate_keeps in H. destruct H as (c & ->). cbn. auto 10.
Qed.

(** When the main attachment is refused, the serializer reports errors. *)
Lemma is_valid_attachment_refused data msgs :
  Serializers.attachment_field (Serializers.in_attachment data) = inl msgs ->
  forall validated, Serializers.is_valid data <> inr (inr validated).
Proof.
  intros Hatt validated. unfold Serializers.is_valid. rewrite Hatt.
  destruct (Serializers.particulars_field _) as [e|items]; [discriminate|].
  destruct (Serializers.DateField _) as [|d];
    destruct (Serializers.ChoiceField ["CASH"; "CHEQUE"; "PETTY_CASH"] _) as [|pt];
    destruct (Serializers.ChoiceField ["MR"; "MRS"; "MS"] _) as [|nt];
    destruct (Serializers.CharField 200 _) as [|payee];
    destruct (Serializers.CharField_nullable 20 _) as [|cheque];
    destruct items as [|ps]; discriminate.
Qed.

(** ** What creation writes *)

Lemma same_but_submission_refl db : same_but_submission db db.
Proof. unfold same_but_submission. auto 10. Qed.

Lemma same_but_submission_trans db1 db2 db3 :
  same_but_submission db1 db2 -> same_but_submission db2 db3 ->
  same_but_submission db1 db3.
Proof.
  unfold same_but_submission.
  intros (A1 & A2 & A3 & A4 & A5 & A6 & A7) (B1 & B2 & B3 & B4 & B5 & B6 & B7).
  repeat split; congruence.
Qed.

Lemma add_media_frame db path : same_but_submission db (Models.add_media db path).
Proof. destruct path; unfold same_but_submission; simpl; auto 10. Qed.

Lemma add_media_media db path :
  exists extra, media (Models.add_media db path) = media db ++ extra.
Proof.
  destruct path as [f|]; simpl; [now exists [f] | exists []; now rewrite app_nil_r].
Qed.

Lemma stored_as_from db0 db db' dir f name :
  incl (media db0) (media db) ->
  stored_as db db' dir f name -> stored_as db0 db' dir f name.
Proof.
  intros Hincl. unfold stored_as. destruct f as [f|]; [|auto].
  intros (taken & Ht & E & Hin). exists taken. split; [|auto].
  intros x Hx. apply Ht, Hincl, Hx.
Qed.

(** The rows [create] stores for the validated items, in order. *)
Lemma create_particulars_rows voucher items :
  forall db,
    same_but_submission db (Serializers.create_particulars db voucher items)
    /\ (exists extra,
          media (Serializers.create_particulars db voucher items) = media db ++ extra)
    /\ exists rows,
        particulars (Serializers.create_particulars db voucher items)
        = particulars db ++ rows
        /\ Forall2 (fun item p =>
                      Particular.voucher p = voucher
                      /\ Particular.description p = Serializers.pd_description item
                      /\ Particular.amount p = Serializers.pd_amount item
                      /\ stored_as db (Serializers.create_particulars db voucher items)
                                   "vouchers/particulars/"
                                   (Serializers.pd_attachment item)
                                   (Particular.attachment p))
                   items rows.
Proof.
  induction items as [|p rest IH]; intros db; cbn [Serializers.create_particulars].
  - split; [apply same_but_submission_refl|].
    split; [exists []; now rewrite app_nil_r|].
    exists []. rewrite app_nil_r. split; [reflexivity | constructor].
  - set (row := Particular.mk _ _ _ _ _).
    destruct (IH (Serializers.add_particular db row)) as (Hf & (extra & Hm) & rows & Hp & Hall).
    set (db' := Serializers.create_particulars (Serializers.add_particular db row)
                  voucher rest) in *.
    assert (Hf0 : same_but_submission db (Serializers.add_particular db row)).
    { unfold Serializers.add_particular.
      pose proof (add_media_frame db (Particular.attachment row)) as H.
      unfold same_but_submission in *. cbn [users groups user_groups designations
        profiles active_designations approvals]. exact H. }
    destruct (add_media_media db (Particular.attachment row)) as (extra0 & Hm0).
    assert (Hm1 : media (Serializers.add_particular db row) = media db ++ extra0)
      by (unfold Serializers.add_particular; cbn [media]; exact Hm0).
    split; [exact (same_but_submission_trans _ _ _ Hf0 Hf)|].
    split.
    + exists (extra0 ++ extra). now rewrite Hm, Hm1, app_assoc.
    + exists (row :: rows). split.
      * rewrite Hp. unfold Serializers.add_particular. cbn [particulars].
        rewrite add_media_particulars, <- app_assoc. reflexivity.
      * constructor.
        -- subst row. cbn [Particular.voucher Particular.description Particular.amount
                           Particular.attachment].
           do 3 (split; [reflexivity|]).
           unfold stored_as. destruct (Serializers.pd_attachment p) as [f|];
             [|reflexivity].
           exists (media db). split; [apply incl_refl|]. split; [reflexivity|].
           rewrite Hm. apply in_or_app. left.
           unfold Serializers.add_particular. cbn [media Particular.attachment option_map
                                                    Models.add_media].
           apply in_or_app. right. now left.
        -- eapply Forall2_impl; [|exact Hall].
           intros item q (H1 & H2 & H3 & H4). do 3 (split; [assumption|]).
           eapply stored_as_from; [|exact H4].
           rewrite Hm1. apply incl_appl, incl_refl.
Qed.

Lemma assign_voucher_number_header db self self' :
  Models.assign_voucher_number db self = inr self' ->
  Voucher.voucher_date self' = Voucher.voucher_date self
  /\ Voucher.name_title self' = Voucher.name_title self
  /\ Voucher.pay_to self' = Voucher.pay_to self
  /\ Voucher.attachment self' = Voucher.attachment self
  /\ Voucher.created_by self' = Voucher.created_by self
  /\ Voucher.created_at self' = Voucher.created_at self.
Proof.
  unfold Models.assign_voucher_number.
  destruct (negb (Py.truthy (Voucher.voucher_number self))).
  - destruct (Models.last_voucher (vouchers db)) as [last|].
    + destruct (Py.startswith "VCH" (Voucher.voucher_number last)).
      * destruct (Py.int _); intros H; inversion H; subst; simpl; auto 10.
      * intros H; inversion H; subst; simpl; auto 10.
    + intros H; inversion H; subst; simpl; auto 10.
  - intros H; inversion H; subst; auto 10.
Qed.

(** The record [VoucherSerializer.create] stores, and the tables it
    leaves alone. *)
Lemma create_record db now created_by validated voucher db' :
  Serializers.create db now created_by validated = inr (voucher, db') ->
  Voucher.voucher_date voucher = Serializers.vd_voucher_date validated
  /\ Voucher.name_title voucher = Serializers.vd_name_title validated
  /\ Voucher.pay_to voucher = Serializers.vd_pay_to validated
  /\ Voucher.attachment voucher
     = Some (storage_save (media db) "vouchers/attachments/"
                          (file_name (Serializers.vd_attachment validated)))
  /\ Voucher.created_by voucher = created_by
  /\ Voucher.created_at voucher = now
  /\ same_but_submission db db'
  /\ In (storage_save (media db) "vouchers/attachments/"
                      (file_name (Serializers.vd_attachment validated)))
        (media db')
  /\ exists rows,
      particulars db' = particulars db ++ rows
      /\ Forall2 (fun item p =>
                    Particular.voucher p = Voucher.id voucher
                    /\ Particular.description p = Serializers.pd_description item
                    /\ Particular.amount p = Serializers.pd_amount item
                    /\ stored_as db db' "vouchers/particulars/"
                                 (Serializers.pd_attachment item)
                                 (Particular.attachment p))
                 (Serializers.vd_particulars validated) rows.
Proof.
  unfold Serializers.create, Models.save.
  destruct (Models.assign_voucher_number db _) as [e|numbered] eqn:Ea; [discriminate|].
  cbv zeta. destruct (existsb _ _); [discriminate|].
  intros H. inversion H; subst. clear H.
  apply assign_voucher_number_header in Ea.
  cbn [Voucher.voucher_date Voucher.name_title Voucher.pay_to Voucher.attachment
       Voucher.created_by Voucher.created_at] in Ea.
  destruct Ea as (H1 & H2 & H3 & H4 & H5 & H6).
  rewrite H4. cbn [option_map].
  set (stored := storage_save (media db) "vouchers/attachments/"
                              (file_name (Serializers.vd_attachment validated))).
  set (db1 := Models.set_vouchers _ _).
  destruct (create_particulars_rows
              (next_id (map Voucher.id (vouchers db)))
              (Serializers.vd_particulars validated) db1)
    as (Hf & (extra & Hm) & rows & Hp & Hall).
  cbn [Models.set_id Models.set_attachment Voucher.voucher_date Voucher.name_title
       Voucher.pay_to Voucher.attachment Voucher.created_by Voucher.created_at
       Voucher.id].
  split; [exact H1|]. split; [exact H2|]. split; [exact H3|]. split; [reflexivity|].
  split; [exact H5|]. split; [exact H6|].
  assert (Hm1 : media db1 = media db ++ [stored]) by reflexivity.
  assert (Hf1 : same_but_submission db db1).
  { subst db1. unfold same_but_submission. cbn. auto 10. }
  split; [exact (same_but_submission_trans _ _ _ Hf1 Hf)|].
  split.
  - rewrite Hm, Hm1. apply in_or_app. left. apply in_or_app. right. now left.
  - exists rows. split.
    + rewrite Hp. reflexivity.
    + eapply Forall2_impl; [|exact Hall].
      intros item q (E1 & E2 & E3 & E4). do 3 (split; [assumption|]).
      eapply stored_as_from; [|exact E4]. rewrite Hm1. apply incl_appl, incl_refl.
Qed.

(** ** What the loop gathers *)

Lemma build_particulars_gathers fuel data files :
  forall i acc ps,
    Views.build_particulars fuel data files i acc = Some (inr ps) ->
    exists n items,
      (i <= n)%nat
      /\ (forall j, (i <= j < n)%nat -> row_present data j = true)
      /\ row_present data n = false
      /\ ps = acc ++ items
      /\ Forall2 (fun j item =>
                    Serializers.pd_description item = row_description data j
                    /\ Decimal_of_string (row_amount data j)
                       = Some (Serializers.pd_amount item)
                    /\ Serializers.pd_attachment item
                       = Views.get (Views.particular_key j "attachment") files)
                 (filter (row_complete data) (seq i (n - i))) items.
Proof.
  induction fuel as [|fuel IH]; intros i acc ps; cbn [Views.build_particulars];
    [discriminate|].
  change (Views.contains (Views.particular_key i "description") data)
    with (row_present data i).
  change (Py.strip (Views.get_or (Views.particular_key i "description") data EmptyString))
    with (row_description data i).
  change (Py.strip (Views.get_or (Views.particular_key i "amount") data EmptyString))
    with (row_amount data i).
  change (Py.truthy (row_description data i) && Py.truthy (row_amount data i))
    with (row_complete data i).
  destruct (row_present data i) eqn:Hc.
  2:{ intros H. inversion H; subst. exists i, [].
      rewrite Nat.sub_diag, app_nil_r.
      split; [lia|]. split; [intros j Hj; lia|]. split; [assumption|].
      split; [reflexivity | constructor]. }
  assert (Hstep : forall n, (i + 1 <= n)%nat ->
                            seq i (n - i) = i :: seq (i + 1) (n - (i + 1))).
  { intros n Hn. replace (n - i)%nat with (S (n - (i + 1))) by lia.
    cbn [seq]. now rewrite Nat.add_1_r. }
  assert (Hpres : forall n, (forall j, (i + 1 <= j < n)%nat -> row_present data j = true) ->
                            forall j, (i <= j < n)%nat -> row_present data j = true).
  { intros n Hn j Hj. destruct (Nat.eq_dec j i) as [->|Hne]; [assumption|].
    apply Hn. lia. }
  destruct (row_complete data i) eqn:Hrc.
  - destruct (Decimal_of_string (row_amount data i)) as [amount|] eqn:Ed; [|discriminate].
    destruct (Py.le_zero amount) as [[|]|]; try discriminate.
    intros H. apply IH in H.
    destruct H as (n & items & Hle & Hp & Hend & -> & HF).
    exists n, (Serializers.mkParticularData (row_description data i) amount
                 (Views.get (Views.particular_key i "attachment") files) :: items).
    split; [lia|]. split; [now apply Hpres|]. split; [assumption|].
    split; [now rewrite <- app_assoc|].
    rewrite (Hstep n Hle). cbn [filter]. rewrite Hrc.
    constructor; [cbn; auto | exact HF].
  - intros H. apply IH in H.
    destruct H as (n & items & Hle & Hp & Hend & -> & HF).
    exists n, items.
    split; [lia|]. split; [now apply Hpres|]. split; [assumption|].
    split; [reflexivity|].
    rewrite (Hstep n Hle). cbn [filter]. rewrite Hrc. exact HF.
Qed.

(** Rows without a description or without an amount are passed over. *)
Lemma build_particulars_skips data files n :
  row_present data n = false ->
  forall fuel i acc,
    (i <= n)%nat -> (n - i < fuel)%nat ->
    (forall j, (i <= j < n)%nat -> row_present data j = true) ->
    (forall j, (i <= j < n)%nat -> row_complete data j = false) ->
    Views.build_particulars fuel data files i acc = Some (inr acc).
Proof.
  intros Hend. induction fuel as [|fuel IH]; intros i acc Hle Hfuel Hpres Hinc; [lia|].
  cbn [Views.build_particulars].
  change (Views.contains (Views.particular_key i "description") data)
    with (row_present data i).
  change (Py.truthy
            (Py.strip (Views.get_or (Views.particular_key i "description") data EmptyString))
          && Py.truthy
               (Py.strip (Views.get_or (Views.particular_key i "amount") data EmptyString)))
    with (row_complete data i).
  destruct (Nat.eq_dec i n) as [->|Hne].
  - now rewrite Hend.
  - rewrite (Hpres i) by lia. rewrite (Hinc i) by lia.
    apply IH; try lia; intros j Hj; [apply Hpres | apply Hinc]; lia.
Qed.

Lemma Forall2_chain {A B C} (P : A -> B -> Prop) (Q : B -> C -> Prop)
      (S : A -> C -> Prop) l1 :
  (forall a b c, P a b -> Q b c -> S a c) ->
  forall l2 l3, Forall2 P l1 l2 -> Forall2 Q l2 l3 -> Forall2 S l1 l3.
Proof.
  intros H. induction l1 as [|a l1 IH]; intros l2 l3 H1 H2;
    inversion H1; subst; inversion H2; subst; constructor; eauto.
Qed.

(** X7.  The voucher a submission creates mirrors the form: date, payment
    type, title and payee are the submitted ones (the payee trimmed, not
    empty, at most 200 characters; type and title among the choices), it
    belongs to the submitting accountant, is stamped with the time of the
    request, is PENDING, and its key is greater than every key in the
    table.  The tables of users, groups, designations, profiles,
    activations and approvals are as before. *)
Theorem X7_created_voucher_mirrors_the_form :
  forall (db : Db) (now : Z) (request : Views.CreateRequest) (body : Json) (db' : Db),
    Views.VoucherCreateAPI_post db now request = Some (JsonResponse body 201, db') ->
    let data := Views.req_POST request in
    exists u voucher,
      Views.req_user request = Some u
      /\ Views.in_group db u "Accountants" = true
      /\ vouchers db' = vouchers db ++ [voucher]
      /\ same_but_submission db db'
      /\ Voucher.created_by voucher = User.id u
      /\ Voucher.created_at voucher = now
      /\ Voucher.status voucher = "PENDING"
      /\ (forall w, In w (vouchers db) -> Voucher.id w < Voucher.id voucher)
      /\ (exists text, Views.get "voucher_date" data = Some text
                       /\ parse_date text = Some (Voucher.voucher_date voucher))
      /\ Views.get "payment_type" data = Some (Voucher.payment_type voucher)
      /\ In (Voucher.payment_type voucher) ["CASH"; "CHEQUE"; "PETTY_CASH"]
      /\ Views.get "name_title" data = Some (Voucher.name_title voucher)
      /\ In (Voucher.name_title voucher) ["MR"; "MRS"; "MS"]
      /\ (exists raw, Views.get "pay_to" data = Some raw
                      /\ Voucher.pay_to voucher = Py.strip raw
                      /\ Voucher.pay_to voucher <> EmptyString
                      /\ (String.length (Voucher.pay_to voucher) <= 200)%nat).
Proof.
  intros db now request body db' Hpost data.
  pose proof Hpost as Hc. apply post_created in Hc.
  destruct Hc as (u & ps & att & validated & voucher & Hu & Hg & Hloop & Hne & Hatt & Hv & Hc).
  pose proof (create_spec _ _ _ _ _ _ Hc) as (Hvs & Hpt & _ & Hst & Hid & _).
  pose proof (create_record _ _ _ _ _ _ Hc) as (Hd & Hnt & Hpay & _ & Hby & Hat & Hfr & _).
  apply is_valid_fields in Hv. cbn in Hv.
  destruct Hv as (Fd & Fpt & Fnt & Fpay & _ & _).
  exists u, voucher.
  do 7 (split; [assumption|]).
  split.
  { intros w Hw. rewrite Hid. apply next_id_fresh. now apply in_map. }
  split.
  { rewrite Hd. now apply DateField_inr. }
  rewrite Hpt, Hnt, Hpay.
  split; [now apply ChoiceField_inr in Fpt|].
  split; [now apply ChoiceField_In in Fpt|].
  split; [now apply ChoiceField_inr in Fnt|].
  split; [now apply ChoiceField_In in Fnt|].
  pose proof (CharField_inr _ _ _ Fpay) as (raw & Eraw & Estrip & Htruthy).
  exists raw. split; [assumption|]. split; [assumption|]. split.
  - intros E. rewrite E in Htruthy. discriminate.
  - unfold Serializers.CharField in Fpay. rewrite Eraw in Fpay.
    now apply CharField_text_length in Fpay.
Qed.

(** X8.  The main attachment: a voucher is created only with a file that
    has a name, is not empty, is at most 5 MB and carries one of the
    allowed extensions (compared in lower case); the file goes to the
    storage, and the voucher holds the name the storage answered for it in
    vouchers/attachments/ given the files stored before.  An accountant's
    submission whose file fails one of these tests, or that has no file, is
    answered 400 and writes nothing. *)
Theorem X8_main_attachment_rule :
  forall (db : Db) (now : Z) (request : Views.CreateRequest)
         (response : Response) (db' : Db),
    Views.VoucherCreateAPI_post db now request = Some (response, db') ->
    (forall body,
        response = JsonResponse body 201 ->
        exists att voucher,
          Views.get "attachment" (Views.req_FILES request) = Some att
          /\ attachment_ok att = true
          /\ vouchers db' = vouchers db ++ [voucher]
          /\ Voucher.attachment voucher
             = Some (storage_save (media db) "vouchers/attachments/" (file_name att))
          /\ In (storage_save (media db) "vouchers/attachments/" (file_name att))
                (media db'))
    /\ (forall u,
          Views.req_user request = Some u ->
          Views.in_group db u "Accountants" = true ->
          match Views.get "attachment" (Views.req_FILES request) with
          | Some att => attachment_ok att = false
          | None => True
          end ->
          exists body, response = JsonResponse body 400 /\ db' = db).
Proof.
  intros db now request response db' Hpost. split.
  - intros body ->. apply post_created in Hpost.
    destruct Hpost as (u & ps & att & validated & voucher & _ & _ & _ & _ & Hatt & Hv & Hc).
    pose proof (create_spec _ _ _ _ _ _ Hc) as (Hvs & _).
    apply create_record in Hc.
    destruct Hc as (_ & _ & _ & Hfile & _ & _ & _ & Hmedia & _).
    apply is_valid_fields in Hv. cbn in Hv. destruct Hv as (_ & _ & _ & _ & Fatt & _).
    pose proof (attachment_field_spec att) as Hspec.
    destruct (attachment_ok att) eqn:Hok.
    + rewrite Hspec in Fatt. inversion Fatt as [Eatt]. rewrite <- Eatt in Hfile, Hmedia.
      exists att, voucher. auto 10.
    + destruct Hspec as (msgs & Hspec). rewrite Hspec in Fatt. discriminate.
  - intros u Hu Hg Hbad. revert Hpost.
    unfold Views.VoucherCreateAPI_post. rewrite Hu, Hg. cbn [negb].
    destruct (Views.build_particulars _ _ _ _ _) as [[resp|ps]|] eqn:Hloop;
      [| |discriminate].
    { apply build_particulars_response in Hloop. destruct Hloop as (m & ->).
      intros H. inversion H. unfold Views.bad_request. eauto. }
    destruct ps as [|p0 ps];
      [intros H; inversion H; unfold Views.bad_request; eauto|].
    destruct (Views.get "attachment" _) as [att|];
      [|intros H; inversion H; unfold Views.bad_request; eauto].
    destruct (Serializers.is_valid _) as [e|[errs|validated]] eqn:Hvalid.
    + now apply serializer_data_no_raise in Hvalid.
    + intros H. inversion H. eauto.
    + exfalso. pose proof (attachment_field_spec att) as Hspec. rewrite Hbad in Hspec.
      destruct Hspec as (msgs & Hspec).
      eapply (is_valid_attachment_refused _ msgs); [|exact Hvalid]. exact Hspec.
Qed.

(** X9.  The particulars stored for a created voucher are, in order, the
    rows of the form that have both a description and an amount: each
    carries the trimmed description (at most 300 characters), the amount
    read as a positive decimal and written with two places, and the key of
    the new voucher; a row with a file holds the name the storage answered
    for it in vouchers/particulars/ and the file is stored, a row without
    one holds no file. *)
Theorem X9_stored_particulars_are_the_complete_rows :
  forall (db : Db) (now : Z) (request : Views.CreateRequest) (body : Json) (db' : Db),
    Views.VoucherCreateAPI_post db now request = Some (JsonResponse body 201, db') ->
    let data := Views.req_POST request in
    exists voucher rows n,
      vouchers db' = vouchers db ++ [voucher]
      /\ particulars db' = particulars db ++ rows
      /\ rows_end data n
      /\ Forall2 (stored_row db db' data (Views.req_FILES request) (Voucher.id voucher))
                 (complete_rows data n) rows.
Proof.
  intros db now request body db' Hpost data.
  apply post_created in Hpost.
  destruct Hpost as (u & ps & att & validated & voucher & _ & _ & Hloop & _ & _ & Hv & Hc).
  pose proof (create_spec _ _ _ _ _ _ Hc) as (Hvs & _).
  apply create_record in Hc.
  destruct Hc as (_ & _ & _ & _ & _ & _ & _ & _ & rows & Hrows & Hstored).
  apply is_valid_fields in Hv. cbn in Hv. destruct Hv as (_ & _ & _ & _ & _ & Fps).
  apply particulars_field_all in Fps.
  apply build_particulars_gathers in Hloop.
  destruct Hloop as (n & items & _ & Hpres & Hend & Eps & Hgath).
  simpl in Eps. subst ps. rewrite Nat.sub_0_r in Hgath. fold data in Hgath, Hpres, Hend.
  exists voucher, rows, n.
  split; [assumption|]. split; [assumption|]. split.
  { split; [|assumption]. intros j Hj. apply Hpres. lia. }
  unfold complete_rows.
  refine (Forall2_chain _ _ _ _ _ _ _
            (Forall2_chain _ _ (fun j v =>
               Serializers.pd_description v = row_description data j
               /\ (String.length (Serializers.pd_description v) <= 300)%nat
               /\ stored_amount (row_amount data j) (Serializers.pd_amount v)
               /\ Serializers.pd_attachment v
                  = Views.get (Views.particular_key j "attachment") (Views.req_FILES request))
               _ _ _ _ Hgath Fps)
            Hstored).
  - intros j v p (Hd & Hlen & Ha & Hf) (Hpk & Hpd & Hpa & Hpf).
    unfold stored_row. rewrite Hpd, Hpa, <- Hf. auto.
  - intros j item v (Hd & Ha & Hf) Hval.
    apply validate_particular_value in Hval.
    destruct Hval as (Vd & Vlen & (c & e & Ec & Hc & He & Va) & Vf).
    split.
    { rewrite Vd, Hd. unfold row_description. apply strip_idem. }
    split; [assumption|].
    split; [|congruence].
    exists c, e. rewrite Ha, Ec. auto.
Qed.

(** X10.  A form none of whose rows has both a description and an amount
    gives no voucher: an accountant gets the answer 400 'At least one
    particular is required.' and nothing is written. *)
Theorem X10_no_complete_row_no_voucher :
  forall (db : Db) (now : Z) (request : Views.CreateRequest) (u : User.t) (n : nat),
    Views.req_user request = Some u ->
    Views.in_group db u "Accountants" = true ->
    rows_end (Views.req_POST request) n ->
    (forall j, (j < n)%nat -> row_complete (Views.req_POST request) j = false) ->
    Views.VoucherCreateAPI_post db now request
    = Some (Views.bad_request "particulars" "At least one particular is required.", db).
Proof.
  intros db now request u n Hu Hg [Hpres Hend] Hinc.
  unfold Views.VoucherCreateAPI_post. rewrite Hu, Hg. cbn [negb].
  rewrite (build_particulars_skips _ _ n Hend); [reflexivity | lia | | |].
  - destruct n as [|k]; [lia|].
    pose proof (rows_bound (Views.req_POST request) k) as Hb.
    assert (k < List.length (Views.req_POST request))%nat
      by (apply Hb; intros j Hj; apply Hpres; lia).
    lia.
  - intros j Hj. apply Hpres. lia.
  - intros j Hj. apply Hinc. lia.
Qed.

End StoredSubmission.

Section ReachableDatabases.

Context {R : Runtime}.

Lemma sequence_number_inj i j : sequence_number i = sequence_number j -> i = j.
Proof.
  intros H.
  pose (v := fun k => Voucher.mk 0 (sequence_number k) (mkDate 0 0 0) EmptyString
                        EmptyString EmptyString None None 0 0 EmptyString).
  pose proof (suffix_sequence (v i) i eq_refl) as Hi.
  pose proof (suffix_sequence (v j) j eq_refl) as Hj.
  unfold suffix, v in Hi, Hj. cbn [Voucher.voucher_number] in Hi, Hj.
  rewrite H in Hi. rewrite Hi in Hj. inversion Hj. lia.
Qed.

Lemma sorted_NoDup l : StronglySorted Z.lt l -> NoDup l.
Proof.
  induction 1 as [|a l Hs IH Hall]; constructor; [|assumption].
  intros Hin. rewrite Forall_forall in Hall. specialize (Hall a Hin). lia.
Qed.

Lemma numbered_NoDup vs :
  numbered_in_sequence vs ->
  NoDup (map Voucher.id vs) /\ NoDup (map Voucher.voucher_number vs).
Proof.
  intros [Hnum Hsort]. split; [now apply sorted_NoDup|].
  rewrite Hnum. apply Injective_map_NoDup; [|apply seq_NoDup].
  intros i j. apply sequence_number_inj.
Qed.

Lemma numbered_truthy vs v :
  numbered_in_sequence vs -> In v vs -> Py.truthy (Voucher.voucher_number v) = true.
Proof.
  intros [Hnum _] Hin.
  assert (H : In (Voucher.voucher_number v) (map Voucher.voucher_number vs))
    by now apply in_map.
  rewrite Hnum in H. apply in_map_iff in H. destruct H as (k & <- & _). reflexivity.
Qed.

(** In a sequence [create] runs to its end: the next number is free. *)
Lemma create_succeeds db now created_by validated :
  numbered_in_sequence (vouchers db) ->
  exists voucher db', Serializers.create db now created_by validated = inr (voucher, db').
Proof.
  intros Hseq. unfold Serializers.create, Models.save.
  destruct (assign_voucher_number_sequenced db
              (Voucher.mk 0 EmptyString (Serializers.vd_voucher_date validated)
                 (Serializers.vd_payment_type validated)
                 (Serializers.vd_name_title validated) (Serializers.vd_pay_to validated)
                 (Some (file_name (Serializers.vd_attachment validated)))
                 (Serializers.vd_cheque_number validated) created_by now "PENDING")
              Hseq eq_refl) as (self' & -> & Hnum & _).
  cbv zeta. cbn [Models.set_attachment Voucher.voucher_number].
  destruct (existsb _ _) eqn:Ex; [|eauto].
  exfalso. apply existsb_exists in Ex. destruct Ex as (w & Hw & E).
  apply String.eqb_eq in E. rewrite Hnum in E.
  destruct Hseq as [Hnums _].
  assert (H : In (Voucher.voucher_number w) (map Voucher.voucher_number (vouchers db)))
    by now apply in_map.
  rewrite Hnums, E in H. apply in_map_iff in H. destruct H as (k & Hk & Hin).
  apply sequence_number_inj in Hk. apply in_seq in Hin. lia.
Qed.

(** The status the recomputation writes is one of the three. *)
Lemma update_status_known db self self' db' :
  Models._update_status_if_all_approved db self = inr (self', db') ->
  forall w', In w' (vouchers db') -> status_known w' \/ In w' (vouchers db).
Proof.
  unfold Models._update_status_if_all_approved.
  destruct (Models.required_approvers db self).
  - intros H. inversion H. auto.
  - cbv zeta. set (st0 := if existsb _ _ then _ else _).
    assert (Hst : In (Voucher.status st0) ["PENDING"; "APPROVED"; "REJECTED"]).
    { subst st0. destruct (existsb _ _); [|destruct (Nat.eqb _ _)]; cbn; auto. }
    intros H. apply save_status_spec in H. destruct H as (_ & _ & ->).
    cbn [vouchers Models.set_vouchers]. intros w' Hw'.
    apply in_map_iff in Hw'. destruct Hw' as (w & <- & Hw).
    destruct (Voucher.id w =? Voucher.id st0); [left; exact Hst | now right].
Qed.

Lemma approval_post_known db now user fld pk response db' :
  Views.VoucherApprovalAPI_post db now user fld pk = (response, db') ->
  forall w', In w' (vouchers db') -> status_known w' \/ In w' (vouchers db).
Proof.
  intros Hpost w' Hw'.
  destruct response as [t| |body code|e];
    try (rewrite (approval_post_not_ok _ _ _ _ _ _ _ Hpost) in Hw' by discriminate;
         now right).
  destruct (Z.eq_dec code 200) as [->|Hne].
  2:{ rewrite (approval_post_not_ok _ _ _ _ _ _ _ Hpost) in Hw'; [now right|].
      intros b E. inversion E. contradiction. }
  apply approval_post_ok in Hpost.
  destruct Hpost as (u & v & d & a & c & db1 & v' & _ & _ & _ & _ & _ & Hup & Hrec).
  apply approval_update_or_create_spec in Hup. destruct Hup as ((l & ->) & _).
  exact (update_status_known _ _ _ _ Hrec w' Hw').
Qed.

Lemma reachable_known db : reachable db -> Forall status_known (vouchers db).
Proof.
  induction 1 as [db Hnil
                 | db now request response db' _ IH Hpost
                 | db now user fld pk response db' _ IH Hpost
                 | db now user fld response db' _ IH Hpost
                 | db now user fld response db' _ IH Hpost].
  - rewrite Hnil. constructor.
  - apply post_vouchers in Hpost.
    destruct Hpost as [->|(u & validated & voucher & Hc)]; [assumption|].
    apply create_spec in Hc. destruct Hc as (-> & _ & _ & Hst & _).
    apply Forall_app. split; [assumption|]. constructor; [|constructor].
    unfold status_known. rewrite Hst. cbn. auto.
  - apply Forall_forall. intros w' Hw'.
    destruct (approval_post_known _ _ _ _ _ _ _ Hpost w' Hw') as [Hk|Hin]; [assumption|].
    rewrite Forall_forall in IH. now apply IH.
  - apply control_post_vouchers in Hpost. now rewrite Hpost.
  - apply designation_post_vouchers in Hpost. now rewrite Hpost.
Qed.

(** X11.  In every database the views lead to, each voucher is PENDING,
    APPROVED or REJECTED, no two vouchers share a key and no two share a
    number. *)
Theorem X11_reachable_vouchers_are_well_formed :
  forall db : Db,
    reachable db ->
    Forall status_known (vouchers db)
    /\ NoDup (map Voucher.id (vouchers db))
    /\ NoDup (map Voucher.voucher_number (vouchers db)).
Proof.
  intros db Hreach. split; [now apply reachable_known|].
  apply numbered_NoDup. now apply reachable_numbered.
Qed.

(** X12.  In every database the views lead to, a submission ends with an
    answer: the number computed for the new voucher parses and is free, so
    neither [ValueError] nor [IntegrityError] escapes, and the serializer
    raises nothing on the data the view hands it. *)
Theorem X12_submission_never_raises :
  forall (db : Db) (now : Z) (request : Views.CreateRequest)
         (response : Response) (db' : Db),
    reachable db ->
    Views.VoucherCreateAPI_post db now request = Some (response, db') ->
    forall e, response <> Raised e.
Proof.
  intros db now request response db' Hreach Hpost e.
  apply reachable_numbered in Hreach. revert Hpost.
  unfold Views.VoucherCreateAPI_post.
  destruct (Views.req_user request) as [u|]; [|intros H; inversion H; discriminate].
  destruct (negb (Views.in_group db u "Accountants")); [intros H; inversion H; discriminate|].
  destruct (Views.build_particulars _ _ _ _ _) as [[resp|ps]|] eqn:Hloop; [| |discriminate].
  { apply build_particulars_response in Hloop. destruct Hloop as (m & ->).
    intros H. inversion H. unfold Views.bad_request. discriminate. }
  destruct ps as [|p0 ps]; [intros H; inversion H; unfold Views.bad_request; discriminate|].
  destruct (Views.get "attachment" _) as [att|];
    [|intros H; inversion H; unfold Views.bad_request; discriminate].
  destruct (Serializers.is_valid _) as [e'|[errs|validated]] eqn:Hvalid.
  - now apply serializer_data_no_raise in Hvalid.
  - intros H. inversion H. discriminate.
  - destruct (create_succeeds db now (User.id u) validated Hreach) as (v & db1 & ->).
    intros H. inversion H. discriminate.
Qed.

Lemma decision_on_mapping_never_raises db now user fld pk response db' :
  reachable db ->
  approvals_unique db ->
  Views.VoucherApprovalAPI_post db now user fld pk = (response, db') ->
  forall e, response <> Raised e.
Proof.
  intros Hreach Hu Hpost e.
  apply reachable_numbered in Hreach. revert Hpost.
  unfold Views.VoucherApprovalAPI_post, Views.AdminStaffRequiredMixin.
  destruct user as [u|]; [|intros H; inversion H; discriminate].
  destruct (negb _); [intros H; inversion H; discriminate|].
  destruct (Views.get_voucher db pk) as [voucher|] eqn:Hget;
    [|intros H; inversion H; discriminate].
  destruct (Views.decision_of fld) as [choice|]; [|intros H; inversion H; discriminate].
  destruct (negb (mem_string _ _)); [intros H; inversion H; discriminate|].
  destruct (approval_update_or_create_unique db now (Voucher.id voucher) (User.id u)
              choice Hu) as (a & created & db1 & Hup & _).
  rewrite Hup.
  apply approval_update_or_create_spec in Hup. destruct Hup as ((l & ->) & _).
  assert (Hrec : exists v' db2,
             Models._update_status_if_all_approved (Models.set_approvals db l) voucher
             = inr (v', db2)).
  { unfold Models._update_status_if_all_approved.
    destruct (Models.required_approvers _ voucher); [eauto|].
    cbv zeta. set (st0 := if existsb _ _ then _ else _).
    assert (Eid : Voucher.id st0 = Voucher.id voucher)
      by (subst st0; destruct (existsb _ _); [|destruct (Nat.eqb _ _)]; reflexivity).
    assert (Enum : Voucher.voucher_number st0 = Voucher.voucher_number voucher)
      by (subst st0; destruct (existsb _ _); [|destruct (Nat.eqb _ _)]; reflexivity).
    unfold Models.save_status, Models.assign_voucher_number.
    rewrite Enum, (numbered_truthy _ _ Hreach (get_voucher_In _ _ _ Hget)).
    cbn [negb vouchers Models.set_approvals].
    assert (Ex : existsb (fun v => Voucher.id v =? Voucher.id st0) (vouchers db) = true).
    { apply existsb_exists. exists voucher. split; [now apply get_voucher_In in Hget|].
      rewrite Eid. apply Z.eqb_refl. }
    rewrite Ex. eauto. }
  destruct Hrec as (v' & db2 & ->).
  intros H. inversion H. discriminate.
Qed.

(** X13.  In every database the views lead to that has at most one
    approval per (voucher, approver) pair, the only exception that escapes
    a decision request is the [AttributeError] of [request.data.get] on a
    body that is not an object: it takes an Admin-Staff user or superuser
    and an existing voucher, and it writes nothing.  A request with a form
    or a JSON object always ends with an answer. *)
Theorem X13_decision_raises_only_without_a_mapping :
  forall (db : Db) (now : Z) (user : option User.t) (data : Views.RequestData) (pk : Z)
         (response : Response) (db' : Db),
    reachable db ->
    approvals_unique db ->
    Views.VoucherApprovalAPI_request db now user data pk = (response, db') ->
    (forall e, response = Raised e ->
               data = Views.NotMapping /\ e = AttributeError /\ db' = db
               /\ exists u v,
                   user = Some u
                   /\ (Views.in_group db u "Admin Staff" || User.is_superuser u) = true
                   /\ Views.get_voucher db pk = Some v)
    /\ (forall u v,
          data = Views.NotMapping ->
          user = Some u ->
          (Views.in_group db u "Admin Staff" || User.is_superuser u) = true ->
          Views.get_voucher db pk = Some v ->
          response = Raised AttributeError).
Proof.
  intros db now user data pk response db' Hreach Hu Hreq.
  destruct data as [fld|]; cbn [Views.VoucherApprovalAPI_request] in Hreq.
  - split; [|discriminate].
    intros e ->.
    now elim (decision_on_mapping_never_raises _ _ _ _ _ _ _ Hreach Hu Hreq e).
  - unfold Views.AdminStaffRequiredMixin in Hreq. split.
    + intros e ->. destruct user as [u|]; [|discriminate].
      destruct (Views.in_group db u "Admin Staff" || User.is_superuser u) eqn:Hg;
        cbn [negb] in Hreq; [|discriminate].
      destruct (Views.get_voucher db pk) as [v|] eqn:Hget; [|discriminate].
      inversion Hreq; subst. split; [reflexivity|]. split; [reflexivity|].
      split; [reflexivity|]. exists u, v. auto.
    + intros u v _ -> Hg Hget. rewrite Hg, Hget in Hreq. cbn [negb] in Hreq.
      now inversion Hreq.
Qed.

End ReachableDatabases.

Section Pages.

Lemma count_when_left_join db v s :
  Views.count_when s (Views.approvals_left_join db v)
  = List.length (filter (fun a => String.eqb (VoucherApproval.status a) s)
                        (Models.approvals_of db (Voucher.id v))).
Proof.
  unfold Views.count_when, Views.approvals_left_join.
  destruct (Models.approvals_of db (Voucher.id v)) as [|a l]; [reflexivity|].
  generalize (a :: l). intros rows.
  induction rows as [|r rows IH]; [reflexivity|]. cbn [map filter].
  destruct (String.eqb (VoucherApproval.status r) s); cbn [List.length]; now rewrite IH.
Qed.

Lemma disjoint_counts {A} (p q : A -> bool) l :
  (forall x, p x = true -> q x = false) ->
  (List.length (filter p l) + List.length (filter q l) <= List.length l)%nat.
Proof.
  intros H. induction l as [|a l IH]; cbn [filter List.length]; [lia|].
  destruct (p a) eqn:Ep.
  - rewrite (H a Ep). cbn [List.length]. lia.
  - destruct (q a); cbn [List.length]; lia.
Qed.

(** X14.  The list page: an accountant is shown the vouchers they created
    and no others, any other user all vouchers; and the two annotations of
    each voucher are the numbers of its APPROVED and of its REJECTED
    approvals, as [get_approved_count] and [get_rejected_count] of the
    serializer give them (the row of NULLs of the outer join is not
    counted), together not more than its approvals. *)
Theorem X14_list_page_vouchers_and_counts :
  forall (db : Db) (user : User.t),
    (forall v,
        In v (map Views.av_voucher (Views.VoucherListView_get_queryset db user))
        <-> In v (vouchers db)
            /\ (Views.in_group db user "Accountants" = true ->
                Voucher.created_by v = User.id user))
    /\ (forall av,
           In av (Views.VoucherListView_get_queryset db user) ->
           Views.av_approved_count av
           = Serializers.get_approved_count db (Views.av_voucher av)
           /\ Views.av_rejected_count av
              = Serializers.get_rejected_count db (Views.av_voucher av)
           /\ (Views.av_approved_count av + Views.av_rejected_count av
               <= List.length (Models.approvals_of db (Voucher.id (Views.av_voucher av))))%nat).
Proof.
  intros db user. unfold Views.VoucherListView_get_queryset. split.
  - intros v. rewrite map_map. cbn [Views.annotate Views.av_voucher]. rewrite map_id.
    destruct (Views.in_group db user "Accountants").
    + rewrite filter_In, Z.eqb_eq. tauto.
    + split; [intros H; split; [assumption | discriminate] | tauto].
  - intros av Hav. apply in_map_iff in Hav. destruct Hav as (v & <- & _).
    cbn [Views.annotate Views.av_voucher Views.av_approved_count Views.av_rejected_count].
    rewrite !count_when_left_join.
    split; [reflexivity|]. split; [reflexivity|].
    apply disjoint_counts. intros a Ha. apply String.eqb_eq in Ha. now rewrite Ha.
Qed.

Lemma In_approved_usernames db v name :
  In name (Views.approved_usernames db v) <->
  exists a u, In a (approvals db) /\ VoucherApproval.voucher a = Voucher.id v
              /\ VoucherApproval.status a = "APPROVED"
              /\ In u (users db) /\ User.id u = VoucherApproval.approver a
              /\ User.username u = name.
Proof.
  unfold Views.approved_usernames, Models.approvals_of. rewrite in_flat_map. split.
  - intros (a & Ha & Hin). apply filter_In in Ha. destruct Ha as [Ha Hv].
    apply Z.eqb_eq in Hv.
    destruct (String.eqb (VoucherApproval.status a) "APPROVED") eqn:Es; [|contradiction].
    apply String.eqb_eq in Es. apply in_map_iff in Hin. destruct Hin as (u & Eu & Hu).
    apply filter_In in Hu. destruct Hu as [Hu Hid]. apply Z.eqb_eq in Hid.
    exists a, u. auto 10.
  - intros (a & u & Ha & Hv & Es & Hu & Hid & Eu). exists a. split.
    + apply filter_In. split; [assumption | now apply Z.eqb_eq].
    + rewrite Es. cbn. apply in_map_iff. exists u. split; [assumption|].
      apply filter_In. split; [assumption | now apply Z.eqb_eq].
Qed.

(** X15.  The pending-approvers entry of the list and detail pages names
    each eligible approver (an Admin-Staff user whose designation is
    active) exactly once and nobody else; the flag of a name is set exactly
    when the voucher has an APPROVED approval by a user of that name. *)
Theorem X15_pending_approvers_entry :
  forall (db : Db) (v : Voucher.t),
    NoDup (map fst (Views.pending_approvers db v))
    /\ (forall name,
           In name (map fst (Views.pending_approvers db v)) <-> eligible_approver db name)
    /\ (forall name flag,
           In (name, flag) (Views.pending_approvers db v) ->
           (flag = true <->
            exists a u, In a (approvals db) /\ VoucherApproval.voucher a = Voucher.id v
                        /\ VoucherApproval.status a = "APPROVED"
                        /\ In u (users db) /\ User.id u = VoucherApproval.approver a
                        /\ User.username u = name)).
Proof.
  intros db v. unfold Views.pending_approvers.
  assert (Hfst : forall l : list string,
             map fst (map (fun name =>
                             (name, mem_string name (Views.approved_usernames db v))) l)
             = l).
  { intros l. rewrite map_map. cbn [fst]. apply map_id. }
  rewrite Hfst. split; [apply NoDup_nodup|]. split.
  - intros name. rewrite nodup_In. apply required_approvers_eligible.
  - intros name flag Hin. apply in_map_iff in Hin. destruct Hin as (n & E & _).
    inversion E; subst. rewrite mem_string_In. apply In_approved_usernames.
Qed.

Lemma filter_filter {A} (p q : A -> bool) l :
  filter p (filter q l) = filter (fun x => q x && p x) l.
Proof.
  induction l as [|a l IH]; cbn [filter]; [reflexivity|].
  destruct (q a); cbn [filter andb]; [destruct (p a)|]; now rewrite IH.
Qed.

(** X16.  After a decision answered 200, the pages show it: the deciding
    user's own approval of the voucher is the row just written, with the
    decision as its status, and the pending-approvers entry lists the user
    with the flag set exactly when the decision was APPROVED. *)
Theorem X16_pages_show_the_decision :
  forall (db : Db) (now : Z) (u : User.t) (fld : Field) (pk : Z) (body : Json)
         (db' : Db) (v' : Voucher.t),
    NoDup (map User.username (users db)) ->
    In u (users db) ->
    Views.VoucherApprovalAPI_post db now (Some u) fld pk = (JsonResponse body 200, db') ->
    Views.get_voucher db' pk = Some v' ->
    exists decision a,
      Views.decision_of fld = Some decision
      /\ Views.user_approval db' v' u = inr (Some a)
      /\ VoucherApproval.status a = decision
      /\ In (User.username u, String.eqb decision "APPROVED")
            (Views.pending_approvers db' v').
Proof.
  intros db now u fld pk body db' v' Hnames Hu Hpost Hget'.
  destruct (approval_post_ok _ _ _ _ _ _ _ Hpost)
    as (u0 & voucher & decision & a & c & db1 & voucher' & Eu & _ & Hget & Hdec
        & Hreq & Hup & Hrec).
  inversion Eu; subst u0. clear Eu.
  pose proof (get_voucher_id _ _ _ Hget) as Epk.
  pose proof (get_voucher_id _ _ _ Hget') as Epk'.
  pose proof (approval_update_or_create_spec _ _ _ _ _ _ _ _ Hup)
    as ((l & Edb1) & Hpair & Hst & Hv & Hap & _).
  pose proof (update_status_keeps_approvals _ _ _ _ Hrec) as Ea.
  assert (Husers : users db' = users db).
  { destruct (update_status_writes _ _ _ _ Hrec) as [-> | (st & ->)];
      rewrite Edb1; reflexivity. }
  assert (Hreq' : Models.required_approvers db' v' = Models.required_approvers db voucher).
  { apply required_approvers_frame;
      destruct (update_status_writes _ _ _ _ Hrec) as [-> | (st & ->)];
      rewrite Edb1; reflexivity. }
  assert (Hmine : filter (fun x => VoucherApproval.approver x =? User.id u)
                         (Models.approvals_of db' (Voucher.id v')) = [a]).
  { unfold Models.approvals_of. rewrite filter_filter, Ea, Epk'. exact Hpair. }
  exists decision, a.
  split; [assumption|]. split.
  { unfold Views.user_approval. now rewrite Hmine. }
  split; [assumption|].
  unfold Views.pending_approvers. apply in_map_iff. exists (User.username u).
  split; [|rewrite nodup_In, Hreq'; exact Hreq].
  f_equal.
  assert (Ha_in : In a (approvals db')).
  { assert (H : In a (filter (fun x => VoucherApproval.approver x =? User.id u)
                             (Models.approvals_of db' (Voucher.id v'))))
      by (rewrite Hmine; now left).
    apply filter_In in H. destruct H as [H _].
    unfold Models.approvals_of in H. now apply filter_In in H. }
  destruct (String.eqb decision "APPROVED") eqn:Ed.
  - apply String.eqb_eq in Ed. apply mem_string_In, In_approved_usernames.
    exists a, u. rewrite Husers, Epk'. repeat split; auto; congruence.
  - destruct (mem_string _ _) eqn:Em; [|reflexivity].
    exfalso. apply mem_string_In, In_approved_usernames in Em.
    destruct Em as (a' & u' & Ha' & Hv' & Hs' & Hu' & Hid' & Hname').
    rewrite Husers in Hu'.
    assert (u' = u) by (eapply NoDup_map_In_inj; eauto). subst u'.
    assert (Hin : In a' (filter (fun x => VoucherApproval.approver x =? User.id u)
                                (Models.approvals_of db' (Voucher.id v')))).
    { apply filter_In. split; [|apply Z.eqb_eq; congruence].
      unfold Models.approvals_of. apply filter_In. split; [assumption|].
      now apply Z.eqb_eq. }
    rewrite Hmine in Hin. destruct Hin as [<-|[]].
    rewrite Hst in Hs'. rewrite Hs' in Ed. discriminate.
Qed.

End Pages.

Section TemplateFilters.

Lemma int_str z : Py.int (Py.str z) = Some z.
Proof.
  unfold Py.str. destruct z as [|p|p].
  - reflexivity.
  - change (Z.to_int (Z.pos p)) with (Decimal.Pos (N.to_uint (N.pos p))).
    cbn [NilEmpty.string_of_int].
    exact (int_zfill 0 (N.pos p)).
  - change (Z.to_int (Z.neg p)) with (Decimal.Neg (N.to_uint (N.pos p))).
    cbn [NilEmpty.string_of_int].
    set (ds := NilEmpty.string_of_uint (N.to_uint (N.pos p))).
    assert (Hd : Py.forallb_string Py.isdecimal_char ds = true)
      by apply string_of_uint_digits.
    assert (Ht : Py.truthy ds = true) by apply to_uint_truthy.
    pose proof (int_zfill 0 (N.pos p)) as Hint.
    unfold Py.zfill in Hint. cbn [Nat.sub Py.zeros append] in Hint. fold ds in Hint.
    unfold Py.int in *. rewrite (digits_strip_int _ Hd) in Hint.
    assert (Hs : Py.strip_int (String "-" ds) = String "-" ds).
    { unfold Py.strip_int. cbn [Py.lstrip_int]. change (Py.isspace_int "-") with false.
      cbv iota. rewrite rstrip_int_cons, (digits_rstrip_int _ Hd).
      destruct ds; [discriminate | reflexivity]. }
    rewrite Hs. change (Ascii.eqb "-" "+") with false. change (Ascii.eqb "-" "-") with true.
    cbv iota.
    destruct ds as [|c r] eqn:E; [discriminate|].
    pose proof Hd as Hd'. cbn [Py.forallb_string] in Hd'. apply andb_true_iff in Hd'.
    destruct Hd' as [Hc _]. apply isdecimal_char_facts in Hc.
    destruct Hc as (_ & Hplus & Hminus & _). rewrite Hplus, Hminus in Hint.
    rewrite Hint. reflexivity.
Qed.

Lemma int_limited_str z :
  (Py.count_digits (Py.str z) <= Py.int_max_str_digits)%nat ->
  Py.int_limited (Py.str z) = Some z.
Proof.
  intros H. unfold Py.int_limited.
  apply Nat.ltb_ge in H. rewrite H. apply int_str.
Qed.

(** X17.  The template filter [sub]: on two integers, each given as a
    number or as its decimal text of at most 4300 digits, it is their
    difference; swapping the arguments changes the sign; and an argument
    that [int] refuses gives 0. *)
Theorem X17_sub_filter :
  (forall (x y : Scalar) (a b : Z),
      reads_as x a -> reads_as y b -> Templatetags.sub x y = a - b)
  /\ (forall x y, Templatetags.sub x y = - Templatetags.sub y x)
  /\ (forall x y,
         Templatetags.int_of x = None \/ Templatetags.int_of y = None ->
         Templatetags.sub x y = 0).
Proof.
  split; [|split].
  - intros x y a b Hx Hy.
    assert (Ex : Templatetags.int_of x = Some a)
      by (destruct Hx as [-> | [-> Hx]]; [reflexivity | now apply int_limited_str]).
    assert (Ey : Templatetags.int_of y = Some b)
      by (destruct Hy as [-> | [-> Hy]]; [reflexivity | now apply int_limited_str]).
    unfold Templatetags.sub. now rewrite Ex, Ey.
  - intros x y. unfold Templatetags.sub.
    destruct (Templatetags.int_of x), (Templatetags.int_of y); lia.
  - intros x y [H | H]; unfold Templatetags.sub; rewrite H;
      [reflexivity | now destruct (Templatetags.int_of x)].
Qed.

End TemplateFilters.

Section Gates.

Context {R : Runtime}.

(** X18.  With at most one approval per (voucher, approver) pair, looking
    up the user's own approval for a page raises nothing: it gives the row
    of this user for this voucher when there is one, and nothing
    otherwise. *)
Theorem X18_own_approval_lookup :
  forall (db : Db) (v : Voucher.t) (u : User.t),
    approvals_unique db ->
    exists r,
      Views.user_approval db v u = inr r
      /\ forall a, r = Some a <->
                   In a (approvals db)
                   /\ VoucherApproval.voucher a = Voucher.id v
                   /\ VoucherApproval.approver a = User.id u.
Proof.
  intros db v u Hu. unfold Views.user_approval, Models.approvals_of.
  rewrite filter_filter.
  set (p := fun x : VoucherApproval.t =>
              (VoucherApproval.voucher x =? Voucher.id v)
              && (VoucherApproval.approver x =? User.id u)).
  assert (Hp : forall a, p a = true <->
                         VoucherApproval.voucher a = Voucher.id v
                         /\ VoucherApproval.approver a = User.id u).
  { intros a. unfold p. now rewrite andb_true_iff, !Z.eqb_eq. }
  assert (Hkey : forall a, p a = true ->
                           (VoucherApproval.voucher a, VoucherApproval.approver a)
                           = (Voucher.id v, User.id u)).
  { intros a Ha. apply Hp in Ha. destruct Ha as [-> ->]. reflexivity. }
  destruct (NoDup_filter_one _ p _ (approvals db) Hu Hkey) as [E | (a0 & E)]; rewrite E.
  - exists None. split; [reflexivity|]. intros a. split; [discriminate|].
    intros (Hin & Hv & Ha).
    assert (H : In a (filter p (approvals db)))
      by (apply filter_In; split; [assumption | now apply Hp]).
    rewrite E in H. contradiction.
  - exists (Some a0). split; [reflexivity|]. intros a. split.
    + intros H. inversion H; subst a0.
      assert (H0 : In a (filter p (approvals db))) by (rewrite E; now left).
      apply filter_In in H0. destruct H0 as [Hin Hpa]. apply Hp in Hpa. tauto.
    + intros (Hin & Hv & Ha).
      assert (H : In a (filter p (approvals db)))
        by (apply filter_In; split; [assumption | now apply Hp]).
      rewrite E in H. destruct H as [-> | []]. reflexivity.
Qed.

(** X19.  Nothing is written without the role: a submission that changes
    the database comes from an accountant, a decision from an Admin-Staff
    user or superuser who is a required approver of the voucher, a change
    of the activation table or a new designation from a superuser. *)
Theorem X19_writes_require_the_role :
  forall (db : Db) (now : Z),
    (forall request response db',
        Views.VoucherCreateAPI_post db now request = Some (response, db') ->
        db' <> db ->
        exists u, Views.req_user request = Some u
                  /\ Views.in_group db u "Accountants" = true)
    /\ (forall user fld pk response db',
           Views.VoucherApprovalAPI_post db now user fld pk = (response, db') ->
           db' <> db ->
           exists u v, user = Some u
                       /\ (Views.in_group db u "Admin Staff" || User.is_superuser u) = true
                       /\ Views.get_voucher db pk = Some v
                       /\ In (User.username u) (Models.required_approvers db v))
    /\ (forall user fld response db',
           Views.ApprovalControlAPI_post db now user fld = (response, db') ->
           db' <> db ->
           exists u, user = Some u /\ User.is_superuser u = true)
    /\ (forall user fld response db',
           Views.DesignationCreateAPI_post db now user fld = (response, db') ->
           db' <> db ->
           exists u, user = Some u /\ User.is_superuser u = true).
Proof.
  intros db now. split; [|split; [|split]].
  - intros request response db'. unfold Views.VoucherCreateAPI_post.
    destruct (Views.req_user request) as [u|];
      [|intros H Hne; inversion H; subst; now elim Hne].
    destruct (Views.in_group db u "Accountants") eqn:Hg; cbn [negb];
      [|intros H Hne; inversion H; subst; now elim Hne].
    intros _ _. exists u. auto.
  - intros user fld pk response db' Hpost Hne.
    destruct response as [t| |body code|e];
      try (now elim Hne; apply (approval_post_not_ok _ _ _ _ _ _ _ Hpost)).
    destruct (Z.eq_dec code 200) as [->|Hcode].
    2:{ elim Hne. apply (approval_post_not_ok _ _ _ _ _ _ _ Hpost).
        intros b E. inversion E. contradiction. }
    apply approval_post_ok in Hpost.
    destruct Hpost as (u & v & d & a & c & db1 & v' & Hu & Hg & Hget & _ & Hreq & _).
    exists u, v. auto.
  - intros user fld response db'. unfold Views.ApprovalControlAPI_post.
    destruct user as [u|]; [|intros H Hne; inversion H; subst; now elim Hne].
    destruct (User.is_superuser u) eqn:Hs; cbn [negb];
      [|intros H Hne; inversion H; subst; now elim Hne].
    intros _ _. exists u. auto.
  - intros user fld response db'. unfold Views.DesignationCreateAPI_post.
    destruct user as [u|]; [|intros H Hne; inversion H; subst; now elim Hne].
    destruct (User.is_superuser u) eqn:Hs; cbn [negb];
      [|intros H Hne; inversion H; subst; now elim Hne].
    intros _ _. exists u. auto.
Qed.

Lemma particulars_field_errors items e :
  Serializers.particulars_field items = inr (inl e) ->
  exists l, e = [("particulars", JList (map JObj l))].
Proof.
  unfold Serializers.particulars_field.
  destruct (Serializers.validate_particulars items) as [e'|[errs vals]]; [discriminate|].
  cbv beta iota. destruct (forallb _ _); [discriminate|].
  intros H. inversion H. eauto.
Qed.

(** Where the errors of [is_valid] come from: the fields, or [validate]
    on data every field accepted. *)
Lemma is_valid_errors data errs :
  Serializers.is_valid data = inr (inl errs) ->
  (exists items,
      Serializers.particulars_field (Serializers.in_particulars data) = inr items
      /\ errs
         = Serializers.field_errors "voucher_date"
             (Serializers.DateField (Serializers.in_voucher_date data))
           ++ Serializers.field_errors "payment_type"
                (Serializers.ChoiceField ["CASH"; "CHEQUE"; "PETTY_CASH"]
                   (Serializers.in_payment_type data))
           ++ Serializers.field_errors "name_title"
                (Serializers.ChoiceField ["MR"; "MRS"; "MS"]
                   (Serializers.in_name_title data))
           ++ Serializers.field_errors "pay_to"
                (Serializers.CharField 200 (Serializers.in_pay_to data))
           ++ Serializers.field_errors "cheque_number"
                (Serializers.CharField_nullable 20 (Serializers.in_cheque_number data))
           ++ Serializers.field_errors "attachment"
                (Serializers.attachment_field (Serializers.in_attachment data))
           ++ match items with inl e => e | inr _ => [] end)
  \/ (exists d pt nt payee cheque att ps,
         Serializers.attachment_field (Serializers.in_attachment data) = inr att
         /\ Serializers.particulars_field (Serializers.in_particulars data) = inr (inr ps)
         /\ Serializers.validate (Serializers.mkValidatedData d pt nt payee cheque att ps)
            = inr (inl errs)).
Proof.
  unfold Serializers.is_valid.
  destruct (Serializers.particulars_field _) as [e|items] eqn:Ep; [discriminate|].
  destruct (Serializers.DateField _) as [|d];
    destruct (Serializers.ChoiceField ["CASH"; "CHEQUE"; "PETTY_CASH"] _) as [|pt];
    destruct (Serializers.ChoiceField ["MR"; "MRS"; "MS"] _) as [|nt];
    destruct (Serializers.CharField 200 _) as [|payee];
    destruct (Serializers.CharField_nullable 20 _) as [|cheque];
    destruct (Serializers.attachment_field _) as [|att] eqn:Ea;
    destruct items as [e|ps];
    intros H;
    try (left; exists (@inl Serializers.Errors (list Serializers.ParticularData) e);
         split; [reflexivity | now inversion H]);
    try (left; exists (@inr Serializers.Errors (list Serializers.ParticularData) ps);
         split; [reflexivity | now inversion H]).
  right. exists d, pt, nt, payee, cheque, att, ps. auto.
Qed.

Lemma field_errors_reports {A} (ok : string -> Prop) field (r : list string + A) f m :
  (forall msgs, r = inl msgs -> Forall ok msgs) ->
  In (f, JStr m) (Serializers.field_errors field r)
  \/ In (f, JList [JStr m]) (Serializers.field_errors field r) ->
  ok m.
Proof.
  intros Hok. destruct r as [msgs|a]; cbn; [|tauto].
  specialize (Hok msgs eq_refl).
  intros [[H | []] | [H | []]]; inversion H as [[Ef Em]].
  destruct msgs as [|m0 [|m1 l]]; try discriminate.
  cbn in Em. inversion Em; subst. now inversion Hok.
Qed.

(** X20.  Two checks of [VoucherSerializer.validate] never fire: the
    field validation before it has already refused a particular without
    description and an attachment without name.  So no entry of the
    serializer's errors carries the message 'Each particular must have
    description and amount.' or 'This field is required.', neither bare nor
    as a one-element list. *)
Theorem X20_two_validate_checks_never_fire :
  forall (data : Serializers.InitialData) (errs : Serializers.Errors),
    Serializers.is_valid data = inr (inl errs) ->
    forall field m,
      reports errs field m ->
      m <> "Each particular must have description and amount."
      /\ m <> "This field is required.".
Proof.
  intros data errs Hvalid field m.
  set (ok := fun m : string =>
               m <> "Each particular must have description and amount."
               /\ m <> "This field is required.").
  change (reports errs field m -> ok m).
  assert (Hcons : forall msgs m0, ok m0 -> Forall ok msgs -> Forall ok (m0 :: msgs))
    by (intros; now constructor).
  assert (Hdate : forall x msgs, Serializers.DateField x = inl msgs -> Forall ok msgs).
  { intros x msgs. unfold Serializers.DateField.
    destruct x as [s|]; [destruct (parse_date s)|]; intros H; inversion H;
      repeat constructor; discriminate. }
  assert (Hchoice : forall choices x msgs,
             Serializers.ChoiceField choices x = inl msgs -> Forall ok msgs).
  { intros choices x msgs. unfold Serializers.ChoiceField.
    destruct x as [s|]; [destruct (mem_string s choices)|]; intros H; inversion H;
      repeat constructor; try discriminate;
      let c := eval vm_compute in Py.dquote in change Py.dquote with c;
      discriminate. }
  assert (Htext : forall ab n s msgs,
             Serializers.CharField_text ab n s = inl msgs -> Forall ok msgs).
  { intros ab n s msgs. unfold Serializers.CharField_text.
    destruct (negb (Py.truthy (Py.strip s))).
    - destruct ab; intros H; inversion H. repeat constructor; discriminate.
    - destruct (n <? String.length (Py.strip s))%nat;
        destruct (Serializers.has_null_char (Py.strip s)); cbn [app];
        intros H; inversion H; repeat constructor; cbn [append]; discriminate. }
  assert (Hchar : forall n x msgs, Serializers.CharField n x = inl msgs -> Forall ok msgs).
  { intros n x msgs. unfold Serializers.CharField. destruct x as [s|]; [apply Htext|].
    intros H; inversion H. repeat constructor; discriminate. }
  assert (Hnullable : forall n x msgs,
             Serializers.CharField_nullable n x = inl msgs -> Forall ok msgs).
  { intros n x msgs. unfold Serializers.CharField_nullable.
    destruct x as [s|]; [|discriminate].
    destruct (Serializers.CharField_text true n s) as [ms|v] eqn:E; [|discriminate].
    intros H. inversion H; subst. now apply (Htext true n s). }
  assert (Hatt : forall f msgs, Serializers.attachment_field f = inl msgs -> Forall ok msgs).
  { intros f msgs.
    unfold Serializers.attachment_field, Serializers.FileField,
      Serializers.FileExtensionValidator, Serializers.validate_attachment.
    destruct (negb (Py.truthy (file_name f))) eqn:Et;
      [intros H; inversion H; repeat constructor; discriminate|].
    destruct (file_size f =? 0)%N;
      [intros H; inversion H; repeat constructor; discriminate|].
    destruct (mem_string _ _);
      [|intros H; inversion H; repeat constructor; discriminate].
    rewrite Et.
    destruct (Serializers.max_upload_size <? file_size f)%N;
      [intros H; inversion H; repeat constructor; discriminate | discriminate]. }
  apply is_valid_errors in Hvalid.
  destruct Hvalid as [(items & Ep & ->) | (d & pt & nt & payee & cheque & att & ps
                                           & Ea & Ep & Hval)].
  - assert (Hsplit : forall (a b : Serializers.Errors),
               reports (a ++ b) field m -> reports a field m \/ reports b field m).
    { unfold reports. intros a b [H | H]; apply in_app_or in H; tauto. }
    intros H.
    apply Hsplit in H. destruct H as [H | H];
      [exact (field_errors_reports ok _ _ _ _ (Hdate _) H)|].
    apply Hsplit in H. destruct H as [H | H];
      [exact (field_errors_reports ok _ _ _ _ (Hchoice _ _) H)|].
    apply Hsplit in H. destruct H as [H | H];
      [exact (field_errors_reports ok _ _ _ _ (Hchoice _ _) H)|].
    apply Hsplit in H. destruct H as [H | H];
      [exact (field_errors_reports ok _ _ _ _ (Hchar _ _) H)|].
    apply Hsplit in H. destruct H as [H | H];
      [exact (field_errors_reports ok _ _ _ _ (Hnullable _ _) H)|].
    apply Hsplit in H. destruct H as [H | H];
      [exact (field_errors_reports ok _ _ _ _ (Hatt _) H)|].
    destruct items as [e|ps]; [|destruct H as [[] | []]].
    apply particulars_field_errors in Ep. destruct Ep as (l & ->).
    destruct H as [[H | []] | [H | []]]; inversion H as [[Ef Em]].
    destruct l as [|x [|y l]]; discriminate.
  - apply particulars_field_inr in Ep.
    assert (Hname : Py.truthy (file_name att) = true).
    { pose proof (attachment_field_spec (Serializers.in_attachment data)) as Hs.
      destruct (attachment_ok (Serializers.in_attachment data)) eqn:Hok.
      - rewrite Hs in Ea. inversion Ea; subst att. unfold attachment_ok in Hok.
        repeat (apply andb_true_iff in Hok; destruct Hok as [Hok _]). exact Hok.
      - destruct Hs as (ms & Hs). rewrite Hs in Ea. discriminate. }
    assert (Hdesc : existsb (fun p => negb (Py.truthy (Serializers.pd_description p))) ps
                    = false).
    { clear -Ep. induction Ep as [|p ps [Hp _] _ IH]; [reflexivity|].
      cbn [existsb]. now rewrite Hp, IH. }
    revert Hval. unfold Serializers.validate.
    cbn [Serializers.vd_particulars Serializers.vd_attachment
         Serializers.vd_payment_type Serializers.vd_cheque_number].
    rewrite Hdesc, Hname. cbn [negb]. unfold reports.
    destruct ps as [|p0 ps].
    + intros H. inversion H; subst.
      intros [[E | []] | [E | []]]; inversion E; subst; split; discriminate.
    + destruct (String.eqb pt "CHEQUE"); [|discriminate].
      destruct cheque as [raw|]; [|discriminate].
      destruct (negb (Py.truthy (Py.strip raw))).
      { intros H. inversion H; subst.
        intros [[E | []] | [E | []]]; inversion E; subst; split; discriminate. }
      destruct (negb (Py.isdigit (Py.strip raw))); [|discriminate].
      intros H. inversion H; subst.
      intros [[E | []] | [E | []]]; inversion E; subst; split; discriminate.
Qed.

End Gates.

(** ** Worked instances on the sample database *)

Lemma C2_sample :
  approver_schema Sample.db
  /\ NoDup (Models.required_approvers Sample.db Sample.voucher1)
  /\ (forall name, In name (Models.required_approvers Sample.db Sample.voucher1)
                   <-> eligible_approver Sample.db name)
  /\ (forall v', Models.required_approvers Sample.db v'
                 = Models.required_approvers Sample.db Sample.voucher1)
  /\ ((forall d, ~ active_designation Sample.db d) ->
      Models.required_approvers Sample.db Sample.voucher1 = []).
Proof.
  assert (H : approver_schema Sample.db).
  { split; simpl; repeat constructor; simpl; intuition discriminate. }
  split; [exact H|].
  exact (C2_required_approvers_exact Sample.db Sample.voucher1 H).
Defined.

Lemma C1_sample :
  let r := Views.VoucherApprovalAPI_post Sample.db 20 (Some Sample.alice)
             (Value (SStr "REJECTED")) 1 in
  exists old row decision,
    Views.get_voucher Sample.db 1 = Some old
    /\ Views.get_voucher (snd r) 1 = Some row
    /\ Views.decision_of (Value (SStr "REJECTED")) = Some decision
    /\ recomputation_rule (snd r) (Voucher.status old) row
    /\ (decision = "REJECTED" -> Voucher.status row = "REJECTED").
Proof.
  intros r.
  eapply (C1_status_follows_recomputation_rule Sample.db 20 (Some Sample.alice)
            (Value (SStr "REJECTED")) 1 _ (snd r)).
  vm_compute. reflexivity.
Defined.

Lemma C3_sample :
  let r := Views.VoucherApprovalAPI_post Sample.db 20 (Some Sample.alice)
             (Value (SStr "REJECTED")) 1 in
  exists a,
    pair_rows (snd r) 1 1 = [a]
    /\ VoucherApproval.status a = "REJECTED"
    /\ ((pair_rows Sample.db 1 1 = [] /\ VoucherApproval.approved_at a = 20)
        \/ (exists old, pair_rows Sample.db 1 1 = [old]
                        /\ VoucherApproval.id a = VoucherApproval.id old
                        /\ VoucherApproval.approved_at a
                           = VoucherApproval.approved_at old)).
Proof.
  intros r.
  eapply (C3_upsert_one_row_per_pair Sample.db 20 Sample.alice
            (Value (SStr "REJECTED")) 1 _ (snd r) "REJECTED").
  - vm_compute. reflexivity.
  - reflexivity.
Defined.


Lemma C5_sample :
  activation_pk Sample.db /\ activation_unique Sample.db
  /\ User.is_superuser Sample.root = true
  /\ exists body db1,
      Views.ApprovalControlAPI_post Sample.db 30 (Some Sample.root)
        (Items [SInt 2; SStr "7"]) = (JsonResponse body 200, db1)
      /\ designations db1 = designations Sample.db
      /\ (forall d, In d (designations db1) ->
                    (active_designation db1 (Designation.id d)
                     <-> listed (Designation.id d) [SInt 2; SStr "7"]))
      /\ exists body' db2,
          Views.ApprovalControlAPI_post db1 31 (Some Sample.root)
            (Items [SInt 2; SStr "7"]) = (JsonResponse body' 200, db2)
          /\ activation db2 = activation db1
          /\ forall v, Models.required_approvers db2 v = Models.required_approvers db1 v.
Proof.
  assert (Hpk : activation_pk Sample.db)
    by (unfold activation_pk; simpl; repeat constructor; simpl; intuition discriminate).
  assert (Hu : activation_unique Sample.db)
    by (unfold activation_unique; simpl; repeat constructor; simpl; intuition discriminate).
  split; [exact Hpk|]. split; [exact Hu|]. split; [reflexivity|].
  exact (C5_set_active_set_replaces_and_is_idempotent Sample.db 30 31 Sample.root
           [SInt 2; SStr "7"] Hpk Hu eq_refl).
Defined.

Lemma C8_sample :
  snd (Sample.submit Sample.db 50 (Sample.submission_with "CHEQUE" "12A4" "7"))
  = Sample.db.
Proof.
  eapply (@C8_validation_failure_writes_nothing AsciiRuntime.runtime Sample.db 50
            (Sample.submission_with "CHEQUE" "12A4" "7")).
  vm_compute. reflexivity.
Defined.

Lemma C4_sample :
  let r := Sample.submit Sample.db 50 Sample.submission in
  exists voucher,
    vouchers (snd r) = vouchers Sample.db ++ [voucher]
    /\ Voucher.cheque_number voucher = Some "1204".
Proof.
  intros r.
  destruct (@C4_cheque_number_rule AsciiRuntime.runtime Sample.db 50 Sample.submission
              (fst r) (snd r)) as [Hcreated _].
  { vm_compute. reflexivity. }
  edestruct Hcreated as (voucher & Hvs & Hcheque & _).
  { vm_compute. reflexivity. }
  exists voucher. split; [exact Hvs|].
  destruct (Hcheque eq_refl) as (_ & _ & E). exact E.
Defined.


Lemma C7_sample :
  let db1 := snd (Sample.submit Sample.fresh_db 40 Sample.submission) in
  let db2 := snd (Sample.submit db1 50 Sample.submission) in
  exists voucher,
    vouchers db2 = vouchers db1 ++ [voucher]
    /\ Voucher.voucher_number voucher = "VCH0002".
Proof.
  intros db1 db2.
  assert (Hreach : @reachable AsciiRuntime.runtime db1).
  { eapply (@reach_submit AsciiRuntime.runtime Sample.fresh_db 40 Sample.submission
              (fst (Sample.submit Sample.fresh_db 40 Sample.submission))).
    - apply reach_start. reflexivity.
    - vm_compute. reflexivity. }
  edestruct (@C7_next_voucher_number AsciiRuntime.runtime db1 50 Sample.submission)
    as (voucher & Hvs & Hnum & _).
  - exact Hreach.
  - vm_compute. reflexivity.
  - exists voucher. split; [exact Hvs|]. exact Hnum.
Defined.

(** ** The cheque scenarios of the specification *)

Example cheque_12A4_fails :
  Sample.submit Sample.db 50 (Sample.submission_with "CHEQUE" "12A4" "7")
  = (JsonResponse
       (JObj [("cheque_number", JList [JStr "Cheque number must contain only digits."])])
       400,
     Sample.db).
Proof. vm_compute. reflexivity. Qed.

Example cheque_1204_succeeds :
  exists body db',
    Sample.submit Sample.db 50 (Sample.submission_with "CHEQUE" "1204" "7")
    = (JsonResponse body 201, db')
    /\ map Voucher.cheque_number (vouchers db') = [None; Some "1204"].
Proof. do 2 eexists. split; vm_compute; reflexivity. Qed.

Example cheque_with_superscript_is_stored :
  exists body db',
    Sample.submit Sample.db 50 (Sample.submission_with "CHEQUE" Sample.twelve_squared "7")
    = (JsonResponse body 201, db')
    /\ map Voucher.cheque_number (vouchers db') = [None; Some Sample.twelve_squared].
Proof. do 2 eexists. split; vm_compute; reflexivity. Qed.

Example cash_clears_cheque_number :
  exists body db',
    Sample.submit Sample.db 50 (Sample.submission_with "CASH" "1204" "7")
    = (JsonResponse body 201, db')
    /\ map Voucher.cheque_number (vouchers db') = [None; None].
Proof. do 2 eexists. split; vm_compute; reflexivity. Qed.

(** ** Voucher numbers in a table written by other means

    [Voucher.save] reads the number of the voucher with the greatest key.
    In a table whose rows were not numbered by it (here VCH0005 under key 1
    and VCH0002 under key 2) the next number follows that voucher. *)
Example number_follows_greatest_key :
  exists body db',
    Sample.submit
      (Models.set_vouchers Sample.fresh_db
         [Voucher.mk 1 "VCH0005" (mkDate 2024 5 18) "CASH" "MR" "Acme Ltd" None None
                     3 6 "PENDING";
          Voucher.mk 2 "VCH0002" (mkDate 2024 5 18) "CASH" "MR" "Acme Ltd" None None
                     3 7 "PENDING"])
      50 Sample.submission
    = (JsonResponse body 201, db')
    /\ map Voucher.voucher_number (vouchers db') = ["VCH0005"; "VCH0002"; "VCH0003"].
Proof. do 2 eexists. split; vm_compute; reflexivity. Qed.

(** ** Worked instances of the further facts *)

Lemma X1_sample :
  let r := Views.DesignationCreateAPI_post Sample.db 30 (Some Sample.root)
             (Value (SStr " Auditor ")) in
  exists body d,
    fst r = JsonResponse body 201
    /\ designations (snd r) = designations Sample.db ++ [d]
    /\ Designation.name d = "Auditor".
Proof.
  intros r.
  destruct (X1_designation_create_effect Sample.db 30 (Some Sample.root)
              (Value (SStr " Auditor ")) (fst r) (snd r) eq_refl) as (_ & _ & H3 & H4).
  destruct (H4 Sample.root " Auditor " eq_refl eq_refl eq_refl eq_refl) as (body & E).
  { vm_compute. intuition discriminate. }
  destruct (H3 body E) as (u & raw & d & _ & _ & Eraw & Hd & _ & Hname & _).
  exists body, d. split; [exact E|]. split; [exact Hd|].
  inversion Eraw; subst raw. exact Hname.
Defined.

Lemma X3_sample :
  let r := Views.ApprovalControlAPI_post Sample.db 30 (Some Sample.root)
             (Items [SInt 2; SStr "7"]) in
  activation_pk Sample.db
  /\ forall d, In d (designations Sample.db) ->
               stamped (snd r) (Designation.id d)
                       (Views.id_in_active_ids (Designation.id d) [SInt 2; SStr "7"])
                       4 30.
Proof.
  intros r.
  assert (Hpk : activation_pk Sample.db)
    by (unfold activation_pk; simpl; repeat constructor; simpl; intuition discriminate).
  split; [exact Hpk|].
  assert (H : exists body, r = (JsonResponse body 200, snd r))
    by (eexists; vm_compute; reflexivity).
  destruct H as (body & Hpost).
  destruct (X3_control_post_stamps_every_designation Sample.db 30 (Some Sample.root)
              (Items [SInt 2; SStr "7"]) body (snd r) Hpk Hpost)
    as (actor & ids & Eu & Eids & Hall & _).
  inversion Eu; subst actor. inversion Eids; subst ids. exact Hall.
Defined.

Lemma X2_sample :
  let r := Views.ApprovalControlAPI_post Sample.db 30 (Some Sample.root)
             (Items [SInt 2; SStr "7"]) in
  activation_pk Sample.db /\ activation_fk Sample.db
  /\ exists active all,
      Views.ApprovalControlAPI_get (snd r) (Some Sample.root)
      = JsonResponse (JObj [("active_designations", JList (map JInt active));
                            ("all_designations", JList all)]) 200
      /\ forall x, In x active <->
                   In x (map Designation.id (designations Sample.db))
                   /\ listed x [SInt 2; SStr "7"].
Proof.
  intros r.
  assert (Hpk : activation_pk Sample.db)
    by (unfold activation_pk; simpl; repeat constructor; simpl; intuition discriminate).
  assert (Hfk : activation_fk Sample.db)
    by (unfold activation_fk; simpl; intros a [<- | [<- | []]]; simpl; auto).
  split; [exact Hpk|]. split; [exact Hfk|].
  assert (H : exists body, r = (JsonResponse body 200, snd r))
    by (eexists; vm_compute; reflexivity).
  destruct H as (body & Hpost).
  destruct (X2_control_get_after_post Sample.db 30 (Some Sample.root)
              [SInt 2; SStr "7"] body (snd r) Hpk Hfk Hpost)
    as (active & all & E & Hiff & _).
  exists active, all. split; [exact E | exact Hiff].
Defined.

Lemma X4_sample :
  let r := Views.VoucherApprovalAPI_post Sample.db 20 (Some Sample.alice)
             (Value (SStr "REJECTED")) 1 in
  same_but_decisions Sample.db (snd r)
  /\ exists st, vouchers (snd r)
                = map (fun w => if Voucher.id w =? 1 then Models.set_status w st else w)
                      (vouchers Sample.db).
Proof.
  intros r.
  destruct (X4_decision_frame Sample.db 20 (Some Sample.alice) (Value (SStr "REJECTED")) 1
              (fst r) (snd r) eq_refl) as (H1 & _ & [H3 | H3]).
  - vm_compute in H3. discriminate H3.
  - split; [exact H1 | exact H3].
Defined.

Lemma X5_sample :
  let r := Views.VoucherApprovalAPI_post Sample.db 20 (Some Sample.alice)
             (Value (SStr "REJECTED")) 1 in
  exists body,
    r = (JsonResponse body 200, snd r)
    /\ Views.VoucherApprovalAPI_post (snd r) 21 (Some Sample.alice)
         (Value (SStr "REJECTED")) 1
       = (JsonResponse body 200, snd r).
Proof.
  intros r.
  assert (H : exists body, r = (JsonResponse body 200, snd r))
    by (eexists; vm_compute; reflexivity).
  destruct H as (body & E). exists body. split; [exact E|].
  exact (X5_repeated_decision_changes_nothing Sample.db 20 21 (Some Sample.alice)
           (Value (SStr "REJECTED")) 1 body (snd r) E).
Defined.


Lemma X7_sample :
  let r := Sample.submit Sample.fresh_db 40 Sample.submission in
  exists voucher,
    vouchers (snd r) = [voucher]
    /\ Voucher.created_by voucher = 3
    /\ Voucher.created_at voucher = 40
    /\ Voucher.status voucher = "PENDING".
Proof.
  intros r.
  assert (H : exists body,
             @Views.VoucherCreateAPI_post AsciiRuntime.runtime Sample.fresh_db 40
               Sample.submission = Some (JsonResponse body 201, snd r))
    by (eexists; vm_compute; reflexivity).
  destruct H as (body & Hpost).
  pose proof (@X7_created_voucher_mirrors_the_form AsciiRuntime.runtime Sample.fresh_db 40
                Sample.submission body (snd r) Hpost) as H.
  cbv zeta in H.
  destruct H as (u & voucher & Eu & _ & Hvs & _ & Hby & Hat & Hst & _).
  exists voucher. inversion Eu; subst u. auto.
Defined.

Lemma X8_sample :
  let r := Sample.submit Sample.fresh_db 40 Sample.submission in
  exists att voucher,
    Views.get "attachment" (Views.req_FILES Sample.submission) = Some att
    /\ attachment_ok att = true
    /\ vouchers (snd r) = vouchers Sample.fresh_db ++ [voucher]
    /\ Voucher.attachment voucher
       = Some (@storage_save AsciiRuntime.runtime (media Sample.fresh_db)
                 "vouchers/attachments/" (file_name att))
    /\ In (@storage_save AsciiRuntime.runtime (media Sample.fresh_db)
             "vouchers/attachments/" (file_name att))
          (media (snd r)).
Proof.
  intros r.
  assert (Hpost : @Views.VoucherCreateAPI_post AsciiRuntime.runtime Sample.fresh_db 40
                    Sample.submission = Some (fst r, snd r))
    by (vm_compute; reflexivity).
  eapply (proj1 (@X8_main_attachment_rule AsciiRuntime.runtime Sample.fresh_db 40
                   Sample.submission (fst r) (snd r) Hpost)).
  vm_compute. reflexivity.
Defined.

Lemma X9_sample :
  let r := Sample.submit Sample.fresh_db 40 Sample.submission in
  let data := Views.req_POST Sample.submission in
  exists voucher rows n,
    vouchers (snd r) = vouchers Sample.fresh_db ++ [voucher]
    /\ particulars (snd r) = particulars Sample.fresh_db ++ rows
    /\ rows_end data n
    /\ Forall2 (@stored_row AsciiRuntime.runtime Sample.fresh_db (snd r) data
                  (Views.req_FILES Sample.submission) (Voucher.id voucher))
               (complete_rows data n) rows.
Proof.
  intros r data.
  assert (H : exists body,
             @Views.VoucherCreateAPI_post AsciiRuntime.runtime Sample.fresh_db 40
               Sample.submission = Some (JsonResponse body 201, snd r))
    by (eexists; vm_compute; reflexivity).
  destruct H as (body & Hpost).
  exact (@X9_stored_particulars_are_the_complete_rows AsciiRuntime.runtime Sample.fresh_db
           40 Sample.submission body (snd r) Hpost).
Defined.

Lemma X10_sample :
  let request := Views.mkCreateRequest (Some Sample.carol)
                   [("voucher_date", "2024-05-17");
                    ("particulars[0][description]", "Taxi");
                    ("particulars[0][amount]", "  ")]
                   [("attachment", mkFile "bill.pdf" 1000)] in
  rows_end (Views.req_POST request) 1
  /\ @Views.VoucherCreateAPI_post AsciiRuntime.runtime Sample.db 50 request
     = Some (Views.bad_request "particulars" "At least one particular is required.",
             Sample.db).
Proof.
  intros request.
  assert (Hend : rows_end (Views.req_POST request) 1).
  { split; [|reflexivity]. intros j Hj. assert (j = 0%nat) by lia. subst j. reflexivity. }
  split; [exact Hend|].
  apply (@X10_no_complete_row_no_voucher AsciiRuntime.runtime Sample.db 50 request
           Sample.carol 1%nat); [reflexivity | reflexivity | exact Hend |].
  intros j Hj. assert (j = 0%nat) by lia. subst j. reflexivity.
Defined.

Lemma X11_sample :
  let db1 := snd (Sample.submit Sample.fresh_db 40 Sample.submission) in
  @reachable AsciiRuntime.runtime db1
  /\ Forall status_known (vouchers db1)
  /\ NoDup (map Voucher.id (vouchers db1))
  /\ NoDup (map Voucher.voucher_number (vouchers db1)).
Proof.
  intros db1.
  assert (Hreach : @reachable AsciiRuntime.runtime db1).
  { eapply (@reach_submit AsciiRuntime.runtime Sample.fresh_db 40 Sample.submission
              (fst (Sample.submit Sample.fresh_db 40 Sample.submission))).
    - apply reach_start. reflexivity.
    - vm_compute. reflexivity. }
  split; [exact Hreach|].
  exact (@X11_reachable_vouchers_are_well_formed AsciiRuntime.runtime db1 Hreach).
Defined.

Lemma X12_sample :
  let db1 := snd (Sample.submit Sample.fresh_db 40 Sample.submission) in
  let r := Sample.submit db1 50 Sample.submission in
  @reachable AsciiRuntime.runtime db1 /\ forall e, fst r <> Raised e.
Proof.
  intros db1 r.
  assert (Hreach : @reachable AsciiRuntime.runtime db1).
  { eapply (@reach_submit AsciiRuntime.runtime Sample.fresh_db 40 Sample.submission
              (fst (Sample.submit Sample.fresh_db 40 Sample.submission))).
    - apply reach_start. reflexivity.
    - vm_compute. reflexivity. }
  split; [exact Hreach|].
  apply (@X12_submission_never_raises AsciiRuntime.runtime db1 50 Sample.submission
           (fst r) (snd r) Hreach).
  vm_compute. reflexivity.
Defined.

Lemma X13_sample :
  let db1 := snd (Sample.submit Sample.fresh_db 40 Sample.submission) in
  let r := Views.VoucherApprovalAPI_request db1 50 (Some Sample.alice)
             Views.NotMapping 1 in
  @reachable AsciiRuntime.runtime db1 /\ approvals_unique db1
  /\ fst r = Raised AttributeError /\ snd r = db1.
Proof.
  intros db1 r.
  assert (Hreach : @reachable AsciiRuntime.runtime db1).
  { eapply (@reach_submit AsciiRuntime.runtime Sample.fresh_db 40 Sample.submission
              (fst (Sample.submit Sample.fresh_db 40 Sample.submission))).
    - apply reach_start. reflexivity.
    - vm_compute. reflexivity. }
  assert (Hu : approvals_unique db1) by (unfold approvals_unique; simpl; constructor).
  split; [exact Hreach|]. split; [exact Hu|].
  assert (Hreq : Views.VoucherApprovalAPI_request db1 50 (Some Sample.alice)
                   Views.NotMapping 1 = (fst r, snd r))
    by (vm_compute; reflexivity).
  destruct (@X13_decision_raises_only_without_a_mapping AsciiRuntime.runtime db1 50
              (Some Sample.alice) Views.NotMapping 1 (fst r) (snd r) Hreach Hu Hreq)
    as [Honly Hraise].
  assert (Hget : exists v, Views.get_voucher db1 1 = Some v)
    by (eexists; vm_compute; reflexivity).
  destruct Hget as (v & Hget).
  assert (E : fst r = Raised AttributeError)
    by (apply (Hraise Sample.alice v); [reflexivity | reflexivity | reflexivity | exact Hget]).
  split; [exact E|].
  destruct (Honly AttributeError E) as (_ & _ & Edb & _). exact Edb.
Defined.

Lemma X16_sample :
  let r := Views.VoucherApprovalAPI_post Sample.db 20 (Some Sample.alice)
             (Value (SStr "REJECTED")) 1 in
  exists v' a,
    Views.get_voucher (snd r) 1 = Some v'
    /\ Views.user_approval (snd r) v' Sample.alice = inr (Some a)
    /\ VoucherApproval.status a = "REJECTED"
    /\ In ("alice", false) (Views.pending_approvers (snd r) v').
Proof.
  intros r.
  assert (Hnames : NoDup (map User.username (users Sample.db)))
    by (simpl; repeat constructor; simpl; intuition discriminate).
  assert (Hin : In Sample.alice (users Sample.db)) by (simpl; auto).
  assert (Hget : exists v', Views.get_voucher (snd r) 1 = Some v')
    by (eexists; vm_compute; reflexivity).
  destruct Hget as (v' & Hget).
  assert (H : exists body, r = (JsonResponse body 200, snd r))
    by (eexists; vm_compute; reflexivity).
  destruct H as (body & Hpost).
  destruct (X16_pages_show_the_decision Sample.db 20 Sample.alice
              (Value (SStr "REJECTED")) 1 body (snd r) v' Hnames Hin Hpost Hget)
    as (decision & a & Hdec & Hmine & Hst & Hpend).
  cbn in Hdec. injection Hdec as Ed. rewrite <- Ed in Hst, Hpend.
  exists v', a. split; [exact Hget|]. split; [exact Hmine|].
  split; [exact Hst | exact Hpend].
Defined.

Lemma X17_sample :
  reads_as (SStr "7") 7 /\ reads_as (SInt 10) 10
  /\ Templatetags.sub (SStr "7") (SInt 10) = 7 - 10.
Proof.
  assert (Hx : reads_as (SStr "7") 7).
  { right. split; [reflexivity|]. apply Nat.leb_le. vm_compute. reflexivity. }
  assert (Hy : reads_as (SInt 10) 10) by (left; reflexivity).
  split; [exact Hx|]. split; [exact Hy|].
  exact (proj1 X17_sub_filter (SStr "7") (SInt 10) 7 10 Hx Hy).
Defined.

Lemma X18_sample :
  approvals_unique Sample.db
  /\ exists r,
      Views.user_approval Sample.db Sample.voucher1 Sample.alice = inr r
      /\ forall a, r = Some a <->
                   In a (approvals Sample.db)
                   /\ VoucherApproval.voucher a = Voucher.id Sample.voucher1
                   /\ VoucherApproval.approver a = User.id Sample.alice.
Proof.
  assert (Hu : approvals_unique Sample.db)
    by (unfold approvals_unique; simpl; repeat constructor; simpl; intuition discriminate).
  split; [exact Hu|].
  exact (X18_own_approval_lookup Sample.db Sample.voucher1 Sample.alice Hu).
Defined.

Lemma X19_sample :
  exists u, Views.req_user Sample.submission = Some u
            /\ Views.in_group Sample.fresh_db u "Accountants" = true.
Proof.
  apply (proj1 (@X19_writes_require_the_role AsciiRuntime.runtime Sample.fresh_db 40)
           Sample.submission
           (fst (Sample.submit Sample.fresh_db 40 Sample.submission))
           (snd (Sample.submit Sample.fresh_db 40 Sample.submission))).
  - vm_compute. reflexivity.
  - intros E. vm_compute in E. discriminate E.
Defined.

Lemma X20_sample :
  let data := Serializers.mkInitialData (Some "2024-05-17") (Some "CHEQUE") (Some "MR")
                (Some "Acme Ltd") (Some "12A4") (mkFile "bill.pdf" 1000)
                [Serializers.mkParticularData "Taxi" (Py.Finite false 1050 (-2)) None] in
  let errs := [("cheque_number", JList [JStr "Cheque number must contain only digits."])] in
  @Serializers.is_valid AsciiRuntime.runtime data = inr (inl errs)
  /\ reports errs "cheque_number" "Cheque number must contain only digits."
  /\ "Cheque number must contain only digits."
     <> "Each particular must have description and amount."
  /\ "Cheque number must contain only digits." <> "This field is required.".
Proof.
  intros data errs.
  assert (Hv : @Serializers.is_valid AsciiRuntime.runtime data = inr (inl errs))
    by (vm_compute; reflexivity).
  assert (Hr : reports errs "cheque_number" "Cheque number must contain only digits.")
    by (right; simpl; auto).
  split; [exact Hv|]. split; [exact Hr|].
  exact (@X20_two_validate_checks_never_fire AsciiRuntime.runtime data errs Hv
           "cheque_number" "Cheque number must contain only digits." Hr).
Defined.
